(** * hapi: the Codex app-server notification converter and the remote
    launcher's tool-call emitter

    A shallow embedding of
    - [cli/src/codex/utils/appServerEventConverter.ts]
      (class [AppServerEventConverter]: [handleNotification], [reset] and the
      field extractors above it), and
    - the event handler of [cli/src/codex/codexRemoteLauncher.ts]
      ([handleCodexEvent] with [extractCallId], [emitToolCall],
      [emitToolResult], [toTraceFields], [stripEnvelopeFields]),
    followed by the properties the specification states about them.

    JavaScript values are modelled by the inductive type [Js.value]; the
    converter's seven [Map]s are finite maps keyed by strings; the launcher's
    calls on its collaborators are recorded, in order, in an effect log.

    - [Js] : values, objects, strings.
    - [Converter] : the converter, as a function from a notification and the
      converter's maps to the events returned and the maps afterwards.
    - [Launcher] : the event handler, as a computation over the launcher's
      variables that logs what it sends.
    - [ConverterNotions], [LauncherNotions] : notions for further
      properties of the two.
    - [Session] : the notification handler the launcher installs, which
      feeds the converter's events to the event handler.
    - [Config] : the thread and turn start parameters
      ([cli/src/codex/utils/appServerConfig.ts]).
    - [PermissionAdapter] : the approval request handlers
      ([cli/src/codex/utils/appServerPermissionAdapter.ts]).
    - [JsFacts], [ConverterFacts], [LauncherFacts] : the properties the
      specification states.
    - [ConfigFacts], [PermissionFacts], [ConverterMore], [LauncherMore],
      [SessionFacts] : further properties of the code. *)

From Stdlib Require Import ZArith NArith String Ascii List Bool Lia.
From stdpp Require Import base option list strings gmap pretty.

Set Warnings "-register-all".
Local Open Scope string_scope.
Local Open Scope list_scope.

(* ===================================================================== *)
(** ** JavaScript values *)
(* ===================================================================== *)

Module Js.

(** A [number] keeps what the code observes of an IEEE double: whether it is
    finite ([Number.isFinite]), whether it is truthy, and its [String(..)]
    image. Finite numbers are the integral ones that [String] writes in
    decimal digits, those of magnitude below ten to the power 21. *)
Inductive number : Type :=
| Finite (z : Z)
| NaN
| Infinity (negative : bool).

(** A string is its sequence of code units, each below 256. An object is the
    list of its own properties in insertion order, no key twice; on a list
    that repeats a key the first entry is the property. What an object
    inherits from its prototype is no part of the list, and the code's
    enumeration of the keys that are array indices before the others is
    not followed: nothing below reads an inherited property or depends on
    the order of the keys of an object the code builds. *)
Inductive value : Type :=
| VUndefined
| VNull
| VBool (b : bool)
| VNum (n : number)
| VStr (s : string)
| VArr (items : list value)
| VObj (fields : list (string * value)).

Abbreviation obj := (list (string * value)).

(** [typeof v === 'object' && v] : what [asRecord] lets through. An array is a
    record none of whose named properties is defined (the code never reads
    [length] or an index from a record). *)
Inductive record : Type :=
| RObj (fields : obj)
| RArr (items : list value).

Definition record_value (r : record) : value :=
  match r with
  | RObj fs => VObj fs
  | RArr l => VArr l
  end.

(** The own property [k] of a plain object, if it has one. *)
Fixpoint find_key (k : string) (o : obj) : option value :=
  match o with
  | [] => None
  | (k', v) :: rest => if String.eqb k k' then Some v else find_key k rest
  end.

(** [o.k] on a plain object. *)
Definition get (k : string) (o : obj) : value :=
  match find_key k o with
  | Some v => v
  | None => VUndefined
  end.

(** [o.k = v] : overwrite in place, or append a new property. *)
Fixpoint put (k : string) (v : value) (o : obj) : obj :=
  match o with
  | [] => [(k, v)]
  | (k', v') :: rest =>
      if String.eqb k k' then (k, v) :: rest else (k', v') :: put k v rest
  end.

(** [o[k] = v] for a key computed at run time, on an object the code created
    with [{}]. The key [__proto__] names the accessor of [Object.prototype]:
    assigning to it creates no own property (it replaces the prototype when
    [v] is an object or null, and does nothing otherwise). *)
Definition assign (k : string) (v : value) (o : obj) : obj :=
  if String.eqb k "__proto__" then o else put k v o.

(** [delete o.k]. *)
Fixpoint remove (k : string) (o : obj) : obj :=
  match o with
  | [] => []
  | (k', v') :: rest =>
      if String.eqb k k' then remove k rest else (k', v') :: remove k rest
  end.

(** [{ ...base, ...extra }] : for each property of [extra], in order, the
    value [extra] has for it is assigned onto [base]. *)
Definition spread (base extra : obj) : obj :=
  fold_left (fun acc kv => put (fst kv) (get (fst kv) extra) acc) extra base.

(** An object literal [{ p1, p2, ... }] whose parts are properties or
    spreads, evaluated left to right. *)
Definition literal (parts : list obj) : obj :=
  fold_left spread parts [].

(** The part of an object literal that decides a property: the last one
    that has it. *)
Fixpoint find_part (k : string) (parts : list obj) : option value :=
  match parts with
  | [] => None
  | part :: rest =>
      match find_part k rest with
      | Some v => Some v
      | None => find_key k part
      end
  end.

(** [r.k] on a record. *)
Definition prop (r : record) (k : string) : value :=
  match r with
  | RObj fs => get k fs
  | RArr _ => VUndefined
  end.

(** [r?.k] *)
Definition oprop (r : option record) (k : string) : value :=
  match r with
  | Some r => prop r k
  | None => VUndefined
  end.

Definition nullish (v : value) : bool :=
  match v with
  | VUndefined | VNull => true
  | _ => false
  end.

(** [a ?? b] *)
Definition coalesce (a b : value) : value :=
  if nullish a then b else a.

(** [a ?? b] where [a : T | null] and [b : T]. *)
Definition or_else {A : Type} (a : option A) (b : A) : A :=
  match a with
  | Some x => x
  | None => b
  end.

(** [a ?? b] where both sides are [T | null]. *)
Definition or_opt {A : Type} (a b : option A) : option A :=
  match a with
  | Some x => Some x
  | None => b
  end.

Definition nonempty (s : string) : bool :=
  match s with
  | EmptyString => false
  | String _ _ => true
  end.

(** [Boolean(v)] *)
Definition truthy (v : value) : bool :=
  match v with
  | VUndefined | VNull => false
  | VBool b => b
  | VNum (Finite z) => negb (Z.eqb z 0)
  | VNum NaN => false
  | VNum (Infinity _) => true
  | VStr s => nonempty s
  | VArr _ | VObj _ => true
  end.


(** *** Strings *)

Definition code (c : ascii) : N := N_of_ascii c.

(** [String.prototype.toLowerCase] on code units below 256: A-Z and the
    capital letters of the Latin-1 supplement (all of U+00C0..U+00DE but the
    multiplication sign U+00D7) move up by 32. *)
Definition lower_char (c : ascii) : ascii :=
  let n := code c in
  if ((65 <=? n) && (n <=? 90)
      || (192 <=? n) && (n <=? 222) && negb (n =? 215))%N
  then ascii_of_N (n + 32) else c.

Fixpoint toLowerCase (s : string) : string :=
  match s with
  | EmptyString => EmptyString
  | String c rest => String (lower_char c) (toLowerCase rest)
  end.

(** White space and line terminators below 256: TAB, LF, VT, FF, CR, SP and
    NBSP. This is the class [\s] of a regular expression and what [trim]
    removes. *)
Definition is_space (c : ascii) : bool :=
  let n := code c in
  ((9 <=? n) && (n <=? 13) || (n =? 32) || (n =? 160))%N.

Fixpoint filter_chars (keep : ascii -> bool) (s : string) : string :=
  match s with
  | EmptyString => EmptyString
  | String c rest =>
      if keep c then String c (filter_chars keep rest) else filter_chars keep rest
  end.

Fixpoint trimStart (s : string) : string :=
  match s with
  | EmptyString => EmptyString
  | String c rest => if is_space c then trimStart rest else s
  end.

Fixpoint string_rev_onto (s acc : string) : string :=
  match s with
  | EmptyString => acc
  | String c rest => string_rev_onto rest (String c acc)
  end.

Definition string_rev (s : string) : string := string_rev_onto s EmptyString.

Definition trim (s : string) : string :=
  string_rev (trimStart (string_rev (trimStart s))).

(** [s.substring(0, n)] *)
Definition prefix (n : nat) (s : string) : string := String.substring 0 n s.

(** [parts.join(sep)] *)
Fixpoint join (sep : string) (parts : list string) : string :=
  match parts with
  | [] => EmptyString
  | [p] => p
  | p :: rest => p +:+ sep +:+ join sep rest
  end.

(** [String(n)] for a number. *)
Definition number_to_string (n : number) : string :=
  match n with
  | Finite z => pretty z
  | NaN => "NaN"
  | Infinity false => "Infinity"
  | Infinity true => "-Infinity"
  end.

Definition quote : string := String (ascii_of_N 34) EmptyString.

Definition hex_digit (n : N) : ascii :=
  if (n <? 10)%N then ascii_of_N (48 + n) else ascii_of_N (87 + n).

(** The escape [JSON.stringify] writes for one code unit of a string. *)
Definition json_escape (c : ascii) : string :=
  let n := code c in
  if (n =? 34)%N then "\" +:+ quote
  else if (n =? 92)%N then "\\"
  else if (n =? 8)%N then "\b"
  else if (n =? 9)%N then "\t"
  else if (n =? 10)%N then "\n"
  else if (n =? 12)%N then "\f"
  else if (n =? 13)%N then "\r"
  else if (n <? 32)%N then
    "\u00" +:+ String (hex_digit (n / 16)) (String (hex_digit (n mod 16)) EmptyString)
  else String c EmptyString.

Fixpoint json_escape_all (s : string) : string :=
  match s with
  | EmptyString => EmptyString
  | String c rest => json_escape c +:+ json_escape_all rest
  end.

Definition json_quote (s : string) : string :=
  quote +:+ json_escape_all s +:+ quote.

(** [JSON.stringify(v)]; [None] is the result [undefined]. In an array
    [undefined] is written as null, in an object the property is left out,
    a number that is not finite is written as null. *)
Fixpoint stringify (v : value) : option string :=
  match v with
  | VUndefined => None
  | VNull => Some "null"
  | VBool b => Some (if b then "true" else "false")
  | VNum (Finite z) => Some (pretty z)
  | VNum _ => Some "null"
  | VStr s => Some (json_quote s)
  | VArr l =>
      Some ("[" +:+ join "," (List.map (fun x => or_else (stringify x) "null") l) +:+ "]")
  | VObj fs =>
      let member (kv : string * value) : list string :=
        match stringify (snd kv) with
        | Some s => [json_quote (fst kv) +:+ ":" +:+ s]
        | None => []
        end in
      Some ("{" +:+ join "," (List.flat_map member fs) +:+ "}")
  end.

End Js.

(* ===================================================================== *)
(** ** The notification converter (appServerEventConverter.ts) *)
(* ===================================================================== *)

Module Converter.
Import Js.

(** [ConvertedEvent] : a plain object with a [type] property. *)
Abbreviation ConvertedEvent := (list (string * value)).

Definition asRecord (v : value) : option record :=
  match v with
  | VObj fs => Some (RObj fs)
  | VArr l => Some (RArr l)
  | _ => None
  end.

Definition asString (v : value) : option string :=
  match v with
  | VStr s => if nonempty s then Some s else None
  | _ => None
  end.

Definition asBoolean (v : value) : option bool :=
  match v with
  | VBool b => Some b
  | _ => None
  end.

Definition asNumber (v : value) : option number :=
  match v with
  | VNum (Finite z) => Some (Finite z)
  | _ => None
  end.

(** [asText]; the [catch] arm is never taken on a value of this model:
    [JSON.stringify] returns a string on every array and object. *)
Definition asText (v : value) : option string :=
  match v with
  | VStr s => Some s
  | VNum n => Some (number_to_string n)
  | VBool b => Some (if b then "true" else "false")
  | VNull | VUndefined => None
  | VArr _ | VObj _ => stringify v
  end.

(** [r.k1 ?? r.k2 ?? ...] *)
Fixpoint first_defined (vs : list value) : value :=
  match vs with
  | [] => VUndefined
  | [v] => v
  | v :: rest => coalesce v (first_defined rest)
  end.

Definition pick (r : record) (keys : list string) : value :=
  first_defined (List.map (prop r) keys).

(** The loop [for (const candidate of candidates) { const value =
    asString(candidate); if (value) return value }; return null]. *)
Fixpoint first_string (candidates : list value) : option string :=
  match candidates with
  | [] => None
  | c :: rest =>
      match asString c with
      | Some s => Some s
      | None => first_string rest
      end
  end.

Definition extractItemId (params : record) : option string :=
  match asString (pick params ["itemId"; "item_id"; "id"]) with
  | Some direct => Some direct
  | None =>
      match asRecord (prop params "item") with
      | Some item => asString (pick item ["id"; "itemId"; "item_id"])
      | None => None
      end
  end.

Definition extractItem (params : record) : option record :=
  Some (or_else (asRecord (prop params "item")) params).

Definition strip_class (c : ascii) : bool :=
  negb (is_space c || (code c =? 95)%N || (code c =? 45)%N).

(** [raw.toLowerCase().replace(/[\s_-]/g, '')] *)
Definition normalizeItemType (v : value) : option string :=
  match asString v with
  | None => None
  | Some raw => Some (filter_chars strip_class (toLowerCase raw))
  end.

Definition string_parts (l : list value) : list string :=
  List.flat_map (fun v => match v with VStr s => [s] | _ => [] end) l.

Definition extractCommand (v : value) : option string :=
  match v with
  | VStr s => Some s
  | VArr l =>
      match string_parts l with
      | [] => None
      | parts => Some (join " " parts)
      end
  | _ => None
  end.

Definition extractChanges (v : value) : option record :=
  match v with
  | VArr l =>
      let changes :=
        fold_left
          (fun (changes : obj) (entry : value) =>
             match asRecord entry with
             | None => changes
             | Some entryRecord =>
                 match asString (pick entryRecord ["path"; "file"; "filePath"; "file_path"]) with
                 | Some path => assign path (record_value entryRecord) changes
                 | None => changes
                 end
             end)
          l [] in
      match changes with
      | [] => None
      | _ => Some (RObj changes)
      end
  | _ => asRecord v
  end.

Definition extractThreadId (params : record) (item : option record) : option string :=
  let thread := asRecord (prop params "thread") in
  let turn := asRecord (prop params "turn") in
  let itemThread := match item with Some i => asRecord (prop i "thread") | None => None end in
  let turnThread := match turn with Some t => asRecord (prop t "thread") | None => None end in
  first_string
    [ prop params "threadId";
      prop params "thread_id";
      oprop thread "id";
      oprop thread "threadId";
      oprop thread "thread_id";
      prop params "sid";
      oprop turn "threadId";
      oprop turn "thread_id";
      oprop turnThread "id";
      oprop item "threadId";
      oprop item "thread_id";
      oprop itemThread "id" ].

Definition extractTurnId (params : record) (item : option record) : option string :=
  let turn := asRecord (prop params "turn") in
  let itemTurn := match item with Some i => asRecord (prop i "turn") | None => None end in
  first_string
    [ prop params "turnId";
      prop params "turn_id";
      oprop turn "id";
      oprop turn "turnId";
      oprop turn "turn_id";
      oprop item "turnId";
      oprop item "turn_id";
      oprop itemTurn "id" ].

Definition pickStatus (params : record) (item : option record) : option string :=
  asString (coalesce (prop params "status") (oprop item "status")).

(** [if (s) target.k = s] *)
Definition put_text (k : string) (s : option string) (target : obj) : obj :=
  match s with
  | Some t => if nonempty t then put k (VStr t) target else target
  | None => target
  end.

Definition addStableFields (target : ConvertedEvent) (params : record)
    (item : option record) (itemId : option string) : ConvertedEvent :=
  let threadId := extractThreadId params item in
  let turnId := extractTurnId params item in
  let status := pickStatus params item in
  put_text "status" status
    (put_text "item_id" itemId
       (put_text "turn_id" turnId
          (put_text "thread_id" threadId target))).

(** [...(s ? { k: s } : {})] *)
Definition text_field (k : string) (s : option string) : obj :=
  match s with
  | Some t => if nonempty t then [(k, VStr t)] else []
  | None => []
  end.

(** [...(b !== null ? { k: b } : {})] *)
Definition bool_field (k : string) (b : option bool) : obj :=
  match b with
  | Some x => [(k, VBool x)]
  | None => []
  end.

Definition number_field (k : string) (n : option number) : obj :=
  match n with
  | Some x => [(k, VNum x)]
  | None => []
  end.

Definition record_field (k : string) (r : option record) : obj :=
  match r with
  | Some x => [(k, record_value x)]
  | None => []
  end.

(** The converter's private maps. *)
Record state : Type := State {
  agentMessageBuffers : gmap string string;
  reasoningBuffers : gmap string string;
  planBuffers : gmap string string;
  commandOutputBuffers : gmap string string;
  fileChangeOutputBuffers : gmap string string;
  commandMeta : gmap string obj;
  fileChangeMeta : gmap string obj
}.

(** [new AppServerEventConverter()] *)
Definition initial : state := State ∅ ∅ ∅ ∅ ∅ ∅ ∅.

Definition reset (s : state) : state := State ∅ ∅ ∅ ∅ ∅ ∅ ∅.

Definition with_agentMessageBuffers (f : gmap string string -> gmap string string) (s : state) : state :=
  State (f (agentMessageBuffers s)) (reasoningBuffers s) (planBuffers s)
    (commandOutputBuffers s) (fileChangeOutputBuffers s) (commandMeta s) (fileChangeMeta s).

Definition with_reasoningBuffers (f : gmap string string -> gmap string string) (s : state) : state :=
  State (agentMessageBuffers s) (f (reasoningBuffers s)) (planBuffers s)
    (commandOutputBuffers s) (fileChangeOutputBuffers s) (commandMeta s) (fileChangeMeta s).

Definition with_planBuffers (f : gmap string string -> gmap string string) (s : state) : state :=
  State (agentMessageBuffers s) (reasoningBuffers s) (f (planBuffers s))
    (commandOutputBuffers s) (fileChangeOutputBuffers s) (commandMeta s) (fileChangeMeta s).

Definition with_commandOutputBuffers (f : gmap string string -> gmap string string) (s : state) : state :=
  State (agentMessageBuffers s) (reasoningBuffers s) (planBuffers s)
    (f (commandOutputBuffers s)) (fileChangeOutputBuffers s) (commandMeta s) (fileChangeMeta s).

Definition with_fileChangeOutputBuffers (f : gmap string string -> gmap string string) (s : state) : state :=
  State (agentMessageBuffers s) (reasoningBuffers s) (planBuffers s)
    (commandOutputBuffers s) (f (fileChangeOutputBuffers s)) (commandMeta s) (fileChangeMeta s).

Definition with_commandMeta (f : gmap string obj -> gmap string obj) (s : state) : state :=
  State (agentMessageBuffers s) (reasoningBuffers s) (planBuffers s)
    (commandOutputBuffers s) (fileChangeOutputBuffers s) (f (commandMeta s)) (fileChangeMeta s).

Definition with_fileChangeMeta (f : gmap string obj -> gmap string obj) (s : state) : state :=
  State (agentMessageBuffers s) (reasoningBuffers s) (planBuffers s)
    (commandOutputBuffers s) (fileChangeOutputBuffers s) (commandMeta s) (f (fileChangeMeta s)).

(** [buffers.set(itemId, (buffers.get(itemId) ?? '') + delta)] *)
Definition append_delta (itemId delta : string) (buffers : gmap string string) : gmap string string :=
  <[itemId := or_else (buffers !! itemId) EmptyString +:+ delta]> buffers.

(** [if (b !== null) meta.k = b] *)
Definition put_bool (k : string) (b : option bool) (target : obj) : obj :=
  match b with
  | Some x => put k (VBool x) target
  | None => target
  end.

Definition put_record (k : string) (r : option record) (target : obj) : obj :=
  match r with
  | Some x => put k (record_value x) target
  | None => target
  end.

Definition item_text (item : record) : option string :=
  asString (pick item ["text"; "message"; "content"]).

(** The result of one call: the events returned and the converter afterwards. *)
Abbreviation result := (list (list (string * value)) * state)%type.

Section ItemHandlers.

(** The locals of the [item/started] / [item/completed] branch. *)
Variable method : string.
Variable paramsRecord : record.
Variable item : record.
Variable itemId : string.
Variable status : option string.
Variable threadId turnId : option string.

Definition started : bool := String.eqb method "item/started".
Definition completed : bool := String.eqb method "item/completed".

Definition item_event (type : string) (parts : list obj) : ConvertedEvent :=
  addStableFields
    (literal ([("type", VStr type)] :: parts))
    paramsRecord (Some item) (Some itemId).

Definition ids : obj := [("call_id", VStr itemId); ("item_id", VStr itemId)].

Definition on_agentMessage (s : state) : result :=
  if completed then
    let text := or_opt (item_text item) (agentMessageBuffers s !! itemId) in
    let events :=
      match text with
      | Some t =>
          if nonempty t then
            [item_event "agent_message"
               [[("message", VStr t); ("item_id", VStr itemId)]; text_field "status" status]]
          else []
      | None => []
      end in
    (events, with_agentMessageBuffers (delete itemId) s)
  else ([], s).

Definition on_reasoning (s : state) : result :=
  if completed then
    let text := or_opt (item_text item) (reasoningBuffers s !! itemId) in
    let events :=
      match text with
      | Some t =>
          if nonempty t then
            [item_event "agent_reasoning"
               [[("text", VStr t); ("item_id", VStr itemId)]; text_field "status" status]]
          else []
      | None => []
      end in
    (events, with_reasoningBuffers (delete itemId) s)
  else ([], s).

Definition on_plan (s : state) : result :=
  let '(events1, s1) :=
    if started then
      let text := item_text item in
      let s' :=
        match text with
        | Some t => with_planBuffers (insert itemId t) s
        | None => s
        end in
      ([item_event "plan_item_started"
          [ids; text_field "text" text; text_field "status" status]], s')
    else ([], s) in
  if completed then
    let text := or_opt (item_text item) (planBuffers s1 !! itemId) in
    (events1 ++
       [item_event "plan_item_completed"
          [ids; text_field "text" text; text_field "status" status]],
     with_planBuffers (delete itemId) s1)
  else (events1, s1).

Definition on_commandExecution (s : state) : result :=
  let '(events1, s1) :=
    if started then
      let command := extractCommand (pick item ["command"; "cmd"; "args"]) in
      let cwd := asString (pick item ["cwd"; "workingDirectory"; "working_directory"]) in
      let autoApproved := asBoolean (pick item ["autoApproved"; "auto_approved"]) in
      let meta :=
        put_text "turn_id" turnId
          (put_text "thread_id" threadId
             (put_bool "auto_approved" autoApproved
                (put_text "cwd" cwd
                   (put_text "command" command [])))) in
      ([item_event "exec_command_begin" [ids; meta; text_field "status" status]],
       with_commandMeta (insert itemId meta) s)
    else ([], s) in
  if completed then
    let meta := or_else (commandMeta s1 !! itemId) [] in
    let output :=
      or_opt (asText (pick item ["output"; "result"; "stdout"]))
        (commandOutputBuffers s1 !! itemId) in
    let stderr := asText (prop item "stderr") in
    let error := asText (prop item "error") in
    let exitCode := asNumber (pick item ["exitCode"; "exit_code"; "exitcode"]) in
    (events1 ++
       [item_event "exec_command_end"
          [ ids; meta;
            text_field "output" output;
            text_field "stderr" stderr;
            text_field "error" error;
            number_field "exit_code" exitCode;
            text_field "status" status ]],
     with_commandOutputBuffers (delete itemId) (with_commandMeta (delete itemId) s1))
  else (events1, s1).

Definition on_fileChange (s : state) : result :=
  let '(events1, s1) :=
    if started then
      let changes := extractChanges (pick item ["changes"; "change"; "diff"]) in
      let autoApproved := asBoolean (pick item ["autoApproved"; "auto_approved"]) in
      let meta :=
        put_text "turn_id" turnId
          (put_text "thread_id" threadId
             (put_bool "auto_approved" autoApproved
                (put_record "changes" changes []))) in
      ([item_event "patch_apply_begin" [ids; meta; text_field "status" status]],
       with_fileChangeMeta (insert itemId meta) s)
    else ([], s) in
  if completed then
    let meta := or_else (fileChangeMeta s1 !! itemId) [] in
    let stdout :=
      or_opt (asText (pick item ["stdout"; "output"]))
        (fileChangeOutputBuffers s1 !! itemId) in
    let stderr := asText (prop item "stderr") in
    let success :=
      asBoolean
        (coalesce (pick item ["success"; "ok"; "applied"])
           (VBool (match prop item "status" with
                   | VStr st => String.eqb st "completed"
                   | _ => false
                   end))) in
    (events1 ++
       [item_event "patch_apply_end"
          [ ids; meta;
            text_field "stdout" stdout;
            text_field "stderr" stderr;
            [("success", VBool (or_else success false))];
            text_field "status" status ]],
     with_fileChangeOutputBuffers (delete itemId) (with_fileChangeMeta (delete itemId) s1))
  else (events1, s1).

(** [item.result ?? item.output ?? null] and [item.error ?? null] *)
Definition end_fields : obj :=
  [ ("output", first_defined [prop item "result"; prop item "output"; VNull]);
    ("error", coalesce (prop item "error") VNull) ].

Definition on_mcpToolCall (s : state) : result :=
  let server := asString (prop item "server") in
  let tool := asString (prop item "tool") in
  let name :=
    match server, tool with
    | Some sv, Some tl => "mcp__" +:+ sv +:+ "__" +:+ tl
    | _, _ => or_else tool "mcp_tool_call"
    end in
  if started then
    ([item_event "mcp_tool_call_begin"
        [ ids;
          [ ("name", VStr name);
            ("input", first_defined [prop item "arguments"; prop item "input"; VNull]) ];
          text_field "status" status ]], s)
  else
    ([item_event "mcp_tool_call_end"
        [ids; [("name", VStr name)]; end_fields; text_field "status" status]], s).

Definition on_collabToolCall (s : state) : result :=
  let tool := or_else (asString (prop item "tool")) "collab_tool_call" in
  if started then
    ([item_event "collab_tool_call_begin"
        [ ids;
          [ ("name", VStr tool);
            ("input",
             VObj
               [ ("sender_thread_id", pick item ["senderThreadId"; "sender_thread_id"]);
                 ("receiver_thread_id", pick item ["receiverThreadId"; "receiver_thread_id"]);
                 ("new_thread_id", pick item ["newThreadId"; "new_thread_id"]);
                 ("prompt", prop item "prompt");
                 ("agent_status", pick item ["agentStatus"; "agent_status"]) ]) ];
          text_field "status" status ]], s)
  else
    ([item_event "collab_tool_call_end"
        [ids; [("name", VStr tool)]; end_fields; text_field "status" status]], s).

Definition on_webSearch (s : state) : result :=
  if started then
    ([item_event "web_search_begin"
        [ ids;
          [ ("name", VStr "web_search");
            ("input",
             VObj [ ("query", prop item "query");
                    ("action", coalesce (prop item "action") VNull) ]) ];
          text_field "status" status ]], s)
  else
    ([item_event "web_search_end"
        [ids; [("name", VStr "web_search")]; end_fields; text_field "status" status]], s).

Definition on_imageView (s : state) : result :=
  if started then
    ([item_event "image_view_begin"
        [ ids;
          [ ("name", VStr "image_view");
            ("input",
             VObj [ ("path",
                     match asString (prop item "path") with
                     | Some p => VStr p
                     | None => VNull
                     end) ]) ];
          text_field "status" status ]], s)
  else
    ([item_event "image_view_end"
        [ids; [("name", VStr "image_view")]; end_fields; text_field "status" status]], s).

Definition on_reviewMode (type : string) (s : state) : result :=
  ([item_event type
      [ ids;
        [("review", coalesce (prop item "review") VNull)];
        text_field "status" status ]], s).

Definition on_contextCompaction (s : state) : result :=
  ([item_event
      (if started then "context_compaction_started" else "context_compaction_completed")
      [ids; text_field "status" status]], s).

(** The chain of [if (itemType === ...)] tests; [None] when no test
    succeeds and control falls out of the branch. *)
Definition on_item (itemType : string) (s : state) : option result :=
  if String.eqb itemType "agentmessage" then Some (on_agentMessage s)
  else if String.eqb itemType "reasoning" then Some (on_reasoning s)
  else if String.eqb itemType "plan" then Some (on_plan s)
  else if String.eqb itemType "commandexecution" then Some (on_commandExecution s)
  else if String.eqb itemType "filechange" then Some (on_fileChange s)
  else if String.eqb itemType "mcptoolcall" then Some (on_mcpToolCall s)
  else if String.eqb itemType "collabtoolcall" then Some (on_collabToolCall s)
  else if String.eqb itemType "websearch" then Some (on_webSearch s)
  else if String.eqb itemType "imageview" then Some (on_imageView s)
  else if String.eqb itemType "enteredreviewmode" then Some (on_reviewMode "review_mode_entered" s)
  else if String.eqb itemType "exitedreviewmode" then Some (on_reviewMode "review_mode_exited" s)
  else if String.eqb itemType "contextcompaction" then Some (on_contextCompaction s)
  else None.

End ItemHandlers.

Definition delta_text (paramsRecord : record) : option string :=
  asString (pick paramsRecord ["delta"; "text"; "message"]).

(** [handleNotification(method, params)]. The call of [logger.debug] on an
    unhandled notification leaves no trace in the result. *)
Definition handleNotification (method : string) (params : value) (s : state) : result :=
  let paramsRecord := or_else (asRecord params) (RObj []) in
  if String.eqb method "thread/started" || String.eqb method "thread/resumed" then
    let thread := or_else (asRecord (prop paramsRecord "thread")) paramsRecord in
    match asString (pick thread ["threadId"; "thread_id"; "id"]) with
    | Some threadId => ([[("type", VStr "thread_started"); ("thread_id", VStr threadId)]], s)
    | None => ([], s)
    end
  else if String.eqb method "turn/started" then
    let turn := or_else (asRecord (prop paramsRecord "turn")) paramsRecord in
    let turnId := asString (pick turn ["turnId"; "turn_id"; "id"]) in
    ([addStableFields
        (literal [[("type", VStr "task_started")]; text_field "turn_id" turnId])
        paramsRecord None None], s)
  else if String.eqb method "turn/completed" then
    let turn := or_else (asRecord (prop paramsRecord "turn")) paramsRecord in
    let statusRaw := asString (coalesce (prop paramsRecord "status") (prop turn "status")) in
    let status := option_map toLowerCase statusRaw in
    let turnId := asString (pick turn ["turnId"; "turn_id"; "id"]) in
    let errorMessage := asString (pick paramsRecord ["error"; "message"; "reason"]) in
    let status_is (name : string) : bool :=
      match status with
      | Some st => String.eqb st name
      | None => false
      end in
    if status_is "interrupted" || status_is "cancelled" || status_is "canceled" then
      ([addStableFields
          (literal [[("type", VStr "turn_aborted")]; text_field "turn_id" turnId])
          paramsRecord None None], s)
    else if status_is "failed" || status_is "error" then
      ([addStableFields
          (literal [ [("type", VStr "task_failed")];
                     text_field "turn_id" turnId;
                     text_field "error" errorMessage ])
          paramsRecord None None], s)
    else
      ([addStableFields
          (literal [[("type", VStr "task_complete")]; text_field "turn_id" turnId])
          paramsRecord None None], s)
  else if String.eqb method "turn/diff/updated" then
    match asString (pick paramsRecord ["diff"; "unified_diff"; "unifiedDiff"]) with
    | Some diff =>
        ([addStableFields
            [("type", VStr "turn_diff"); ("unified_diff", VStr diff)]
            paramsRecord None None], s)
    | None => ([], s)
    end
  else if String.eqb method "turn/plan/updated" then
    let explanation := asString (prop paramsRecord "explanation") in
    let plan :=
      match prop paramsRecord "plan" with
      | VArr l => [("plan", VArr l)]
      | _ => []
      end in
    ([addStableFields
        (literal [ [("type", VStr "turn_plan_updated")];
                   text_field "explanation" explanation;
                   plan ])
        paramsRecord None None], s)
  else if String.eqb method "thread/tokenUsage/updated" then
    let info :=
      or_else
        (asRecord
           (first_defined [ prop paramsRecord "tokenUsage";
                            prop paramsRecord "token_usage";
                            record_value paramsRecord ]))
        (RObj []) in
    ([addStableFields
        [("type", VStr "token_count"); ("info", record_value info)]
        paramsRecord None None], s)
  else if String.eqb method "error" then
    let willRetry :=
      or_else (asBoolean (pick paramsRecord ["will_retry"; "willRetry"])) false in
    if willRetry then ([], s)
    else
      let errorRecord := asRecord (prop paramsRecord "error") in
      let codexErrorInfo :=
        asRecord
          (first_defined [ prop paramsRecord "codexErrorInfo";
                           prop paramsRecord "codex_error_info";
                           oprop errorRecord "codexErrorInfo";
                           oprop errorRecord "codex_error_info" ]) in
      let additionalDetails :=
        asRecord
          (first_defined [ prop paramsRecord "additionalDetails";
                           prop paramsRecord "additional_details";
                           oprop errorRecord "additionalDetails";
                           oprop errorRecord "additional_details" ]) in
      let httpStatusCode :=
        asNumber
          (first_defined [ oprop codexErrorInfo "httpStatusCode";
                           oprop codexErrorInfo "http_status_code";
                           prop paramsRecord "httpStatusCode";
                           prop paramsRecord "http_status_code" ]) in
      let message :=
        or_else
          (or_opt (asString (prop paramsRecord "message"))
             (or_opt (asString (oprop errorRecord "message"))
                (asString (prop paramsRecord "reason"))))
          "Unknown app-server error" in
      ([addStableFields
          (literal [ [("type", VStr "task_failed"); ("error", VStr message)];
                     record_field "codex_error_info" codexErrorInfo;
                     record_field "additional_details" additionalDetails;
                     number_field "http_status_code" httpStatusCode ])
          paramsRecord None None], s)
  else if String.eqb method "item/agentMessage/delta" then
    match extractItemId paramsRecord, delta_text paramsRecord with
    | Some itemId, Some delta =>
        ([], with_agentMessageBuffers (append_delta itemId delta) s)
    | _, _ => ([], s)
    end
  else if String.eqb method "item/plan/delta" then
    match extractItemId paramsRecord, delta_text paramsRecord with
    | Some itemId, Some delta =>
        let next := or_else (planBuffers s !! itemId) EmptyString +:+ delta in
        ([addStableFields
            [ ("type", VStr "agent_plan_delta");
              ("item_id", VStr itemId);
              ("delta", VStr delta);
              ("plan_text", VStr next) ]
            paramsRecord None (Some itemId)],
         with_planBuffers (insert itemId next) s)
    | _, _ => ([], s)
    end
  else if String.eqb method "item/reasoning/summaryTextDelta"
          || String.eqb method "item/reasoning/textDelta" then
    let itemId := or_else (extractItemId paramsRecord) "reasoning" in
    match delta_text paramsRecord with
    | Some delta =>
        let summaryIndex := asNumber (pick paramsRecord ["summaryIndex"; "summary_index"]) in
        ([addStableFields
            (literal [ [("type", VStr "agent_reasoning_delta");
                        ("delta", VStr delta);
                        ("item_id", VStr itemId)];
                       (if String.eqb method "item/reasoning/summaryTextDelta"
                        then [("reasoning_stream", VStr "summary")]
                        else [("reasoning_stream", VStr "raw")]);
                       number_field "summary_index" summaryIndex ])
            paramsRecord None (Some itemId)],
         with_reasoningBuffers (append_delta itemId delta) s)
    | None => ([], s)
    end
  else if String.eqb method "item/reasoning/summaryPartAdded" then
    ([addStableFields [("type", VStr "agent_reasoning_section_break")] paramsRecord None None], s)
  else if String.eqb method "item/commandExecution/outputDelta" then
    let delta := asText (pick paramsRecord ["delta"; "text"; "output"; "stdout"]) in
    match extractItemId paramsRecord, delta with
    | Some itemId, Some d =>
        if nonempty d
        then ([], with_commandOutputBuffers (append_delta itemId d) s)
        else ([], s)
    | _, _ => ([], s)
    end
  else if String.eqb method "item/fileChange/outputDelta" then
    let delta := asText (pick paramsRecord ["delta"; "text"; "output"; "stdout"; "response"]) in
    match extractItemId paramsRecord, delta with
    | Some itemId, Some d =>
        if nonempty d
        then
          ([addStableFields
              [ ("type", VStr "patch_apply_delta");
                ("item_id", VStr itemId);
                ("delta", VStr d) ]
              paramsRecord None (Some itemId)],
           with_fileChangeOutputBuffers (append_delta itemId d) s)
        else ([], s)
    | _, _ => ([], s)
    end
  else if String.eqb method "item/started" || String.eqb method "item/completed" then
    match extractItem paramsRecord with
    | None => ([], s)
    | Some item =>
        let itemType := normalizeItemType (pick item ["type"; "itemType"; "kind"]) in
        let itemId :=
          or_opt (extractItemId paramsRecord)
            (asString (pick item ["id"; "itemId"; "item_id"])) in
        let status := asString (prop item "status") in
        let threadId := extractThreadId paramsRecord (Some item) in
        let turnId := extractTurnId paramsRecord (Some item) in
        match itemType, itemId with
        | Some type, Some id =>
            if nonempty type then
              or_else (on_item method paramsRecord item id status threadId turnId type s) ([], s)
            else ([], s)
        | _, _ => ([], s)
        end
    end
  else ([], s).

(** The events of a list of notifications handled one after the other, and
    the converter they leave. *)
Fixpoint run (notes : list (string * value)) (s : state) : list (list ConvertedEvent) * state :=
  match notes with
  | [] => ([], s)
  | (method, params) :: rest =>
      let '(events, s1) := handleNotification method params s in
      let '(more, s2) := run rest s1 in
      (events :: more, s2)
  end.

(** *** Notions the specification uses *)

(** The event type a [turn/completed] notification yields for a status:
    the status is case-folded; interrupted, cancelled and canceled abort
    the turn, failed and error fail it, anything else completes it. *)
Definition turn_outcome (status : option string) : string :=
  match option_map toLowerCase status with
  | Some st =>
      if existsb (String.eqb st) ["interrupted"; "cancelled"; "canceled"] then "turn_aborted"
      else if existsb (String.eqb st) ["failed"; "error"] then "task_failed"
      else "task_complete"
  | None => "task_complete"
  end.

(** A [string | null] as the value of an optional property. *)
Definition optional_text (s : option string) : value :=
  match s with
  | Some t => VStr t
  | None => VUndefined
  end.

Definition optional_record (r : option record) : value :=
  match r with
  | Some x => record_value x
  | None => VUndefined
  end.

Definition optional_number (n : option number) : value :=
  match n with
  | Some x => VNum x
  | None => VUndefined
  end.

(** The first of a list of values that is neither null nor undefined. *)
Definition first_present (vs : list value) : option value :=
  List.find (fun v => negb (nullish v)) vs.

(** The [success] of a completed file change, in the specification's words:
    the first of [success], [ok] and [applied] that is present decides, as
    its value when that is a boolean and as false otherwise; when none is
    present the file change succeeded exactly when its status is the string
    completed. *)
Definition success_of (item : record) : bool :=
  match first_present [prop item "success"; prop item "ok"; prop item "applied"] with
  | Some (VBool b) => b
  | Some _ => false
  | None =>
      match prop item "status" with
      | VStr st => String.eqb st "completed"
      | _ => false
      end
  end.

(** The properties [item/started] saves for a command or a file change. *)
Definition meta_keys : list string :=
  ["command"; "cwd"; "auto_approved"; "thread_id"; "turn_id"; "changes"].

Definition meta_ok (m : obj) : Prop :=
  forallb (fun kv => existsb (String.eqb (fst kv)) meta_keys) m = true.

(** The invariant of the two metadata caches: they hold what [item/started]
    stored, objects with no other property than those of [meta_keys]. *)
Definition wf (s : state) : Prop :=
  map_Forall (fun _ m => meta_ok m) (commandMeta s)
  /\ map_Forall (fun _ m => meta_ok m) (fileChangeMeta s).

(** The locals of the item branch of [handleNotification]: [paramsRecord],
    [item], [itemId] and [itemType]. *)
Definition params_of (params : value) : record := or_else (asRecord params) (RObj []).

Definition item_of (params : value) : record :=
  or_else (asRecord (prop (params_of params) "item")) (params_of params).

Definition itemId_of (params : value) : option string :=
  or_opt (extractItemId (params_of params))
    (asString (pick (item_of params) ["id"; "itemId"; "item_id"])).

Definition itemType_of (params : value) : option string :=
  normalizeItemType (pick (item_of params) ["type"; "itemType"; "kind"]).

(** The notifications of the scenarios of the specification. *)
Definition messageDelta (itemId delta : string) : string * value :=
  ("item/agentMessage/delta", VObj [("itemId", VStr itemId); ("delta", VStr delta)]).

Definition messageCompleted (itemId : string) : string * value :=
  ("item/completed",
   VObj [("item", VObj [("id", VStr itemId); ("type", VStr "agentMessage")])]).

Definition commandStarted (itemId command : string) : string * value :=
  ("item/started",
   VObj [("item", VObj [ ("id", VStr itemId);
                         ("type", VStr "commandExecution");
                         ("command", VStr command) ])]).

Definition outputDelta (itemId delta : string) : string * value :=
  ("item/commandExecution/outputDelta",
   VObj [("itemId", VStr itemId); ("delta", VStr delta)]).

Definition commandCompleted (itemId : string) (exitCode : Z) : string * value :=
  ("item/completed",
   VObj [("item", VObj [ ("id", VStr itemId);
                         ("type", VStr "commandExecution");
                         ("exitCode", VNum (Finite exitCode)) ])]).

(** A completion payload that carries no text of its own. *)
Definition no_explicit_text (item : record) : bool :=
  forallb nullish
    (List.map (prop item) ["text"; "message"; "content"; "output"; "result"; "stdout"]).



(** The types of the events [item/started] and [item/completed] yield. *)
Definition item_event_types : list string :=
  [ "agent_message"; "agent_reasoning"; "plan_item_started"; "plan_item_completed";
    "exec_command_begin"; "exec_command_end"; "patch_apply_begin"; "patch_apply_end";
    "mcp_tool_call_begin"; "mcp_tool_call_end";
    "collab_tool_call_begin"; "collab_tool_call_end";
    "web_search_begin"; "web_search_end"; "image_view_begin"; "image_view_end";
    "review_mode_entered"; "review_mode_exited";
    "context_compaction_started"; "context_compaction_completed" ].

(** [v.k] where [v] may be any value: undefined unless [v] is a plain object
    that has the property. *)
Definition field (v : value) (k : string) : value :=
  match v with
  | VObj fs => get k fs
  | _ => VUndefined
  end.

(** What an optional property of an event holds, given the first value
    present at the places it is looked for: that value when it is an object
    (an array is one), and nothing otherwise. *)
Definition object_at (found : option value) : value :=
  match found with
  | Some (VObj fs) => VObj fs
  | Some (VArr l) => VArr l
  | _ => VUndefined
  end.

(** The same for a property that must be a finite number. *)
Definition number_at (found : option value) : value :=
  match found with
  | Some (VNum (Finite z)) => VNum (Finite z)
  | _ => VUndefined
  end.

(** The first value present is the boolean true. *)
Definition is_true (found : option value) : bool :=
  match found with
  | Some (VBool true) => true
  | _ => false
  end.

(** The first of a list of values that is a non-empty string. *)
Definition first_text (vs : list value) : option string :=
  match List.find (fun v => match v with VStr t => nonempty t | _ => false end) vs with
  | Some (VStr t) => Some t
  | _ => None
  end.






(** The string a list of fragments splits. *)
Definition whole (fragments : list string) : string :=
  fold_right String.append EmptyString fragments.

End Converter.

(* ===================================================================== *)
(** ** The launcher's event handler (codexRemoteLauncher.ts) *)
(* ===================================================================== *)

Module Launcher.
Import Js.

(** The calls [handleCodexEvent] makes on its collaborators: the session,
    the message buffer, the reasoning and diff processors and the
    converter. Calls of [logger.debug] are left out. *)
Inductive effect : Type :=
| OnSessionFound (threadId : string)
| AddMessage (text kind : string)
| SendReady
| OnThinkingChange (thinking : bool)
| SendCodexMessage (message : obj)
| HandleSectionBreak
| ProcessDelta (delta : string)
| Complete (text : string)
| ProcessDiff (diff : string)
| DiffReset
| ConverterReset.

(** The variables the handler closes over. [thinking] stands for
    [session.thinking], the flag [session.onThinkingChange] sets; [uuids]
    counts the calls of [randomUUID] made so far. *)
Record state : Type := State {
  currentThreadId : option string;
  currentTurnId : option string;
  turnInFlight : bool;
  thinking : bool;
  planCallIdByTurn : gmap string string;
  uuids : nat
}.

Definition initial : state := State None None false false ∅ 0.

(** A computation over the launcher's variables that logs its effects. *)
Definition M (A : Type) : Type := state -> A * state * list effect.

Definition ret {A : Type} (a : A) : M A := fun s => (a, s, []).

Definition bind {A B : Type} (m : M A) (k : A -> M B) : M B :=
  fun s =>
    let '(a, s1, log1) := m s in
    let '(b, s2, log2) := k a s1 in
    (b, s2, log1 ++ log2).

Declare Scope launcher_scope.
Delimit Scope launcher_scope with launcher.
Notation "'let*' x ':=' m 'in' k" := (bind m (fun x => k))
  (at level 10, x name, m at level 100, k at level 200) : launcher_scope.
Notation "m ';;' k" := (bind m (fun _ => k))
  (at level 100, k at level 200, right associativity) : launcher_scope.
Local Open Scope launcher_scope.

Definition perform (e : effect) : M unit := fun s => (tt, s, [e]).

Definition read {A : Type} (f : state -> A) : M A := fun s => (f s, s, []).

Definition update (f : state -> state) : M unit := fun s => (tt, f s, []).

(** [if (c) { m }] *)
Definition when (c : bool) (m : M unit) : M unit :=
  if c then m else ret tt.

Definition set_currentThreadId (v : option string) (s : state) : state :=
  State v (currentTurnId s) (turnInFlight s) (thinking s) (planCallIdByTurn s) (uuids s).

Definition set_currentTurnId (v : option string) (s : state) : state :=
  State (currentThreadId s) v (turnInFlight s) (thinking s) (planCallIdByTurn s) (uuids s).

Definition set_turnInFlight (v : bool) (s : state) : state :=
  State (currentThreadId s) (currentTurnId s) v (thinking s) (planCallIdByTurn s) (uuids s).

Definition set_thinking (v : bool) (s : state) : state :=
  State (currentThreadId s) (currentTurnId s) (turnInFlight s) v (planCallIdByTurn s) (uuids s).

Definition with_planCallIdByTurn (f : gmap string string -> gmap string string) (s : state) : state :=
  State (currentThreadId s) (currentTurnId s) (turnInFlight s) (thinking s)
    (f (planCallIdByTurn s)) (uuids s).

Definition set_uuids (v : nat) (s : state) : state :=
  State (currentThreadId s) (currentTurnId s) (turnInFlight s) (thinking s)
    (planCallIdByTurn s) v.

(** The launcher's own [asRecord] and [asString] are those of the
    converter, word for word. *)
Abbreviation asRecord := Converter.asRecord.
Abbreviation asString := Converter.asString.
Abbreviation first_defined := Converter.first_defined.

(** [o.k1 ?? o.k2 ?? ...] on a plain object. *)
Definition pick (o : obj) (keys : list string) : value :=
  first_defined (List.map (fun k => get k o) keys).

Definition normalizeCommand (v : value) : option string :=
  match v with
  | VStr s =>
      let trimmed := trim s in
      if nonempty trimmed then Some trimmed else None
  | VArr l =>
      let joined := join " " (Converter.string_parts l) in
      if nonempty joined then Some joined else None
  | _ => None
  end.

Definition formatOutputPreview (v : value) : string :=
  match v with
  | VStr s => s
  | VNum n => number_to_string n
  | VBool b => if b then "true" else "false"
  | VNull | VUndefined => EmptyString
  | VArr _ | VObj _ => or_else (stringify v) EmptyString
  end.

(** [Object.keys(r).length] *)
Definition keys_count (r : record) : nat :=
  match r with
  | RObj fs => List.length fs
  | RArr l => List.length l
  end.

Abbreviation put_text := Converter.put_text.

Definition toTraceFields (source : obj) : obj :=
  let threadId := asString (pick source ["thread_id"; "threadId"]) in
  let turnId := asString (pick source ["turn_id"; "turnId"]) in
  let itemId := asString (pick source ["item_id"; "itemId"]) in
  let status := asString (get "status" source) in
  put_text "status" status
    (put_text "item_id" itemId
       (put_text "turn_id" turnId
          (put_text "thread_id" threadId []))).

Definition stripEnvelopeFields (source : obj) : obj :=
  remove "callId" (remove "call_id" (remove "type" (spread [] source))).

Section Handler.

(** [randomUUID()] : the identifier the [n]-th call returns. *)
Variable uuid : nat -> string.

(** [shouldUseAppServer()], fixed when the launcher is constructed. *)
Variable useAppServer : bool.

Definition randomUUID : M string :=
  fun s => (uuid (uuids s), set_uuids (S (uuids s)) s, []).

Definition extractCallId (source : obj) (prefix : string) : M string :=
  match asString (pick source ["call_id"; "callId"; "item_id"; "itemId"]) with
  | Some id => ret id
  | None =>
      let* fresh := randomUUID in
      ret (prefix +:+ ":" +:+ fresh)
  end.

Definition emitToolCall (name callId : string) (input : value) (source : obj) : M unit :=
  let trace := toTraceFields source in
  let* id := randomUUID in
  perform
    (SendCodexMessage
       (literal [ [ ("type", VStr "tool-call");
                    ("name", VStr name);
                    ("callId", VStr callId);
                    ("input", input) ];
                  trace;
                  [("id", VStr id)] ])).

Definition emitToolResult (callId : string) (output : value) (source : obj)
    (isError : bool) : M unit :=
  let trace := toTraceFields source in
  let* id := randomUUID in
  perform
    (SendCodexMessage
       (literal [ [ ("type", VStr "tool-call-result");
                    ("callId", VStr callId);
                    ("output", output);
                    ("is_error", VBool isError) ];
                  trace;
                  [("id", VStr id)] ])).

(** [session.sendCodexMessage({ ...msg, id: randomUUID() })] *)
Definition passThrough (msg : obj) : M unit :=
  let* id := randomUUID in
  perform (SendCodexMessage (literal [msg; [("id", VStr id)]])).

Definition onThinkingChange (b : bool) : M unit :=
  update (set_thinking b) ;; perform (OnThinkingChange b).

Definition text_or_null (s : option string) : value :=
  match s with
  | Some t => VStr t
  | None => VNull
  end.

Definition is_terminal (msgType : string) : bool :=
  String.eqb msgType "task_complete"
  || String.eqb msgType "turn_aborted"
  || String.eqb msgType "task_failed".

(** The chain [if (msgType === 'agent_message') ... else if ...] that
    feeds the message buffer. *)
Definition display (msgType : string) (msg : obj) : M unit :=
  if String.eqb msgType "agent_message" then
    match asString (get "message" msg) with
    | Some message => perform (AddMessage message "assistant")
    | None => ret tt
    end
  else if String.eqb msgType "agent_reasoning" then
    match asString (get "text" msg) with
    | Some text => perform (AddMessage ("[Thinking] " +:+ prefix 100 text +:+ "...") "system")
    | None => ret tt
    end
  else if String.eqb msgType "exec_command_begin" then
    let command := or_else (normalizeCommand (get "command" msg)) "command" in
    perform (AddMessage ("Executing: " +:+ command) "tool")
  else if String.eqb msgType "exec_command_end" then
    let output := first_defined [get "output" msg; get "error" msg; VStr "Command completed"] in
    let outputText := formatOutputPreview output in
    let truncatedOutput := prefix 200 outputText in
    perform
      (AddMessage
         ("Result: " +:+ truncatedOutput
            +:+ (if (200 <? String.length outputText)%nat then "..." else EmptyString))
         "result")
  else if String.eqb msgType "patch_apply_begin" then
    let changes := or_else (asRecord (get "changes" msg)) (RObj []) in
    let changeCount := keys_count changes in
    let filesMsg :=
      if (changeCount =? 1)%nat then "1 file" else pretty changeCount +:+ " files" in
    perform (AddMessage ("Modifying " +:+ filesMsg +:+ "...") "tool")
  else if String.eqb msgType "patch_apply_end" then
    let stdout := asString (get "stdout" msg) in
    let stderr := asString (get "stderr" msg) in
    if truthy (get "success" msg) then
      let message := or_else stdout "Files modified successfully" in
      perform (AddMessage (prefix 200 message) "result")
    else
      let errorMsg := or_else stderr "Failed to modify files" in
      perform (AddMessage ("Error: " +:+ prefix 200 errorMsg) "result")
  else if String.eqb msgType "task_started" then
    perform (AddMessage "Starting task..." "status")
  else if String.eqb msgType "task_complete" then
    perform (AddMessage "Task completed" "status") ;; perform SendReady
  else if String.eqb msgType "turn_aborted" then
    perform (AddMessage "Turn aborted" "status") ;; perform SendReady
  else if String.eqb msgType "task_failed" then
    let text :=
      match asString (get "error" msg) with
      | Some error => "Task failed: " +:+ error
      | None => "Task failed"
      end in
    perform (AddMessage text "status") ;; perform SendReady
  else ret tt.

(** The block run on [task_complete], [turn_aborted] and [task_failed]. *)
Definition onTerminal (msgType : string) (msg : obj) : M unit :=
  when useAppServer (update (set_turnInFlight false)) ;;
  (let* isThinking := read thinking in
   when isThinking (onThinkingChange false)) ;;
  match asString (pick msg ["turn_id"; "turnId"]) with
  | Some turnId =>
      let* planCallId := read (fun s => planCallIdByTurn s !! turnId) in
      match planCallId with
      | Some callId =>
          when (nonempty callId)
            (emitToolResult callId
               (VObj [ ("status", VStr msgType);
                       ("error", text_or_null (asString (get "error" msg))) ])
               msg (String.eqb msgType "task_failed") ;;
             update (with_planCallIdByTurn (delete turnId)))
      | None => ret tt
      end
  | None => ret tt
  end ;;
  perform DiffReset ;;
  when useAppServer (perform ConverterReset).

(** The block run on [turn_plan_updated]. *)
Definition onTurnPlanUpdated (msg : obj) : M unit :=
  let* turnId :=
    match asString (pick msg ["turn_id"; "turnId"]) with
    | Some t => ret t
    | None => randomUUID
    end in
  let callId := "turn-plan:" +:+ turnId in
  update (with_planCallIdByTurn (insert turnId callId)) ;;
  emitToolCall "ExitPlanMode" callId
    (VObj [ ("explanation", coalesce (get "explanation" msg) VNull);
            ("plan", coalesce (get "plan" msg) (VArr []));
            ("updated_from", VStr "turn/plan/updated") ])
    msg.

(** The block run on [agent_plan_delta]. *)
Definition onAgentPlanDelta (msg : obj) : M unit :=
  let* callId := extractCallId msg "plan-delta" in
  (match asString (pick msg ["turn_id"; "turnId"]) with
   | Some turnId =>
       let* open := read (fun s => planCallIdByTurn s !! turnId) in
       match open with
       | Some _ => ret tt
       | None => update (with_planCallIdByTurn (insert turnId callId))
       end
   | None => ret tt
   end) ;;
  emitToolCall "ExitPlanMode" callId
    (VObj [ ("plan", first_defined [get "plan_text" msg; get "delta" msg; VStr EmptyString]);
            ("delta", coalesce (get "delta" msg) (VStr EmptyString));
            ("updated_from", VStr "item/plan/delta") ])
    msg.

(** [msg.output ?? { error: msg.error ?? null }] *)
Definition output_or_error (msg : obj) : value :=
  coalesce (get "output" msg) (VObj [("error", coalesce (get "error" msg) VNull)]).

(** [msg.input ?? stripEnvelopeFields(msg)] *)
Definition input_or_payload (msg : obj) : value :=
  coalesce (get "input" msg) (VObj (stripEnvelopeFields msg)).

(** A begin of the families that answer with [msg.output ?? ...]. *)
Definition toolBegin (prefix name : string) (msg : obj) : M unit :=
  let* callId := extractCallId msg prefix in
  emitToolCall name callId (input_or_payload msg) msg.

Definition toolEnd (prefix : string) (msg : obj) : M unit :=
  let* callId := extractCallId msg prefix in
  emitToolResult callId (output_or_error msg) msg (truthy (get "error" msg)).

(** The tests [if (msgType === ...)] that turn an event into a tool call
    or a tool result, in the order of the source. Each event type passes
    at most one of them. *)
Definition toolCalls (msgType : string) (msg : obj) : M unit :=
  when (String.eqb msgType "turn_plan_updated") (onTurnPlanUpdated msg) ;;
  when (String.eqb msgType "agent_plan_delta") (onAgentPlanDelta msg) ;;
  when (String.eqb msgType "plan_item_started")
    (let* callId := extractCallId msg "plan-item" in
     emitToolCall "ExitPlanMode" callId
       (VObj [ ("plan", coalesce (get "text" msg) (VStr EmptyString));
               ("updated_from", VStr "item/started(plan)") ])
       msg) ;;
  when (String.eqb msgType "plan_item_completed")
    (let* callId := extractCallId msg "plan-item" in
     emitToolResult callId
       (VObj [ ("plan", coalesce (get "text" msg) (VStr EmptyString));
               ("status", coalesce (get "status" msg) (VStr "completed")) ])
       msg false) ;;
  when (String.eqb msgType "exec_command_begin" || String.eqb msgType "exec_approval_request")
    (let* callId := extractCallId msg "exec" in
     emitToolCall "CodexBash" callId (VObj (stripEnvelopeFields msg)) msg) ;;
  when (String.eqb msgType "exec_command_end")
    (let* callId := extractCallId msg "exec" in
     emitToolResult callId (VObj (stripEnvelopeFields msg)) msg (truthy (get "error" msg))) ;;
  when (String.eqb msgType "token_count") (passThrough msg) ;;
  when (String.eqb msgType "patch_apply_begin")
    (let* callId := extractCallId msg "patch" in
     emitToolCall "CodexPatch" callId (VObj (stripEnvelopeFields msg)) msg) ;;
  when (String.eqb msgType "patch_apply_delta")
    (let* callId := extractCallId msg "patch" in
     emitToolResult callId
       (VObj [ ("stream", VBool true);
               ("delta", coalesce (get "delta" msg) (VStr EmptyString));
               ("status", coalesce (get "status" msg) (VStr "in_progress")) ])
       msg false) ;;
  when (String.eqb msgType "patch_apply_end")
    (let* callId := extractCallId msg "patch" in
     emitToolResult callId (VObj (stripEnvelopeFields msg)) msg
       (negb (truthy (get "success" msg)))) ;;
  when (String.eqb msgType "mcp_tool_call_begin")
    (toolBegin "mcp" (or_else (asString (get "name" msg)) "mcp_tool_call") msg) ;;
  when (String.eqb msgType "mcp_tool_call_end") (toolEnd "mcp" msg) ;;
  when (String.eqb msgType "collab_tool_call_begin")
    (toolBegin "collab" (or_else (asString (get "name" msg)) "collab_tool_call") msg) ;;
  when (String.eqb msgType "collab_tool_call_end") (toolEnd "collab" msg) ;;
  when (String.eqb msgType "web_search_begin") (toolBegin "web-search" "web_search" msg) ;;
  when (String.eqb msgType "web_search_end") (toolEnd "web-search" msg) ;;
  when (String.eqb msgType "image_view_begin") (toolBegin "image-view" "image_view" msg) ;;
  when (String.eqb msgType "image_view_end") (toolEnd "image-view" msg) ;;
  when (String.eqb msgType "review_mode_entered")
    (let* callId := extractCallId msg "review" in
     emitToolCall "review_mode" callId
       (VObj [("review", coalesce (get "review" msg) VNull)]) msg) ;;
  when (String.eqb msgType "review_mode_exited")
    (let* callId := extractCallId msg "review" in
     emitToolResult callId
       (VObj [("review", coalesce (get "review" msg) VNull)]) msg false) ;;
  when (String.eqb msgType "context_compaction_started")
    (let* callId := extractCallId msg "context-compaction" in
     emitToolCall "context_compaction" callId (VObj [("status", VStr "started")]) msg) ;;
  when (String.eqb msgType "context_compaction_completed")
    (let* callId := extractCallId msg "context-compaction" in
     emitToolResult callId (VObj [("status", VStr "completed")]) msg false) ;;
  when (String.eqb msgType "task_failed") (passThrough msg) ;;
  when (String.eqb msgType "turn_diff")
    match asString (get "unified_diff" msg) with
    | Some diff => perform (ProcessDiff diff)
    | None => ret tt
    end.

Definition handleCodexEvent (msg : obj) : M unit :=
  match asString (get "type" msg) with
  | None => ret tt
  | Some msgType =>
      if String.eqb msgType "thread_started" then
        match asString (pick msg ["thread_id"; "threadId"]) with
        | Some threadId =>
            update (set_currentThreadId (Some threadId)) ;;
            perform (OnSessionFound threadId)
        | None => ret tt
        end
      else
        when (String.eqb msgType "task_started")
          match asString (pick msg ["turn_id"; "turnId"]) with
          | Some turnId => update (set_currentTurnId (Some turnId))
          | None => ret tt
          end ;;
        when (is_terminal msgType) (update (set_currentTurnId None)) ;;
        display msgType msg ;;
        when (String.eqb msgType "task_started")
          (when useAppServer (update (set_turnInFlight true)) ;;
           let* isThinking := read thinking in
           when (negb isThinking) (onThinkingChange true)) ;;
        when (is_terminal msgType) (onTerminal msgType msg) ;;
        when (String.eqb msgType "agent_reasoning_section_break") (perform HandleSectionBreak) ;;
        when (String.eqb msgType "agent_reasoning_delta")
          match asString (get "delta" msg) with
          | Some delta => perform (ProcessDelta delta)
          | None => ret tt
          end ;;
        when (String.eqb msgType "agent_reasoning")
          match asString (get "text" msg) with
          | Some text => perform (Complete text)
          | None => ret tt
          end ;;
        when (String.eqb msgType "agent_message")
          match asString (get "message" msg) with
          | Some message =>
              let trace := toTraceFields msg in
              let* id := randomUUID in
              perform
                (SendCodexMessage
                   (literal [ [("type", VStr "message"); ("message", VStr message)];
                              trace;
                              [("id", VStr id)] ]))
          | None => ret tt
          end ;;
        toolCalls msgType msg
  end.

(** The state and the effects of handling one event, then a list of them. *)
Definition step (msg : obj) (s : state) : state * list effect :=
  let '(_, s', log) := handleCodexEvent msg s in (s', log).

Fixpoint steps (msgs : list obj) (s : state) : state * list effect :=
  match msgs with
  | [] => (s, [])
  | msg :: rest =>
      let '(s1, log1) := step msg s in
      let '(s2, log2) := steps rest s1 in
      (s2, log1 ++ log2)
  end.

End Handler.

(** The messages handed to [session.sendCodexMessage], in order. *)
Definition sent (log : list effect) : list obj :=
  List.flat_map (fun e => match e with SendCodexMessage m => [m] | _ => [] end) log.

Definition has_type (type : string) (m : obj) : bool :=
  match get "type" m with
  | VStr t => String.eqb t type
  | _ => false
  end.

(** The tool calls opened and the tool results delivered by a log. *)
Definition toolCallsOf (log : list effect) : list obj :=
  List.filter (has_type "tool-call") (sent log).

Definition toolResultsOf (log : list effect) : list obj :=
  List.filter (has_type "tool-call-result") (sent log).

(** *** Notions the specification uses *)


(** Every effect a computation logs satisfies [P], from every state. *)
Definition emits (P : effect -> Prop) {A : Type} (m : M A) : Prop :=
  forall s, Forall P (snd (m s)).

(** A tool call or a tool result carries the call id [i]. *)
Definition correlated (i : string) (e : effect) : Prop :=
  match e with
  | SendCodexMessage m =>
      has_type "tool-call" m || has_type "tool-call-result" m = true ->
      get "callId" m = VStr i
  | _ => True
  end.

(** A message that is neither a tool call nor a tool result. *)
Definition not_tool (e : effect) : Prop :=
  match e with
  | SendCodexMessage m => has_type "tool-call" m || has_type "tool-call-result" m = false
  | _ => True
  end.


(** The turn id and the call id an event's own fields give. *)
Definition turn_of (msg : obj) : option string :=
  asString (pick msg ["turn_id"; "turnId"]).

Definition own_call_id (msg : obj) : option string :=
  asString (pick msg ["call_id"; "callId"; "item_id"; "itemId"]).

Definition plan_update_types : list string :=
  ["turn_plan_updated"; "agent_plan_delta"; "plan_item_started"].

(** The call id of the tool call a plan update sends. [turn_plan_updated]
    names the call after its turn, a fresh id standing in for a missing
    turn id; the two other events use their own call id or item id, or
    else a fresh id after their prefix. *)
Definition plan_call_id (uuid : nat -> string) (type : string) (msg : obj) (s : state) : string :=
  if String.eqb type "turn_plan_updated" then
    "turn-plan:" +:+ or_else (turn_of msg) (uuid (uuids s))
  else
    or_else (own_call_id msg)
      ((if String.eqb type "agent_plan_delta" then "plan-delta" else "plan-item")
         +:+ ":" +:+ uuid (uuids s)).

(** The plan-call map a plan update leaves. [turn_plan_updated] records its
    call id for its turn, over any entry; [agent_plan_delta] records its
    call id when it has a turn id for which nothing is recorded;
    [plan_item_started] records nothing. *)
Definition plan_calls_after (uuid : nat -> string) (type : string) (msg : obj) (s : state)
    : gmap string string :=
  if String.eqb type "turn_plan_updated" then
    <[or_else (turn_of msg) (uuid (uuids s)) := plan_call_id uuid type msg s]>
      (planCallIdByTurn s)
  else if String.eqb type "agent_plan_delta" then
    match turn_of msg with
    | Some t =>
        match planCallIdByTurn s !! t with
        | Some _ => planCallIdByTurn s
        | None => <[t := plan_call_id uuid type msg s]> (planCallIdByTurn s)
        end
    | None => planCallIdByTurn s
    end
  else planCallIdByTurn s.

(** A fixed supply of identifiers, for the examples. *)
Definition example_uuid (n : nat) : string := "uuid-" +:+ pretty n.


(** The event types that open a tool call and those that deliver its
    result. *)
Definition begin_types : list string :=
  [ "plan_item_started"; "exec_command_begin"; "patch_apply_begin";
    "mcp_tool_call_begin"; "collab_tool_call_begin"; "web_search_begin";
    "image_view_begin"; "review_mode_entered"; "context_compaction_started" ].

Definition end_types : list string :=
  [ "plan_item_completed"; "exec_command_end"; "patch_apply_end";
    "mcp_tool_call_end"; "collab_tool_call_end"; "web_search_end";
    "image_view_end"; "review_mode_exited"; "context_compaction_completed" ].

(** The type of an event or of a message. *)
Definition type_of (m : obj) : string :=
  match get "type" m with
  | VStr t => t
  | _ => EmptyString
  end.

End Launcher.

(* ===================================================================== *)
(** ** Notions for the properties of the converter *)
(* ===================================================================== *)

Module ConverterNotions.
Import Js Converter.

(** The methods [handleNotification] has a branch for. *)
Definition known_methods : list string :=
  [ "thread/started"; "thread/resumed"; "turn/started"; "turn/completed";
    "turn/diff/updated"; "turn/plan/updated"; "thread/tokenUsage/updated"; "error";
    "item/agentMessage/delta"; "item/plan/delta";
    "item/reasoning/summaryTextDelta"; "item/reasoning/textDelta";
    "item/reasoning/summaryPartAdded";
    "item/commandExecution/outputDelta"; "item/fileChange/outputDelta";
    "item/started"; "item/completed" ].

(** The methods whose branch writes to one of the seven maps. *)
Definition state_methods : list string :=
  [ "item/agentMessage/delta"; "item/plan/delta";
    "item/reasoning/summaryTextDelta"; "item/reasoning/textDelta";
    "item/commandExecution/outputDelta"; "item/fileChange/outputDelta";
    "item/started"; "item/completed" ].

(** The methods that only fill a buffer. *)
Definition silent_methods : list string :=
  ["item/agentMessage/delta"; "item/commandExecution/outputDelta"].

(** The event types a method can yield. *)
Definition types_of (method : string) : list string :=
  if String.eqb method "thread/started" || String.eqb method "thread/resumed"
  then ["thread_started"]
  else if String.eqb method "turn/started" then ["task_started"]
  else if String.eqb method "turn/completed"
  then ["turn_aborted"; "task_failed"; "task_complete"]
  else if String.eqb method "turn/diff/updated" then ["turn_diff"]
  else if String.eqb method "turn/plan/updated" then ["turn_plan_updated"]
  else if String.eqb method "thread/tokenUsage/updated" then ["token_count"]
  else if String.eqb method "error" then ["task_failed"]
  else if String.eqb method "item/plan/delta" then ["agent_plan_delta"]
  else if String.eqb method "item/reasoning/summaryTextDelta"
          || String.eqb method "item/reasoning/textDelta"
  then ["agent_reasoning_delta"]
  else if String.eqb method "item/reasoning/summaryPartAdded"
  then ["agent_reasoning_section_break"]
  else if String.eqb method "item/fileChange/outputDelta" then ["patch_apply_delta"]
  else if String.eqb method "item/started" || String.eqb method "item/completed"
  then item_event_types
  else [].

(** The key under which a notification reads and writes the maps: the item
    id, with the key reasoning for a reasoning delta that names no item. *)
Definition target (method : string) (params : value) : option string :=
  if String.eqb method "item/reasoning/summaryTextDelta"
     || String.eqb method "item/reasoning/textDelta"
  then Some (or_else (extractItemId (params_of params)) "reasoning")
  else itemId_of params.

(** Two converters hold the same for a key. *)
Definition same_at (j : string) (s s' : state) : Prop :=
  agentMessageBuffers s' !! j = agentMessageBuffers s !! j
  /\ reasoningBuffers s' !! j = reasoningBuffers s !! j
  /\ planBuffers s' !! j = planBuffers s !! j
  /\ commandOutputBuffers s' !! j = commandOutputBuffers s !! j
  /\ fileChangeOutputBuffers s' !! j = fileChangeOutputBuffers s !! j
  /\ commandMeta s' !! j = commandMeta s !! j
  /\ fileChangeMeta s' !! j = fileChangeMeta s !! j.

Definition has {A : Type} (m : gmap string A) (j : string) : bool :=
  match m !! j with
  | Some _ => true
  | None => false
  end.

(** The converter holds something for an item of a kind: a buffer of the
    kind's deltas or the metadata of its start. *)
Definition held (itemType j : string) (s : state) : bool :=
  if String.eqb itemType "agentmessage" then has (agentMessageBuffers s) j
  else if String.eqb itemType "reasoning" then has (reasoningBuffers s) j
  else if String.eqb itemType "plan" then has (planBuffers s) j
  else if String.eqb itemType "commandexecution"
  then has (commandMeta s) j || has (commandOutputBuffers s) j
  else if String.eqb itemType "filechange"
  then has (fileChangeMeta s) j || has (fileChangeOutputBuffers s) j
  else false.





(** The properties an end event takes from the metadata of the start
    alone. *)
Definition saved_keys : list string := ["command"; "cwd"; "auto_approved"; "changes"].

End ConverterNotions.

(* ===================================================================== *)
(** ** Notions for the properties of the launcher *)
(* ===================================================================== *)

Module LauncherNotions.
Import Js Launcher.

(** A computation relates the state it starts from, the state it leaves
    and the effects it logs by [Q], from every state. *)
Definition spec {A : Type} (Q : state -> state -> list effect -> Prop) (m : M A) : Prop :=
  forall s, Q s (snd (fst (m s))) (snd (m s)).

(** The [id] of each message sent, in order. *)
Definition message_ids (log : list effect) : list value :=
  List.map (get "id") (sent log).

(** The identifiers drawn between two states. *)
Definition drawn (s s' : state) : list nat :=
  seq (uuids s) (uuids s' - uuids s).

(** The ids of the messages of a log are identifiers drawn meanwhile, each
    by a draw of its own, in the order of the draws. *)
Definition fresh_ids (uuid : nat -> string) (s s' : state) (log : list effect) : Prop :=
  uuids s <= uuids s'
  /\ exists draws,
       sublist draws (drawn s s')
       /\ message_ids log = List.map (fun n => VStr (uuid n)) draws.

Definition is_ready (e : effect) : bool :=
  match e with SendReady => true | _ => false end.

Definition is_diff_reset (e : effect) : bool :=
  match e with DiffReset => true | _ => false end.

Definition is_converter_reset (e : effect) : bool :=
  match e with ConverterReset => true | _ => false end.

(** An effect that is none of the three signals of the end of a turn. *)
Definition quiet (e : effect) : Prop :=
  match e with
  | SendReady | DiffReset | ConverterReset => False
  | _ => True
  end.

(** How many effects of a log pass a test. *)
Definition occurrences (p : effect -> bool) (log : list effect) : nat :=
  List.length (List.filter p log).

(** The flag [session.thinking] after a log, when every call of
    [session.onThinkingChange] in it changes the flag; [None] when a call
    repeats the value the flag has. *)
Fixpoint thinking_trace (current : bool) (log : list effect) : option bool :=
  match log with
  | [] => Some current
  | OnThinkingChange b :: rest =>
      if Bool.eqb b current then None else thinking_trace b rest
  | _ :: rest => thinking_trace current rest
  end.

(** The flag after a log is the flag of the state reached. *)
Definition tracked (s s' : state) (log : list effect) : Prop :=
  thinking_trace (thinking s) log = Some (thinking s').

Definition trace_keys : list string := ["thread_id"; "turn_id"; "item_id"; "status"].

(** A tool call, a tool result or a message carries the trace fields of an
    event, and no other value under their keys. *)
Definition traced (msg : obj) (e : effect) : Prop :=
  match e with
  | SendCodexMessage m =>
      has_type "tool-call" m || has_type "tool-call-result" m || has_type "message" m = true ->
      forall k, existsb (String.eqb k) trace_keys = true ->
                get k m = get k (toTraceFields msg)
  | _ => True
  end.

Definition envelope_keys : list string := ["type"; "call_id"; "callId"].

(** The event types on which the handler writes to a variable of the
    launcher other than the count of identifiers drawn. *)
Definition control_types : list string :=
  [ "thread_started"; "task_started"; "task_complete"; "turn_aborted"; "task_failed";
    "turn_plan_updated"; "agent_plan_delta" ].

Definition same_control (s s' : state) : Prop :=
  currentThreadId s' = currentThreadId s
  /\ currentTurnId s' = currentTurnId s
  /\ turnInFlight s' = turnInFlight s
  /\ thinking s' = thinking s
  /\ planCallIdByTurn s' = planCallIdByTurn s.

(** A string that begins, or ends, with white space. *)
Definition starts_with_space (s : string) : bool :=
  match s with
  | String c _ => is_space c
  | EmptyString => false
  end.

Definition ends_with_space (s : string) : bool :=
  starts_with_space (string_rev s).

(** The texts handed to [messageBuffer.addMessage]. *)
Definition shown (log : list effect) : list string :=
  List.flat_map (fun e => match e with AddMessage text _ => [text] | _ => [] end) log.

End LauncherNotions.

(* ===================================================================== *)
(** ** The notification handler of the launcher (codexRemoteLauncher.ts) *)
(* ===================================================================== *)

Module Session.
Import Js Launcher.

(** The effect [appServerEventConverter?.reset()] has on the converter the
    launcher holds. *)
Definition applyReset (log : list effect) (c : Converter.state) : Converter.state :=
  if existsb (fun e => match e with ConverterReset => true | _ => false end) log
  then Converter.reset c else c.

Section Wiring.

(** [randomUUID()] : the identifier the [n]-th call returns. *)
Variable uuid : nat -> string.

(** [for (const event of events) { handleCodexEvent(asRecord(event) ?? ...) }]
    in app-server mode, the only mode that installs the handler; each event
    is a plain object. *)
Fixpoint deliver (events : list obj) (c : Converter.state) (s : state)
    : Converter.state * state * list effect :=
  match events with
  | [] => (c, s, [])
  | event :: rest =>
      let '(s1, log1) := step uuid true event s in
      let '(c2, s2, log2) := deliver rest (applyReset log1 c) s1 in
      (c2, s2, log1 ++ log2)
  end.

(** The handler given to [appServerClient.setNotificationHandler]. *)
Definition onNotification (method : string) (params : value)
    (c : Converter.state) (s : state) : Converter.state * state * list effect :=
  let '(events, c1) := Converter.handleNotification method params c in
  deliver events c1 s.

End Wiring.

(** *** Notions used below *)

(** The notifications that end a turn: its completion, and an error the
    server will not retry after. *)
Definition ends_turn (method : string) (params : value) : bool :=
  String.eqb method "turn/completed"
  || String.eqb method "error"
     && negb (or_else
                (Converter.asBoolean
                   (Converter.pick (Converter.params_of params) ["will_retry"; "willRetry"]))
                false).

End Session.

(* ===================================================================== *)
(** ** Thread and turn start parameters (appServerConfig.ts) *)
(* ===================================================================== *)

Module Config.
Import Js.

(** What this file reads of an [EnhancedMode] and of the
    [CodexCliOverrides]. *)
Record EnhancedMode : Type := Mode {
  permissionMode : string;
  model : option string
}.

Record CodexCliOverrides : Type := Overrides {
  approvalPolicy : option string;
  sandbox : option string
}.

Record ResolvedRuntimeConfig : Type := Resolved {
  resolvedApprovalPolicy : string;
  resolvedSandbox : string
}.

(** A value, or the message of the [Error] thrown. *)
Inductive outcome (A : Type) : Type :=
| Ok (a : A)
| Throw (message : string).
Arguments Ok {A} a.
Arguments Throw {A} message.

Definition andThen {A B : Type} (m : outcome A) (k : A -> outcome B) : outcome B :=
  match m with
  | Ok a => k a
  | Throw message => Throw message
  end.

Definition resolveByPermissionMode (mode : EnhancedMode) : outcome ResolvedRuntimeConfig :=
  if String.eqb (permissionMode mode) "default" then
    Ok (Resolved "untrusted" "workspace-write")
  else if String.eqb (permissionMode mode) "read-only" then
    Ok (Resolved "never" "read-only")
  else if String.eqb (permissionMode mode) "safe-yolo" then
    Ok (Resolved "on-failure" "workspace-write")
  else if String.eqb (permissionMode mode) "yolo" then
    Ok (Resolved "on-failure" "danger-full-access")
  else Throw ("Unknown permission mode: " +:+ permissionMode mode).

Definition resolveRuntimeConfig (mode : EnhancedMode) (cliOverrides : option CodexCliOverrides)
    : outcome ResolvedRuntimeConfig :=
  andThen (resolveByPermissionMode mode) (fun defaults =>
    if negb (String.eqb (permissionMode mode) "default") then Ok defaults
    else
      Ok (Resolved
            (or_else (match cliOverrides with Some o => approvalPolicy o | None => None end)
               (resolvedApprovalPolicy defaults))
            (or_else (match cliOverrides with Some o => sandbox o | None => None end)
               (resolvedSandbox defaults)))).

Definition toSandboxPolicy (sandbox : string) : outcome obj :=
  if String.eqb sandbox "danger-full-access" then Ok [("type", VStr "dangerFullAccess")]
  else if String.eqb sandbox "read-only" then Ok [("type", VStr "readOnly")]
  else if String.eqb sandbox "workspace-write" then Ok [("type", VStr "workspaceWrite")]
  else Throw ("Unknown sandbox mode: " +:+ sandbox).

(** [if (args.mode.model) { params.model = args.mode.model }] *)
Definition put_model (mode : EnhancedMode) (params : obj) : obj :=
  match model mode with
  | Some m => if nonempty m then put "model" (VStr m) params else params
  | None => params
  end.

Section Builders.

(** The constant [codexSystemPrompt] of [./systemPrompt]. *)
Variable codexSystemPrompt : string.

Definition buildThreadStartParams (mode : EnhancedMode) (mcpServers : value)
    (cliOverrides : option CodexCliOverrides) : outcome obj :=
  andThen (resolveRuntimeConfig mode cliOverrides) (fun resolved =>
    Ok (put_model mode
          [ ("approvalPolicy", VStr (resolvedApprovalPolicy resolved));
            ("sandbox", VStr (resolvedSandbox resolved));
            ("config", VObj [("mcp_servers", mcpServers)]);
            ("developerInstructions", VStr codexSystemPrompt) ])).

End Builders.

Definition buildTurnStartParams (threadId message : string) (mode : EnhancedMode)
    (cliOverrides : option CodexCliOverrides) : outcome obj :=
  andThen (resolveRuntimeConfig mode cliOverrides) (fun resolved =>
    andThen (toSandboxPolicy (resolvedSandbox resolved)) (fun sandboxPolicy =>
      Ok (put_model mode
            [ ("threadId", VStr threadId);
              ("input", VArr [VObj [("type", VStr "text"); ("text", VStr message)]]);
              ("approvalPolicy", VStr (resolvedApprovalPolicy resolved));
              ("sandboxPolicy", VObj sandboxPolicy) ]))).

(** *** Notions used below *)

Definition permission_modes : list string :=
  ["default"; "read-only"; "safe-yolo"; "yolo"].

Definition sandbox_modes : list string :=
  ["danger-full-access"; "read-only"; "workspace-write"].

End Config.

(* ===================================================================== *)
(** ** The approval request handlers (appServerPermissionAdapter.ts) *)
(* ===================================================================== *)

Module PermissionAdapter.
Import Js.

Inductive PermissionDecision : Type :=
| approved
| approved_for_session
| denied
| abort.

(** What this file reads of a [PermissionResult]. *)
Record PermissionResult : Type := Result {
  decision : PermissionDecision;
  answers : value
}.

(** This file's own [asRecord] and [asString] are those of the converter,
    with undefined in the place of null. *)
Abbreviation asRecord := Converter.asRecord.
Abbreviation asString := Converter.asString.

Definition mapDecision (d : PermissionDecision) : obj :=
  match d with
  | approved => [("decision", VStr "accept")]
  | approved_for_session => [("decision", VStr "acceptForSession")]
  | denied => [("decision", VStr "decline")]
  | abort => [("decision", VStr "cancel")]
  end.

(** [l.filter(entry => typeof entry === 'string')] *)
Definition strings_only (l : list value) : list value :=
  List.filter (fun v => match v with VStr _ => true | _ => false end) l.

(** The pairs of an index, written in decimal, and an element. *)
Fixpoint indexed {A : Type} (i : nat) (l : list A) : list (string * A) :=
  match l with
  | [] => []
  | x :: rest => (pretty i, x) :: indexed (S i) rest
  end.

(** [Object.entries(v)] of a truthy value: the own properties of an object,
    each once; the elements of an array and the characters of a string under
    their indices; nothing for a number or a boolean. *)
Definition entries (v : value) : list (string * value) :=
  match v with
  | VObj fs => spread [] fs
  | VArr l => indexed 0 l
  | VStr s =>
      indexed 0
        (List.map (fun c => VStr (String c EmptyString)) (list_ascii_of_string s))
  | _ => []
  end.

(** One turn of the loop of [normalizeAnswers]. *)
Definition normalizeEntry (normalized : obj) (entry : string * value) : obj :=
  match snd entry with
  | VArr l => assign (fst entry) (VArr (strings_only l)) normalized
  | VObj fs =>
      match get "answers" fs with
      | VArr l => assign (fst entry) (VArr (strings_only l)) normalized
      | _ => normalized
      end
  | _ => normalized
  end.

Definition normalizeAnswers (answers : value) : obj :=
  if truthy answers then fold_left normalizeEntry (entries answers) [] else [].

(** A call of [permissionHandler.handleToolCall]. *)
Record ToolCall : Type := Call {
  toolCallId : string;
  toolName : string;
  input : value
}.

Section Handlers.

(** The result [permissionHandler.handleToolCall(id, name, input)] resolves
    to. *)
Variable handleToolCall : string -> string -> value -> PermissionResult.

(** The answers the hook [onUserInputRequest], when there is one, resolves
    to. *)
Variable onUserInputRequest : option (value -> value).

(** What [randomUUID()] returns in this call. *)
Variable fresh : string.

(** A handler's reply and the calls it made on the permission handler. *)
Definition commandApproval (params : value) : obj * list ToolCall :=
  let record := or_else (asRecord params) (RObj []) in
  let toolCallId := or_else (asString (prop record "itemId")) fresh in
  let reason := asString (prop record "reason") in
  let command := prop record "command" in
  let cwd := asString (prop record "cwd") in
  let input :=
    VObj [ ("message", Converter.optional_text reason);
           ("command", command);
           ("cwd", Converter.optional_text cwd) ] in
  let result := handleToolCall toolCallId "CodexBash" input in
  (mapDecision (decision result), [Call toolCallId "CodexBash" input]).

Definition fileChangeApproval (params : value) : obj * list ToolCall :=
  let record := or_else (asRecord params) (RObj []) in
  let toolCallId := or_else (asString (prop record "itemId")) fresh in
  let reason := asString (prop record "reason") in
  let grantRoot := asString (prop record "grantRoot") in
  let input :=
    VObj [ ("message", Converter.optional_text reason);
           ("grantRoot", Converter.optional_text grantRoot) ] in
  let result := handleToolCall toolCallId "CodexPatch" input in
  (mapDecision (decision result), [Call toolCallId "CodexPatch" input]).

(** The part the two user-input handlers share, once the call id is
    known. *)
Definition askUser (toolCallId : string) (record : record) : obj * list ToolCall :=
  let result := handleToolCall toolCallId "request_user_input" (record_value record) in
  let calls := [Call toolCallId "request_user_input" (record_value record)] in
  match decision result with
  | approved | approved_for_session =>
      ([ ("decision", VStr "accept");
         ("answers", VObj (normalizeAnswers (answers result))) ], calls)
  | denied => ([("decision", VStr "decline")], calls)
  | abort => ([("decision", VStr "cancel")], calls)
  end.

Definition itemToolRequestUserInput (params : value) : obj * list ToolCall :=
  match onUserInputRequest with
  | Some hook =>
      ([ ("decision", VStr "accept");
         ("answers", VObj (normalizeAnswers (hook params))) ], [])
  | None =>
      let record := or_else (asRecord params) (RObj []) in
      let toolCallId := or_else (asString (prop record "itemId")) fresh in
      askUser toolCallId record
  end.

Definition toolRequestUserInput (params : value) : obj * list ToolCall :=
  match onUserInputRequest with
  | Some hook =>
      ([ ("decision", VStr "accept");
         ("answers", VObj (normalizeAnswers (hook params))) ], [])
  | None =>
      let record := or_else (asRecord params) (RObj []) in
      let toolCallId :=
        or_else
          (or_opt (asString (prop record "itemId")) (asString (prop record "id")))
          fresh in
      askUser toolCallId record
  end.

(** [registerAppServerPermissionHandlers] : the handler registered for a
    request method. *)
Definition registered (method : string) : option (value -> obj * list ToolCall) :=
  if String.eqb method "item/commandExecution/requestApproval" then Some commandApproval
  else if String.eqb method "item/fileChange/requestApproval" then Some fileChangeApproval
  else if String.eqb method "item/tool/requestUserInput" then Some itemToolRequestUserInput
  else if String.eqb method "tool/requestUserInput" then Some toolRequestUserInput
  else None.

End Handlers.

(** *** Notions used below *)

(** An array all of whose elements are strings. *)
Definition string_array (v : value) : bool :=
  match v with
  | VArr l => forallb (fun x => match x with VStr _ => true | _ => false end) l
  | _ => false
  end.

(** What the loop of [normalizeAnswers] keeps true of [normalized]. *)
Definition answers_ok (o : obj) : Prop :=
  NoDup (List.map fst o)
  /\ forallb (fun kv => string_array (snd kv)) o = true
  /\ find_key "__proto__" o = None.

(** A reply that lets the request through. *)
Definition accepts (reply : obj) : bool :=
  match get "decision" reply with
  | VStr d => String.eqb d "accept" || String.eqb d "acceptForSession"
  | _ => false
  end.

Definition approves (d : PermissionDecision) : bool :=
  match d with
  | approved | approved_for_session => true
  | denied | abort => false
  end.

(** The two methods that ask the user a question. *)
Definition user_input_methods : list string :=
  ["item/tool/requestUserInput"; "tool/requestUserInput"].

End PermissionAdapter.

(* ===================================================================== *)
(** ** Facts about objects *)
(* ===================================================================== *)

Module JsFacts.
Import Js.

Lemma find_key_put (k k' : string) (v : value) (o : obj) :
  find_key k (put k' v o) = if String.eqb k k' then Some v else find_key k o.
Proof.
  induction o as [|[k0 v0] rest IH]; simpl.
  - destruct (String.eqb k k'); reflexivity.
  - destruct (String.eqb_spec k' k0) as [->|Hne]; simpl.
    + destruct (String.eqb k k0); reflexivity.
    + destruct (String.eqb_spec k k0) as [->|Hne'].
      * destruct (String.eqb_spec k0 k') as [->|_]; [contradiction | reflexivity].
      * exact IH.
Qed.

Lemma get_put (k k' : string) (v : value) (o : obj) :
  get k (put k' v o) = if String.eqb k k' then v else get k o.
Proof.
  unfold get. rewrite find_key_put. destruct (String.eqb k k'); reflexivity.
Qed.

Lemma find_key_assign (k : string) (source l base : obj) :
  find_key k (fold_left (fun acc kv => put (fst kv) (get (fst kv) source) acc) l base)
  = match find_key k l with
    | Some _ => Some (get k source)
    | None => find_key k base
    end.
Proof.
  revert base. induction l as [|[k' v] rest IH]; intros base; [reflexivity|].
  cbn [fold_left fst]. rewrite IH, find_key_put. cbn [find_key].
  destruct (find_key k rest).
  - destruct (String.eqb k k'); reflexivity.
  - destruct (String.eqb_spec k k') as [->|_]; reflexivity.
Qed.

Lemma find_key_spread (k : string) (base extra : obj) :
  find_key k (spread base extra) = or_opt (find_key k extra) (find_key k base).
Proof.
  unfold spread. rewrite find_key_assign. unfold get.
  destruct (find_key k extra); reflexivity.
Qed.

Lemma find_key_parts (k : string) (parts : list obj) (base : obj) :
  find_key k (fold_left spread parts base) = or_opt (find_part k parts) (find_key k base).
Proof.
  revert base. induction parts as [|part rest IH]; intros base; [reflexivity|].
  cbn [fold_left find_part]. rewrite IH, find_key_spread.
  destruct (find_part k rest); [reflexivity|].
  destruct (find_key k part); reflexivity.
Qed.

Lemma get_spread (k : string) (base extra : obj) :
  get k (spread base extra) = or_else (find_key k extra) (get k base).
Proof.
  unfold get. rewrite find_key_spread. destruct (find_key k extra); reflexivity.
Qed.

(** Reading a property of an object literal: the last part that has it
    decides. *)
Lemma get_literal (k : string) (parts : list obj) :
  get k (literal parts) = or_else (find_part k parts) VUndefined.
Proof.
  unfold get, literal. rewrite find_key_parts.
  destruct (find_part k parts); reflexivity.
Qed.

Lemma find_key_literal (k : string) (parts : list obj) :
  find_key k (literal parts) = find_part k parts.
Proof.
  unfold literal. rewrite find_key_parts. destruct (find_part k parts); reflexivity.
Qed.

Lemma get_find_key (k : string) (o : obj) (v : value) :
  get k o = v -> v <> VUndefined -> find_key k o = Some v.
Proof.
  unfold get. destruct (find_key k o); [intros -> _; reflexivity | intros <- H; contradiction].
Qed.

Lemma nonempty_true (s : string) : s <> EmptyString -> nonempty s = true.
Proof. destruct s; [congruence | reflexivity]. Qed.

Lemma nonempty_inv (s : string) : nonempty s = true -> s <> EmptyString.
Proof. destruct s; [discriminate | discriminate]. Qed.

Lemma append_nil_r (s : string) : s +:+ EmptyString = s.
Proof.
  induction s as [|c s IH]; [reflexivity|].
  change (String c (s +:+ EmptyString) = String c s). f_equal. exact IH.
Qed.

Lemma append_assoc (a b c : string) : (a +:+ b) +:+ c = a +:+ (b +:+ c).
Proof.
  induction a as [|x a IH]; [reflexivity|].
  change (String x ((a +:+ b) +:+ c) = String x (a +:+ (b +:+ c))). f_equal. exact IH.
Qed.

Lemma nonempty_append (a b : string) :
  nonempty (a +:+ b) = nonempty a || nonempty b.
Proof. destruct a; [reflexivity | reflexivity]. Qed.

End JsFacts.

(* ===================================================================== *)
(** ** Properties of the converter *)
(* ===================================================================== *)

Module ConverterFacts.
Import Js Converter JsFacts.

Lemma get_put_text (k k' : string) (s : option string) (o : obj) :
  get k (put_text k' s o)
  = if String.eqb k k'
    then match s with
         | Some t => if nonempty t then VStr t else get k o
         | None => get k o
         end
    else get k o.
Proof.
  unfold put_text. destruct s as [t|].
  - destruct (nonempty t).
    + apply get_put.
    + destruct (String.eqb k k'); reflexivity.
  - destruct (String.eqb k k'); reflexivity.
Qed.

(** [addStableFields] only writes the four trace fields. *)
Lemma get_addStableFields (k : string) target params item itemId :
  existsb (String.eqb k) ["thread_id"; "turn_id"; "item_id"; "status"] = false ->
  get k (addStableFields target params item itemId) = get k target.
Proof.
  intros Hk. unfold addStableFields. simpl in Hk.
  repeat (apply orb_false_elim in Hk; destruct Hk as [? Hk]).
  rewrite !get_put_text.
  repeat match goal with H : String.eqb _ _ = false |- _ => rewrite H; clear H end.
  reflexivity.
Qed.

Lemma find_key_text_field (k k' : string) (s : option string) :
  find_key k (text_field k' s)
  = if String.eqb k k'
    then match s with
         | Some t => if nonempty t then Some (VStr t) else None
         | None => None
         end
    else None.
Proof.
  unfold text_field. destruct s as [t|].
  - destruct (nonempty t); simpl; destruct (String.eqb k k'); reflexivity.
  - destruct (String.eqb k k'); reflexivity.
Qed.

Lemma find_key_bool_field (k k' : string) (b : option bool) :
  find_key k (bool_field k' b)
  = if String.eqb k k' then option_map VBool b else None.
Proof. destruct b; simpl; destruct (String.eqb k k'); reflexivity. Qed.

Lemma find_key_number_field (k k' : string) (n : option number) :
  find_key k (number_field k' n)
  = if String.eqb k k' then option_map VNum n else None.
Proof. destruct n; simpl; destruct (String.eqb k k'); reflexivity. Qed.

Lemma find_key_record_field (k k' : string) (r : option record) :
  find_key k (record_field k' r)
  = if String.eqb k k' then option_map record_value r else None.
Proof. destruct r; simpl; destruct (String.eqb k k'); reflexivity. Qed.

Lemma asString_nonempty (v : value) (t : string) :
  asString v = Some t -> v = VStr t /\ nonempty t = true.
Proof.
  destruct v; try discriminate. simpl.
  destruct (nonempty s) eqn:Hs; [|discriminate].
  intros [= ->]. split; [reflexivity | exact Hs].
Qed.

Lemma asString_text (v : value) :
  match asString v with
  | Some t => if nonempty t then Some (VStr t) else None
  | None => None
  end = option_map VStr (asString v).
Proof.
  destruct (asString v) as [t|] eqn:H; [|reflexivity].
  apply asString_nonempty in H as [_ ->]. reflexivity.
Qed.

(** Decide the comparisons of two string literals in the goal. *)
Ltac eval_eqb :=
  repeat match goal with
    | |- context [String.eqb ?a ?b] =>
        let r := eval vm_compute in (String.eqb a b) in
        lazymatch r with
        | true => change (String.eqb a b) with true
        | false => change (String.eqb a b) with false
        end
    end;
  cbn [orb andb negb].

(** Read a property of an event built by an object literal and
    [addStableFields]. *)
Ltac obj_get :=
  rewrite ?get_addStableFields by reflexivity;
  rewrite ?get_literal;
  cbn [find_part];
  rewrite ?find_key_text_field, ?find_key_bool_field,
    ?find_key_number_field, ?find_key_record_field;
  eval_eqb; cbn [find_key or_opt or_else]; eval_eqb.

(** C2. A [turn/completed] notification yields exactly one event and leaves
    the converter as it was. The event's type follows the case-folded status
    read from the payload or the nested turn object: interrupted, cancelled
    and canceled give [turn_aborted]; failed and error give [task_failed],
    which carries as [error] the string found under error, message or
    reason; every other status, and a missing one, gives [task_complete].
    Status Interrupted gives [turn_aborted]; status Failed with message boom
    gives [task_failed] with error boom. *)
Theorem turn_completed_status :
  (forall (params : value) (s : state),
     exists e,
       let p := or_else (asRecord params) (RObj []) in
       let turn := or_else (asRecord (prop p "turn")) p in
       let status := asString (coalesce (prop p "status") (prop turn "status")) in
       let error := asString (pick p ["error"; "message"; "reason"]) in
       handleNotification "turn/completed" params s = ([e], s)
       /\ get "type" e = VStr (turn_outcome status)
       /\ get "error" e
          = if String.eqb (turn_outcome status) "task_failed"
            then optional_text error else VUndefined)
  /\ (forall s,
        exists e,
          handleNotification "turn/completed" (VObj [("status", VStr "Interrupted")]) s = ([e], s)
          /\ get "type" e = VStr "turn_aborted")
  /\ (forall s,
        exists e,
          handleNotification "turn/completed"
            (VObj [("status", VStr "Failed"); ("message", VStr "boom")]) s = ([e], s)
          /\ get "type" e = VStr "task_failed"
          /\ get "error" e = VStr "boom").
Proof.
  split; [|split].
  - intros params s.
    unfold handleNotification. eval_eqb. cbv iota.
    set (p := or_else (asRecord params) (RObj [])).
    set (turn := or_else (asRecord (prop p "turn")) p).
    set (status := asString (coalesce (prop p "status") (prop turn "status"))).
    set (error := asString (pick p ["error"; "message"; "reason"])).
    unfold turn_outcome. cbn [existsb].
    destruct (option_map toLowerCase status) as [st|].
    + destruct (String.eqb st "interrupted"), (String.eqb st "cancelled"),
        (String.eqb st "canceled"), (String.eqb st "failed"), (String.eqb st "error");
        cbn [orb]; eexists; (split; [reflexivity|]); split; obj_get;
        try reflexivity;
        subst error; rewrite asString_text;
        match goal with |- context [asString ?v] => destruct (asString v) end;
        reflexivity.
    + eexists. split; [reflexivity|]. split; obj_get; reflexivity.
  - intros s. eexists. split; [reflexivity|]. reflexivity.
  - intros s. eexists. split; [reflexivity|]. split; reflexivity.
Qed.


Lemma first_defined_present (vs : list value) :
  match first_present vs with
  | Some v => first_defined vs = v /\ nullish v = false
  | None => nullish (first_defined vs) = true
  end.
Proof.
  unfold first_present. induction vs as [|v rest IH]; [reflexivity|].
  cbn [List.find first_defined]. destruct (nullish v) eqn:Hv; cbn [negb].
  - destruct rest as [|w rest'].
    + cbn [List.find]. exact Hv.
    + unfold coalesce. rewrite Hv. exact IH.
  - destruct rest as [|w rest']; [split; [reflexivity | exact Hv]|].
    unfold coalesce. rewrite Hv. split; reflexivity.
Qed.

Lemma prop_params (params : value) (k : string) :
  prop (or_else (asRecord params) (RObj [])) k = field params k.
Proof. destruct params; reflexivity. Qed.

Lemma oprop_field (v : value) (k : string) : oprop (asRecord v) k = field v k.
Proof. destruct v; reflexivity. Qed.

Lemma record_of_present (vs : list value) :
  optional_record (asRecord (first_defined vs)) = object_at (first_present vs).
Proof.
  pose proof (first_defined_present vs) as H.
  destruct (first_present vs) as [v|].
  - destruct H as [-> _]. destruct v; reflexivity.
  - destruct (first_defined vs); try discriminate H; reflexivity.
Qed.

Lemma field_present (vs : list value) (k : string) :
  field (first_defined vs) k = field (object_at (first_present vs)) k.
Proof.
  pose proof (first_defined_present vs) as H.
  destruct (first_present vs) as [v|].
  - destruct H as [-> _]. destruct v; reflexivity.
  - destruct (first_defined vs); try discriminate H; reflexivity.
Qed.

Lemma number_of_present (vs : list value) :
  optional_number (asNumber (first_defined vs)) = number_at (first_present vs).
Proof.
  pose proof (first_defined_present vs) as H.
  destruct (first_present vs) as [v|].
  - destruct H as [-> _]. destruct v as [| | |[]| | |]; reflexivity.
  - destruct (first_defined vs); try discriminate H; reflexivity.
Qed.

Lemma boolean_of_present (vs : list value) :
  or_else (asBoolean (first_defined vs)) false = is_true (first_present vs).
Proof.
  pose proof (first_defined_present vs) as H.
  destruct (first_present vs) as [v|].
  - destruct H as [-> _]. destruct v as [| |[]| | | |]; reflexivity.
  - destruct (first_defined vs); try discriminate H; reflexivity.
Qed.

Lemma first_text_cons (v : value) (rest : list value) :
  first_text (v :: rest) = or_opt (asString v) (first_text rest).
Proof.
  unfold first_text. cbn [List.find].
  destruct v as [| | | |t| |]; try reflexivity.
  cbn [asString]. destruct (nonempty t); reflexivity.
Qed.

Lemma first_text_nonempty (vs : list value) (t : string) :
  first_text vs = Some t -> nonempty t = true.
Proof.
  induction vs as [|v rest IH]; [discriminate|].
  rewrite first_text_cons. destruct (asString v) as [x|] eqn:Hx; [|exact IH].
  intros [= <-]. apply asString_nonempty in Hx as [_ Hx]. exact Hx.
Qed.

(** C5, as amended. At each optional part of an [error] notification the
    first value present (neither null nor undefined) among the places it is
    looked for decides. When the first present of [will_retry] and
    [willRetry] is the boolean true there is no event. Otherwise there is
    exactly one [task_failed] event: its message is the first non-empty
    string among [message], [error.message] and [reason], else a fixed
    text; it has the error info, and the additional details, when the first
    value present at their four places is an object, and the HTTP status
    code when the first value present in the error info and then in the
    payload is a finite number. *)
Theorem error_retry_suppression (params : value) (s : state) :
  let error := field params "error" in
  let flag := first_present [field params "will_retry"; field params "willRetry"] in
  let info :=
    object_at
      (first_present [ field params "codexErrorInfo"; field params "codex_error_info";
                       field error "codexErrorInfo"; field error "codex_error_info" ]) in
  let details :=
    object_at
      (first_present [ field params "additionalDetails"; field params "additional_details";
                       field error "additionalDetails"; field error "additional_details" ]) in
  let http :=
    number_at
      (first_present [ field info "httpStatusCode"; field info "http_status_code";
                       field params "httpStatusCode"; field params "http_status_code" ]) in
  let message :=
    or_else (first_text [field params "message"; field error "message"; field params "reason"])
      "Unknown app-server error" in
  if is_true flag then handleNotification "error" params s = ([], s)
  else
    exists e,
      handleNotification "error" params s = ([e], s)
      /\ get "type" e = VStr "task_failed"
      /\ get "error" e = VStr message
      /\ nonempty message = true
      /\ get "codex_error_info" e = info
      /\ get "additional_details" e = details
      /\ get "http_status_code" e = http.
Proof.
  intros error flag info details http message.
  unfold handleNotification. eval_eqb. cbv iota.
  unfold pick. cbn [List.map]. rewrite !prop_params, !oprop_field.
  fold error. rewrite boolean_of_present. fold flag.
  destruct (is_true flag); [reflexivity|].
  assert (Hmsg : or_else
                   (or_opt (asString (field params "message"))
                      (or_opt (asString (field error "message"))
                         (asString (field params "reason"))))
                   "Unknown app-server error" = message).
  { subst message. rewrite !first_text_cons.
    destruct (asString (field params "message")), (asString (field error "message")),
      (asString (field params "reason")); reflexivity. }
  rewrite Hmsg.
  assert (Hne : nonempty message = true).
  { subst message. destruct (first_text _) as [t|] eqn:Ht; [|reflexivity].
    exact (first_text_nonempty _ _ Ht). }
  eexists. split; [reflexivity|].
  repeat split; try exact Hne; obj_get; try reflexivity.
  - subst info. rewrite <- record_of_present.
    match goal with |- context [asRecord ?v] => destruct (asRecord v) end; reflexivity.
  - subst details. rewrite <- record_of_present.
    match goal with |- context [asRecord ?v] => destruct (asRecord v) end; reflexivity.
  - subst http info. rewrite <- number_of_present, !field_present.
    match goal with |- context [asNumber ?v] => destruct (asNumber v) end; reflexivity.
Qed.

(** C5, the claim as stated fails. A payload that carries a true
    [willRetry] is not suppressed when it also carries [will_retry: false],
    and a numeric [httpStatusCode] of the payload is not reported when the
    error info has a status that is no number. *)
Lemma error_parts_hidden_counterexample :
  let both := VObj [("will_retry", VBool false); ("willRetry", VBool true)] in
  let status :=
    VObj [ ("codexErrorInfo", VObj [("httpStatusCode", VStr "429")]);
           ("httpStatusCode", VNum (Finite 429)) ] in
  field both "willRetry" = VBool true
  /\ handleNotification "error" both initial
     = ([[("type", VStr "task_failed"); ("error", VStr "Unknown app-server error")]],
        initial)
  /\ field status "httpStatusCode" = VNum (Finite 429)
  /\ handleNotification "error" status initial
     = ([[ ("type", VStr "task_failed");
           ("error", VStr "Unknown app-server error");
           ("codex_error_info", VObj [("httpStatusCode", VStr "429")]) ]],
        initial).
Proof. repeat split; reflexivity. Qed.


Lemma coalesce_first_defined (vs : list value) (d : value) :
  coalesce (first_defined vs) d = or_else (first_present vs) d.
Proof.
  induction vs as [|v rest IH]; [reflexivity|].
  destruct rest as [|r rs].
  - unfold first_present. simpl. unfold coalesce. destruct (nullish v); reflexivity.
  - change (first_defined (v :: r :: rs)) with (coalesce v (first_defined (r :: rs))).
    unfold first_present in *. simpl find in *. unfold coalesce at 2.
    destruct (nullish v) eqn:Hv; simpl negb; cbv iota.
    + exact IH.
    + unfold coalesce. rewrite Hv. reflexivity.
Qed.

Lemma meta_ok_nil : meta_ok [].
Proof. reflexivity. Qed.

Lemma meta_ok_put (k : string) (v : value) (m : obj) :
  existsb (String.eqb k) meta_keys = true -> meta_ok m -> meta_ok (put k v m).
Proof.
  intros Hk. unfold meta_ok. induction m as [|[k' v'] rest IH]; simpl put.
  - intros _. cbn [forallb fst]. rewrite Hk. reflexivity.
  - cbn [forallb fst]. intros [H1 H2]%andb_prop.
    destruct (String.eqb k k'); cbn [forallb fst].
    + rewrite Hk, H2. reflexivity.
    + rewrite H1, (IH H2). reflexivity.
Qed.

Lemma meta_ok_put_text (k : string) (t : option string) (m : obj) :
  existsb (String.eqb k) meta_keys = true -> meta_ok m -> meta_ok (put_text k t m).
Proof.
  intros Hk Hm. unfold put_text. destruct t as [t|]; [|exact Hm].
  destruct (nonempty t); [apply meta_ok_put; assumption | exact Hm].
Qed.

Lemma meta_ok_put_bool (k : string) (b : option bool) (m : obj) :
  existsb (String.eqb k) meta_keys = true -> meta_ok m -> meta_ok (put_bool k b m).
Proof.
  intros Hk Hm. destruct b; [apply meta_ok_put; assumption | exact Hm].
Qed.

Lemma meta_ok_put_record (k : string) (r : option record) (m : obj) :
  existsb (String.eqb k) meta_keys = true -> meta_ok m -> meta_ok (put_record k r m).
Proof.
  intros Hk Hm. destruct r; [apply meta_ok_put; assumption | exact Hm].
Qed.

(** A saved metadata object assigns none of the other properties. *)
Lemma meta_ok_find_key (k : string) (m : obj) :
  meta_ok m -> existsb (String.eqb k) meta_keys = false -> find_key k m = None.
Proof.
  unfold meta_ok. intros Hm Hk. induction m as [|[k' v'] rest IH]; [reflexivity|].
  cbn [forallb fst] in Hm. apply andb_prop in Hm as [H1 H2].
  simpl. rewrite (IH H2).
  destruct (String.eqb_spec k k') as [->|_]; [|reflexivity].
  rewrite H1 in Hk. discriminate.
Qed.

Lemma wf_initial : wf initial.
Proof. split; apply map_Forall_empty. Qed.

Lemma wf_reset (s : state) : wf (reset s).
Proof. exact wf_initial. Qed.

Lemma wf_lookup_command (s : state) (i : string) :
  wf s -> meta_ok (or_else (commandMeta s !! i) []).
Proof.
  intros [H _]. destruct (commandMeta s !! i) as [m|] eqn:Hm; [|reflexivity].
  exact (H i m Hm).
Qed.

Lemma wf_lookup_fileChange (s : state) (i : string) :
  wf s -> meta_ok (or_else (fileChangeMeta s !! i) []).
Proof.
  intros [_ H]. destruct (fileChangeMeta s !! i) as [m|] eqn:Hm; [|reflexivity].
  exact (H i m Hm).
Qed.

Lemma wf_insert_command (s : state) (i : string) (m : obj) :
  wf s -> meta_ok m -> wf (with_commandMeta (insert i m) s).
Proof.
  intros [H1 H2] Hm. split; [|exact H2].
  apply map_Forall_insert_2; assumption.
Qed.

Lemma wf_insert_fileChange (s : state) (i : string) (m : obj) :
  wf s -> meta_ok m -> wf (with_fileChangeMeta (insert i m) s).
Proof.
  intros [H1 H2] Hm. split; [exact H1|].
  apply map_Forall_insert_2; assumption.
Qed.

Lemma wf_delete_command (s : state) (i : string) :
  wf s -> wf (with_commandMeta (delete i) s).
Proof. intros [H1 H2]. split; [|exact H2]. apply map_Forall_delete. exact H1. Qed.

Lemma wf_delete_fileChange (s : state) (i : string) :
  wf s -> wf (with_fileChangeMeta (delete i) s).
Proof. intros [H1 H2]. split; [exact H1|]. apply map_Forall_delete. exact H2. Qed.

(** Writing a text buffer leaves the metadata caches alone. *)
Lemma wf_buffers (s s' : state) :
  commandMeta s' = commandMeta s -> fileChangeMeta s' = fileChangeMeta s ->
  wf s -> wf s'.
Proof. unfold wf. intros -> ->. trivial. Qed.

Ltac wf_done :=
  first
    [ assumption
    | eapply wf_buffers; [reflexivity | reflexivity | assumption] ].

Lemma command_meta_ok command cwd autoApproved threadId turnId :
  meta_ok
    (put_text "turn_id" turnId
       (put_text "thread_id" threadId
          (put_bool "auto_approved" autoApproved
             (put_text "cwd" cwd (put_text "command" command []))))).
Proof.
  repeat first [ apply meta_ok_put_text; [reflexivity|]
               | apply meta_ok_put_bool; [reflexivity|] ].
  apply meta_ok_nil.
Qed.

Lemma fileChange_meta_ok changes autoApproved threadId turnId :
  meta_ok
    (put_text "turn_id" turnId
       (put_text "thread_id" threadId
          (put_bool "auto_approved" autoApproved
             (put_record "changes" changes [])))).
Proof.
  repeat first [ apply meta_ok_put_text; [reflexivity|]
               | apply meta_ok_put_bool; [reflexivity|]
               | apply meta_ok_put_record; [reflexivity|] ].
  apply meta_ok_nil.
Qed.

Lemma wf_on_item method p item i status threadId turnId T s r :
  wf s ->
  on_item method p item i status threadId turnId T s = Some r ->
  wf (snd r).
Proof.
  intros Hwf. unfold on_item.
  repeat match goal with
    | |- (if ?c then _ else _) = Some _ -> _ => destruct c
    end;
    intros [= <-].
  - unfold on_agentMessage. destruct (completed method); cbn [snd]; wf_done.
  - unfold on_reasoning. destruct (completed method); cbn [snd]; wf_done.
  - unfold on_plan. destruct (started method), (completed method); cbn [snd];
      try wf_done; destruct (item_text item); wf_done.
  - unfold on_commandExecution.
    destruct (started method), (completed method); cbn [snd]; try wf_done.
    + eapply wf_buffers; [reflexivity | reflexivity |].
      apply wf_delete_command, wf_insert_command; [assumption | apply command_meta_ok].
    + apply wf_insert_command; [assumption | apply command_meta_ok].
    + eapply wf_buffers; [reflexivity | reflexivity |].
      apply wf_delete_command. assumption.
  - unfold on_fileChange.
    destruct (started method), (completed method); cbn [snd]; try wf_done.
    + eapply wf_buffers; [reflexivity | reflexivity |].
      apply wf_delete_fileChange, wf_insert_fileChange; [assumption | apply fileChange_meta_ok].
    + apply wf_insert_fileChange; [assumption | apply fileChange_meta_ok].
    + eapply wf_buffers; [reflexivity | reflexivity |].
      apply wf_delete_fileChange. assumption.
  - unfold on_mcpToolCall. destruct (started method); assumption.
  - unfold on_collabToolCall. destruct (started method); assumption.
  - unfold on_webSearch. destruct (started method); assumption.
  - unfold on_imageView. destruct (started method); assumption.
  - assumption.
  - assumption.
  - assumption.
Qed.

(** The invariant holds of every converter a notification leaves. *)
Lemma wf_handleNotification (method : string) (params : value) (s : state) :
  wf s -> wf (snd (handleNotification method params s)).
Proof.
  intros Hwf. unfold handleNotification.
  repeat match goal with
    | |- wf (snd (if ?c then _ else _)) => destruct c
    | |- wf (snd (match ?x with _ => _ end)) => destruct x eqn:?
    | |- wf (snd (_, _)) => cbn [snd]
    end; try wf_done.
  match goal with
  | |- wf (snd (or_else ?o _)) =>
      destruct o eqn:Hitem; cbn [or_else snd]; [eapply wf_on_item; eassumption | assumption]
  end.
Qed.

Lemma wf_run (notes : list (string * value)) (s : state) :
  wf s -> wf (snd (run notes s)).
Proof.
  revert s. induction notes as [|[method params] rest IH]; intros s Hwf; [exact Hwf|].
  simpl. pose proof (wf_handleNotification method params s Hwf) as H1.
  destruct (handleNotification method params s) as [events s1].
  specialize (IH s1 H1). destruct (run rest s1) as [more s2]. exact IH.
Qed.

(** Every converter reached from a new one satisfies the invariant. *)
Lemma wf_reachable (notes : list (string * value)) : wf (snd (run notes initial)).
Proof. apply wf_run, wf_initial. Qed.

Lemma handle_item (method : string) (params : value) (s : state) :
  method = "item/started" \/ method = "item/completed" ->
  handleNotification method params s
  = match itemType_of params, itemId_of params with
    | Some T, Some i =>
        if nonempty T then
          or_else
            (on_item method (params_of params) (item_of params) i
               (asString (prop (item_of params) "status"))
               (extractThreadId (params_of params) (Some (item_of params)))
               (extractTurnId (params_of params) (Some (item_of params)))
               T s)
            ([], s)
        else ([], s)
    | _, _ => ([], s)
    end.
Proof.
  intros [-> | ->]; unfold handleNotification; eval_eqb; reflexivity.
Qed.

Lemma success_of_correct (item : record) :
  or_else
    (asBoolean
       (coalesce (pick item ["success"; "ok"; "applied"])
          (VBool match prop item "status" with
                 | VStr st => String.eqb st "completed"
                 | _ => false
                 end)))
    false
  = success_of item.
Proof.
  unfold success_of, pick. cbn [List.map]. rewrite coalesce_first_defined.
  destruct (first_present _) as [v|]; [|reflexivity].
  destruct v; reflexivity.
Qed.

(** C10. The [patch_apply_end] event of a completed file change always has
    a boolean [success], with or without saved metadata: the first of the
    item's [success], [ok] and [applied] that is neither null nor undefined
    decides, as its value when it is a boolean and as false otherwise; when
    all three are absent, [success] is true exactly when the item's status
    is the string completed. *)
Theorem patch_apply_end_success (params : value) (s : state) (i : string) :
  wf s ->
  itemType_of params = Some "filechange" ->
  itemId_of params = Some i ->
  exists e s',
    handleNotification "item/completed" params s = ([e], s')
    /\ get "type" e = VStr "patch_apply_end"
    /\ get "success" e = VBool (success_of (item_of params)).
Proof.
  intros Hwf HT Hi.
  rewrite handle_item by (right; reflexivity). rewrite HT, Hi.
  cbn [nonempty]. unfold on_item. eval_eqb. cbv iota. cbn [or_else].
  unfold on_fileChange, started, completed. eval_eqb. cbv iota. cbn [app].
  do 2 eexists. split; [reflexivity|].
  pose proof (wf_lookup_fileChange s i Hwf) as Hmeta.
  unfold item_event. split; obj_get.
  - rewrite (meta_ok_find_key _ _ Hmeta) by reflexivity. reflexivity.
  - rewrite success_of_correct. reflexivity.
Qed.

(** An instance: [ok] is true and the status is failed, nothing was saved
    for the item. *)
Lemma patch_apply_end_success_witness :
  let params :=
    VObj [("item", VObj [ ("id", VStr "patch-1"); ("type", VStr "fileChange");
                          ("ok", VBool true); ("status", VStr "failed") ])] in
  exists e s',
    handleNotification "item/completed" params initial = ([e], s')
    /\ get "type" e = VStr "patch_apply_end"
    /\ get "success" e = VBool (success_of (item_of params)).
Proof.
  exact (patch_apply_end_success
           (VObj [("item", VObj [ ("id", VStr "patch-1"); ("type", VStr "fileChange");
                                  ("ok", VBool true); ("status", VStr "failed") ])])
           initial "patch-1" wf_initial eq_refl eq_refl).
Defined.



Lemma handle_messageDelta (i f : string) (s : state) :
  handleNotification (fst (messageDelta i f)) (snd (messageDelta i f)) s
  = ([], if nonempty i && nonempty f
         then with_agentMessageBuffers (append_delta i f) s else s).
Proof.
  unfold handleNotification, messageDelta. cbn [fst snd]. eval_eqb. cbv iota.
  unfold extractItemId, delta_text, pick. cbn [asRecord or_else List.map prop get find_key first_defined String.eqb Ascii.eqb Bool.eqb].
  eval_eqb. cbv iota. cbn [coalesce nullish asString].
  destruct (nonempty i), (nonempty f); reflexivity.
Qed.

Lemma run_messageDeltas (i : string) (frags : list string) (s : state) :
  run (List.map (messageDelta i) frags) s
  = (List.map (fun _ => []) frags,
     if nonempty i && nonempty (whole frags)
     then with_agentMessageBuffers (append_delta i (whole frags)) s else s).
Proof.
  revert s. induction frags as [|f rest IH]; intros s.
  - simpl. rewrite andb_false_r. reflexivity.
  - cbn [List.map run].
    pose proof (handle_messageDelta i f s) as Hstep.
    destruct (messageDelta i f) as [method params]. cbn [fst snd] in Hstep.
    rewrite Hstep, IH. cbn [whole fold_right]. fold (whole rest).
    rewrite nonempty_append. f_equal.
    destruct (nonempty i); cbn [andb]; [|reflexivity].
    destruct (nonempty f) eqn:Hf; cbn [orb].
    + destruct s as [amb rb pb cob fcob cm fcm].
      unfold with_agentMessageBuffers, append_delta. cbn.
      destruct (nonempty (whole rest)) eqn:Hrest.
      * rewrite lookup_insert_eq, insert_insert_eq. cbn [or_else].
        rewrite append_assoc. reflexivity.
      * destruct (whole rest); [|discriminate]. rewrite append_nil_r. reflexivity.
    + destruct f; [|discriminate]. reflexivity.
Qed.

Lemma get_item_id_addStableFields target params item (i : string) :
  nonempty i = true ->
  get "item_id" (addStableFields target params item (Some i)) = VStr i.
Proof.
  intros Hi. unfold addStableFields. rewrite !get_put_text. eval_eqb.
  rewrite Hi. reflexivity.
Qed.

Lemma itemId_of_item (i : string) (fields : obj) :
  nonempty i = true ->
  itemId_of (VObj [("item", VObj (("id", VStr i) :: fields))]) = Some i.
Proof.
  intros Hi. unfold itemId_of, params_of, item_of, extractItemId, pick.
  cbn [asRecord or_else List.map prop get find_key first_defined String.eqb Ascii.eqb Bool.eqb]. eval_eqb. cbv iota.
  cbn [coalesce nullish asString asRecord or_opt prop get find_key String.eqb Ascii.eqb Bool.eqb]. eval_eqb. cbv iota.
  cbn [coalesce nullish asString]. rewrite Hi. reflexivity.
Qed.

(** C4. For every item id and every way of splitting a string into
    fragments, the fragments sent one by one as [item/agentMessage/delta]
    leave the converter in the state the whole string sent as one delta
    leaves it in, so completing the item (no text on the completion payload)
    gives the same result in both cases: one [agent_message] whose message
    is what the buffer held before followed by the whole string, or no event
    when that text is empty. *)
Theorem delta_associativity (i : string) (frags : list string) (s : state) :
  nonempty i = true ->
  let fed := snd (run (List.map (messageDelta i) frags) s) in
  let once := snd (run [messageDelta i (whole frags)] s) in
  let text := or_else (agentMessageBuffers s !! i) EmptyString +:+ whole frags in
  fed = once
  /\ exists events,
       fst (handleNotification (fst (messageCompleted i)) (snd (messageCompleted i)) fed) = events
       /\ fst (handleNotification (fst (messageCompleted i)) (snd (messageCompleted i)) once) = events
       /\ match events with
          | [] => text = EmptyString
          | [e] =>
              get "type" e = VStr "agent_message"
              /\ get "message" e = VStr text
              /\ get "item_id" e = VStr i
          | _ => False
          end.
Proof.
  intros Hi fed once text.
  assert (Heq : fed = once).
  { subst fed once. rewrite run_messageDeltas.
    change [messageDelta i (whole frags)] with (List.map (messageDelta i) [whole frags]).
    rewrite run_messageDeltas. cbn [snd whole fold_right].
    rewrite append_nil_r. reflexivity. }
  split; [exact Heq|]. rewrite <- Heq. eexists. split; [reflexivity|]. split; [reflexivity|].
  subst fed. rewrite run_messageDeltas. cbn [snd]. rewrite Hi. cbn [andb].
  unfold messageCompleted. cbn [fst snd].
  rewrite handle_item by (right; reflexivity).
  rewrite itemId_of_item by exact Hi.
  change (itemType_of _) with (Some "agentmessage").
  cbn [nonempty]. unfold on_item. eval_eqb. cbv iota. cbn [or_else].
  unfold on_agentMessage, completed. eval_eqb. cbv iota. cbn [fst].
  change (item_text _) with (@None string). cbn [or_opt].
  assert (Hemit : forall t,
    nonempty t = true ->
    match
      [item_event
         (params_of (VObj [("item", VObj [("id", VStr i); ("type", VStr "agentMessage")])]))
         (item_of (VObj [("item", VObj [("id", VStr i); ("type", VStr "agentMessage")])]))
         i "agent_message"
         [[("message", VStr t); ("item_id", VStr i)];
          text_field "status"
            (asString
               (prop (item_of (VObj [("item", VObj [("id", VStr i); ("type", VStr "agentMessage")])]))
                  "status"))]]
    with
    | [] => t = EmptyString
    | [e] => get "type" e = VStr "agent_message" /\ get "message" e = VStr t
             /\ get "item_id" e = VStr i
    | _ => False
    end).
  { intros t Ht. unfold item_event. repeat split; obj_get; try reflexivity.
    apply get_item_id_addStableFields. exact Hi. }
  subst text.
  destruct (nonempty (whole frags)) eqn:Hw.
  - destruct s as [amb rb pb cob fcob cm fcm].
    unfold with_agentMessageBuffers, append_delta. cbn [agentMessageBuffers].
    rewrite lookup_insert_eq.
    assert (Hne : nonempty (or_else (amb !! i) EmptyString +:+ whole frags) = true).
    { rewrite nonempty_append, Hw. apply orb_true_r. }
    rewrite Hne. apply Hemit. exact Hne.
  - destruct (whole frags) eqn:Hwhole; [|discriminate]. rewrite append_nil_r.
    destruct (agentMessageBuffers s !! i) as [t|]; cbn [or_else]; [|reflexivity].
    destruct (nonempty t) eqn:Ht; [apply Hemit; exact Ht|].
    destruct t; [reflexivity | discriminate].
Qed.

(** An instance: Hello, then world after a space, on a new converter. *)
Lemma delta_associativity_witness :
  let fed := snd (run (List.map (messageDelta "msg-1") ["Hello"; " world"]) initial) in
  let once := snd (run [messageDelta "msg-1" (whole ["Hello"; " world"])] initial) in
  let text :=
    or_else (agentMessageBuffers initial !! "msg-1") EmptyString
      +:+ whole ["Hello"; " world"] in
  fed = once
  /\ exists events,
       fst (handleNotification (fst (messageCompleted "msg-1"))
              (snd (messageCompleted "msg-1")) fed) = events
       /\ fst (handleNotification (fst (messageCompleted "msg-1"))
                 (snd (messageCompleted "msg-1")) once) = events
       /\ match events with
          | [] => text = EmptyString
          | [e] =>
              get "type" e = VStr "agent_message"
              /\ get "message" e = VStr text
              /\ get "item_id" e = VStr "msg-1"
          | _ => False
          end.
Proof. exact (delta_associativity "msg-1" ["Hello"; " world"] initial eq_refl). Defined.

Lemma handle_outputDelta (i d : string) (s : state) :
  handleNotification (fst (outputDelta i d)) (snd (outputDelta i d)) s
  = ([], if nonempty i && nonempty d
         then with_commandOutputBuffers (append_delta i d) s else s).
Proof.
  unfold handleNotification, outputDelta. cbn [fst snd]. eval_eqb. cbv iota.
  unfold extractItemId, pick. cbn [asRecord or_else List.map prop get find_key first_defined String.eqb Ascii.eqb Bool.eqb].
  eval_eqb. cbv iota. cbn [coalesce nullish asString asText].
  destruct (nonempty i), (nonempty d); reflexivity.
Qed.

(** C3. A command [ls] is started, two output deltas [o] and [k] arrive,
    and the item completes with exit code 0 and no output of its own (no
    output was buffered for the item before): the completion yields one
    [exec_command_end] event whose output is [ok], taken from the buffer,
    whose exit code is 0 and whose command is [ls], taken from the metadata
    saved at the start and absent from the completion payload. Afterwards
    the converter holds neither metadata nor output for the item. *)
Theorem command_output_scenario (i : string) (s : state) :
  nonempty i = true ->
  commandOutputBuffers s !! i = None ->
  exists b e s',
    run [ commandStarted i "ls"; outputDelta i "o"; outputDelta i "k";
          commandCompleted i 0 ] s
    = ([[b]; []; []; [e]], s')
    /\ get "type" b = VStr "exec_command_begin"
    /\ get "command" b = VStr "ls"
    /\ get "type" e = VStr "exec_command_end"
    /\ get "output" e = VStr "ok"
    /\ get "exit_code" e = VNum (Finite 0)
    /\ get "command" e = VStr "ls"
    /\ prop (item_of (snd (commandCompleted i 0))) "command" = VUndefined
    /\ commandMeta s' !! i = None
    /\ commandOutputBuffers s' !! i = None.
Proof.
  intros Hi Hnone.
  cbn [run].
  pose proof (handle_outputDelta i "o") as Ho.
  pose proof (handle_outputDelta i "k") as Hk.
  unfold commandStarted, commandCompleted.
  destruct (outputDelta i "o") as [mo po]. destruct (outputDelta i "k") as [mk pk].
  cbn [fst snd] in Ho, Hk.
  rewrite handle_item by (left; reflexivity).
  rewrite itemId_of_item by exact Hi.
  change (itemType_of _) with (Some "commandexecution").
  cbn [nonempty]. unfold on_item. eval_eqb. cbv iota. cbn [or_else].
  unfold on_commandExecution at 1. unfold started, completed. eval_eqb. cbv iota.
  rewrite Ho, Hk, Hi. cbn [andb nonempty].
  rewrite handle_item by (right; reflexivity).
  rewrite itemId_of_item by exact Hi.
  change (itemType_of _) with (Some "commandexecution").
  cbn [nonempty]. unfold on_item. eval_eqb. cbv iota. cbn [or_else].
  unfold on_commandExecution. unfold started, completed. eval_eqb. cbv iota.
  cbn [app].
  destruct s as [amb rb pb cob fcob cm fcm]. cbn in Hnone.
  unfold with_commandOutputBuffers, with_commandMeta, append_delta.
  cbn [commandMeta commandOutputBuffers agentMessageBuffers reasoningBuffers planBuffers
       fileChangeOutputBuffers fileChangeMeta].
  change (put_text "turn_id" _ _) with [("command", VStr "ls")].
  rewrite !lookup_insert_eq, Hnone. cbn [or_else].
  change (asText (pick _ ["output"; "result"; "stdout"])) with (@None string).
  change (asText (prop _ "stderr")) with (@None string).
  change (asText (prop _ "error")) with (@None string).
  change (asNumber (pick _ ["exitCode"; "exit_code"; "exitcode"])) with (Some (Finite 0)).
  cbn [or_opt].
  do 3 eexists. split; [reflexivity|].
  cbn [commandMeta commandOutputBuffers].
  unfold item_event.
  repeat split; obj_get; try reflexivity.
  - apply lookup_delete_eq.
  - apply lookup_delete_eq.
Qed.

(** An instance: the item cmd-1 on a new converter. *)
Lemma command_output_scenario_witness :
  exists b e s',
    run [ commandStarted "cmd-1" "ls"; outputDelta "cmd-1" "o"; outputDelta "cmd-1" "k";
          commandCompleted "cmd-1" 0 ] initial
    = ([[b]; []; []; [e]], s')
    /\ get "type" b = VStr "exec_command_begin"
    /\ get "command" b = VStr "ls"
    /\ get "type" e = VStr "exec_command_end"
    /\ get "output" e = VStr "ok"
    /\ get "exit_code" e = VNum (Finite 0)
    /\ get "command" e = VStr "ls"
    /\ prop (item_of (snd (commandCompleted "cmd-1" 0))) "command" = VUndefined
    /\ commandMeta s' !! "cmd-1" = None
    /\ commandOutputBuffers s' !! "cmd-1" = None.
Proof. exact (command_output_scenario "cmd-1" initial eq_refl eq_refl). Defined.


Lemma nullish_inv (v : value) : nullish v = true -> v = VUndefined \/ v = VNull.
Proof. destruct v; try discriminate; auto. Qed.

(** What a completion payload with no text of its own resolves to. *)
Lemma no_explicit_text_inv (item : record) :
  no_explicit_text item = true ->
  item_text item = None
  /\ asText (pick item ["output"; "result"; "stdout"]) = None
  /\ asText (pick item ["stdout"; "output"]) = None
  /\ first_defined [prop item "result"; prop item "output"; VNull] = VNull.
Proof.
  unfold no_explicit_text, item_text, pick. cbn [List.map forallb first_defined].
  intros H.
  repeat (apply andb_prop in H as [?%nullish_inv H]).
  repeat match goal with
    | H : _ \/ _ |- _ => destruct H as [-> | ->]
    end;
    repeat split; reflexivity.
Qed.

(** C8. [reset] empties the five buffers and the two metadata caches
    whatever the converter held. A converter that was reset answers every
    notification as a new converter does, so nothing buffered before the
    reset comes back: when an item is completed after a reset and its
    completion payload has no text of its own, no event carries a string as
    message, text, output or stdout. *)
Theorem reset_clears_buffers (s : state) :
  reset s = State ∅ ∅ ∅ ∅ ∅ ∅ ∅
  /\ (forall method params,
        handleNotification method params (reset s)
        = handleNotification method params initial)
  /\ (forall params e k t,
        In e (fst (handleNotification "item/completed" params (reset s))) ->
        no_explicit_text (item_of params) = true ->
        In k ["message"; "text"; "output"; "stdout"] ->
        get k e <> VStr t).
Proof.
  split; [reflexivity|]. split; [reflexivity|].
  intros params e k t Hin Hno Hk.
  apply no_explicit_text_inv in Hno as (Htext & Hout & Hstdout & Hresult).
  rewrite handle_item in Hin by (right; reflexivity).
  destruct (itemType_of params) as [T|]; [|destruct Hin].
  destruct (itemId_of params) as [i|]; [|destruct Hin].
  destruct (nonempty T); [|destruct Hin].
  unfold on_item in Hin.
  repeat match type of Hin with
    | context [if String.eqb T ?l then _ else _] => destruct (String.eqb T l)
    end;
    revert Hin;
    unfold on_agentMessage, on_reasoning, on_plan, on_commandExecution, on_fileChange,
      on_mcpToolCall, on_collabToolCall, on_webSearch, on_imageView, on_reviewMode,
      on_contextCompaction, end_fields, started, completed, reset;
    eval_eqb; cbv iota;
    cbn [agentMessageBuffers reasoningBuffers planBuffers commandOutputBuffers
         fileChangeOutputBuffers commandMeta fileChangeMeta];
    rewrite ?lookup_empty, ?Htext, ?Hout, ?Hstdout, ?Hresult;
    cbn [or_else or_opt fst app In]; try tauto.
  all: intros [<- | []]; unfold item_event;
    cbn [In] in Hk;
    repeat (destruct Hk as [<- | Hk]); try destruct Hk;
    obj_get; try discriminate.
Qed.

Lemma itemId_of_nonempty (params : value) (i : string) :
  itemId_of params = Some i -> nonempty i = true.
Proof.
  unfold itemId_of, extractItemId.
  destruct (asString (pick (params_of params) _)) as [d|] eqn:Hd; cbn [or_opt].
  - intros [= <-]. apply asString_nonempty in Hd as [_ Hd]. exact Hd.
  - destruct (asRecord (prop (params_of params) "item")) as [it|].
    + destruct (asString (pick it _)) as [d|] eqn:Hd'; cbn [or_opt].
      * intros [= <-]. apply asString_nonempty in Hd' as [_ H]. exact H.
      * intros H. apply asString_nonempty in H as [_ H]. exact H.
    + cbn [or_opt]. intros H. apply asString_nonempty in H as [_ H]. exact H.
Qed.








Ltac meta_get_last :=
  repeat match goal with
    | |- context [find_key ?k ?m] =>
        rewrite (meta_ok_find_key k m)
          by first [ apply command_meta_ok | apply fileChange_meta_ok
                   | assumption | reflexivity ]
    end.

(** Every event of an item notification carries the item id, as [item_id]
    and, when it has one, as [call_id]; its type is one of the item event
    types. *)
Lemma item_event_shape (method : string) (params : value) (s : state) (e : obj) :
  method = "item/started" \/ method = "item/completed" ->
  wf s ->
  In e (fst (handleNotification method params s)) ->
  exists i ty,
    itemId_of params = Some i
    /\ nonempty i = true
    /\ get "item_id" e = VStr i
    /\ (get "call_id" e = VStr i \/ get "call_id" e = VUndefined)
    /\ get "callId" e = VUndefined
    /\ get "type" e = VStr ty
    /\ existsb (String.eqb ty) item_event_types = true.
Proof.
  intros Hmethod Hwf Hin.
  rewrite handle_item in Hin by exact Hmethod.
  destruct (itemType_of params) as [T|]; [|destruct Hin].
  destruct (itemId_of params) as [i|] eqn:Hi; [|destruct Hin].
  pose proof (itemId_of_nonempty _ _ Hi) as Hne.
  pose proof (wf_lookup_command s i Hwf) as Hcm.
  pose proof (wf_lookup_fileChange s i Hwf) as Hfm.
  destruct (nonempty T); [|destruct Hin].
  exists i.
  unfold on_item in Hin.
  destruct Hmethod as [-> | ->];
  repeat match type of Hin with
    | context [if String.eqb T ?l then _ else _] => destruct (String.eqb T l)
    end;
    revert Hin;
    unfold on_agentMessage, on_reasoning, on_plan, on_commandExecution, on_fileChange,
      on_mcpToolCall, on_collabToolCall, on_webSearch, on_imageView, on_reviewMode,
      on_contextCompaction, end_fields, started, completed;
    eval_eqb; cbv iota;
    cbn [or_else fst app In]; try tauto.
  all: try (destruct (or_opt _ _) as [t|]; [destruct (nonempty t)|]; cbn [In]; try tauto).
  all: intros [<- | []]; eexists; (split; [reflexivity|]); (split; [exact Hne|]);
    unfold item_event;
    (split; [apply get_item_id_addStableFields; exact Hne|]).
  all: repeat split; obj_get; meta_get_last; cbn [or_opt or_else]; try reflexivity; auto.
Qed.

End ConverterFacts.

(* ===================================================================== *)
(** ** Properties of the launcher's event handler *)
(* ===================================================================== *)

Module LauncherFacts.
Import Js JsFacts Launcher.
Local Open Scope launcher_scope.

Section Emits.
Variable P : effect -> Prop.

Lemma emits_ret {A : Type} (a : A) : emits P (ret a).
Proof. intros s. constructor. Qed.

Lemma emits_bind {A B : Type} (m : M A) (k : A -> M B) :
  emits P m -> (forall a, emits P (k a)) -> emits P (bind m k).
Proof.
  intros Hm Hk s. unfold bind. specialize (Hm s).
  destruct (m s) as [[a s1] log1]. specialize (Hk a s1).
  destruct (k a s1) as [[b s2] log2]. cbn [snd] in *.
  apply Forall_app. split; assumption.
Qed.

Lemma emits_bind_ret {A B : Type} (a : A) (k : A -> M B) :
  emits P (k a) -> emits P (bind (ret a) k).
Proof.
  intros Hk s. unfold bind, ret. specialize (Hk s).
  destruct (k a s) as [[b s2] log2]. exact Hk.
Qed.

Lemma emits_perform (e : effect) : P e -> emits P (perform e).
Proof. intros He s. cbn. constructor; [exact He | constructor]. Qed.

Lemma emits_read {A : Type} (f : state -> A) : emits P (read f).
Proof. intros s. constructor. Qed.

Lemma emits_update (f : state -> state) : emits P (update f).
Proof. intros s. constructor. Qed.

Lemma emits_when (c : bool) (m : M unit) :
  (c = true -> emits P m) -> emits P (when c m).
Proof. destruct c; intros H; [apply H; reflexivity | apply emits_ret]. Qed.

Lemma emits_randomUUID (uuid : nat -> string) : emits P (randomUUID uuid).
Proof. intros s. constructor. Qed.
End Emits.

Lemma find_key_put_text (k k' : string) (t : option string) (o : obj) :
  String.eqb k k' = false -> find_key k (put_text k' t o) = find_key k o.
Proof.
  intros Hk. unfold Converter.put_text. destruct t as [t|]; [|reflexivity].
  destruct (nonempty t); [|reflexivity]. rewrite find_key_put, Hk. reflexivity.
Qed.

(** The trace fields are [thread_id], [turn_id], [item_id] and [status]. *)
Lemma find_key_toTraceFields (k : string) (source : obj) :
  existsb (String.eqb k) ["thread_id"; "turn_id"; "item_id"; "status"] = false ->
  find_key k (toTraceFields source) = None.
Proof.
  intros Hk. simpl in Hk.
  repeat (apply orb_false_elim in Hk; destruct Hk as [? Hk]).
  unfold toTraceFields. rewrite !find_key_put_text by assumption. reflexivity.
Qed.

(** Read a property of a message built by an object literal. *)
Ltac msg_get :=
  rewrite ?get_literal; cbn [find_part];
  rewrite ?find_key_toTraceFields by reflexivity;
  ConverterFacts.eval_eqb; cbn [find_key or_opt or_else]; ConverterFacts.eval_eqb;
  cbn [find_key or_opt or_else].

Lemma get_passThrough (k id : string) (msg : obj) :
  String.eqb k "id" = false ->
  get k (literal [msg; [("id", VStr id)]]) = get k msg.
Proof.
  intros Hk. rewrite get_literal. cbn [find_part find_key]. rewrite Hk.
  unfold get. destruct (find_key k msg); reflexivity.
Qed.

Lemma has_type_passThrough (ty id : string) (msg : obj) :
  has_type ty (literal [msg; [("id", VStr id)]]) = has_type ty msg.
Proof. unfold has_type. rewrite get_passThrough by reflexivity. reflexivity. Qed.

Lemma not_tool_correlated (i : string) (e : effect) : not_tool e -> correlated i e.
Proof. destruct e; cbn; try trivial. intros ->. discriminate. Qed.

Section Correlation.
Variable uuid : nat -> string.
Variable useAppServer : bool.
Variable i : string.

Lemma emits_emitToolCall name input source :
  emits (correlated i) (emitToolCall uuid name i input source).
Proof.
  unfold emitToolCall. apply emits_bind; [apply emits_randomUUID|]. intros id.
  apply emits_perform. intros _. msg_get. reflexivity.
Qed.

Lemma emits_emitToolResult output source isError :
  emits (correlated i) (emitToolResult uuid i output source isError).
Proof.
  unfold emitToolResult. apply emits_bind; [apply emits_randomUUID|]. intros id.
  apply emits_perform. intros _. msg_get. reflexivity.
Qed.

Variable msg : obj.
Variable ty : string.
Hypothesis Hty : get "type" msg = VStr ty.
Hypothesis Hcall : pick msg ["call_id"; "callId"; "item_id"; "itemId"] = VStr i.
Hypothesis Hne : nonempty i = true.

Lemma extractCallId_item (prefix : string) : extractCallId uuid msg prefix = ret i.
Proof. unfold extractCallId. rewrite Hcall. cbn. rewrite Hne. reflexivity. Qed.

Lemma emits_passThrough :
  String.eqb ty "tool-call" = false ->
  String.eqb ty "tool-call-result" = false ->
  emits (correlated i) (passThrough uuid msg).
Proof.
  intros H1 H2. unfold passThrough.
  apply emits_bind; [apply emits_randomUUID|]. intros id.
  apply emits_perform. apply not_tool_correlated. unfold not_tool.
  rewrite !has_type_passThrough. unfold has_type. rewrite Hty, H1, H2. reflexivity.
Qed.

Lemma emits_display : emits (correlated i) (display ty msg).
Proof.
  unfold display.
  repeat match goal with
    | |- emits _ (if ?c then _ else _) => destruct c
    | |- emits _ (match ?x with _ => _ end) => destruct x
    | |- emits _ (bind _ _) => apply emits_bind; [|intros ?]
    | |- emits _ (perform _) => apply emits_perform; exact I
    | |- emits _ (ret _) => apply emits_ret
    end.
Qed.

Lemma emits_toolCalls :
  String.eqb ty "turn_plan_updated" = false ->
  emits (correlated i) (toolCalls uuid ty msg).
Proof.
  intros Hplan. unfold toolCalls, toolBegin, toolEnd, onAgentPlanDelta.
  rewrite Hplan. rewrite !extractCallId_item.
  repeat match goal with
    | H : false = true |- _ => discriminate H
    | |- emits _ (bind (ret _) _) => apply emits_bind_ret
    | |- emits _ (bind _ _) => apply emits_bind; [|intros ?]
    | |- emits _ (when _ _) => apply emits_when; intros ?
    | |- emits _ (ret _) => apply emits_ret
    | |- emits _ (emitToolCall _ _ _ _ _) => apply emits_emitToolCall
    | |- emits _ (emitToolResult _ _ _ _ _) => apply emits_emitToolResult
    | |- emits _ (read _) => apply emits_read
    | |- emits _ (update _) => apply emits_update
    | |- emits _ (perform (ProcessDiff _)) => apply emits_perform; exact I
    | |- emits _ (match ?x with _ => _ end) => destruct x
    | H : String.eqb ty ?l = true |- emits _ (passThrough _ _) =>
        apply String.eqb_eq in H; apply emits_passThrough; rewrite H; reflexivity
    end.
Qed.

(** An event that is neither the end of a turn nor a turn plan update
    sends its tool calls and tool results under the call id its own
    fields give. *)
Lemma emits_handleCodexEvent :
  is_terminal ty = false ->
  String.eqb ty "turn_plan_updated" = false ->
  emits (correlated i) (handleCodexEvent uuid useAppServer msg).
Proof.
  intros Hterm Hplan. unfold handleCodexEvent.
  destruct (asString (get "type" msg)) as [msgType|] eqn:Hm; [|apply emits_ret].
  rewrite Hty in Hm. cbn in Hm. destruct (nonempty ty); [|discriminate].
  injection Hm as <-. rewrite Hterm.
  repeat match goal with
    | H : false = true |- _ => discriminate H
    | |- emits _ (if ?c then _ else _) => destruct c
    | |- emits _ (bind _ _) => apply emits_bind; [|intros ?]
    | |- emits _ (when _ _) => apply emits_when; intros ?
    | |- emits _ (ret _) => apply emits_ret
    | |- emits _ (read _) => apply emits_read
    | |- emits _ (update _) => apply emits_update
    | |- emits _ (randomUUID _) => apply emits_randomUUID
    | |- emits _ (display _ _) => apply emits_display
    | |- emits _ (toolCalls _ _ _) => apply emits_toolCalls; exact Hplan
    | |- emits _ (onThinkingChange _) => unfold onThinkingChange
    | |- emits _ (match ?x with _ => _ end) => destruct x
    | |- emits _ (perform (SendCodexMessage _)) =>
        apply emits_perform; apply not_tool_correlated; unfold not_tool, has_type;
        msg_get; reflexivity
    | |- emits _ (perform _) => apply emits_perform; exact I
    end.
Qed.
End Correlation.


(** Run the handler on an event whose type is a known literal. *)
Ltac run_handler Hty :=
  unfold step, handleCodexEvent; rewrite Hty; cbn [asString nonempty];
  unfold is_terminal, display, toolCalls, toolBegin, toolEnd;
  ConverterFacts.eval_eqb; cbv iota; cbn [when].

Ltac run_monad :=
  cbv [bind ret when update perform read emitToolCall emitToolResult randomUUID
       passThrough onThinkingChange app
       currentThreadId currentTurnId turnInFlight thinking planCallIdByTurn uuids
       set_currentThreadId set_currentTurnId set_turnInFlight set_thinking
       with_planCallIdByTurn set_uuids];
  cbv beta iota zeta.

(** The tool calls and tool results of a log whose messages are object
    literals. *)
Ltac tool_messages :=
  unfold toolCallsOf, toolResultsOf, sent; cbn [flat_map app List.filter fst snd];
  rewrite ?has_type_passThrough; unfold has_type; msg_get; cbn [List.filter].

Section Plan.
Variable uuid : nat -> string.
Variable useAppServer : bool.

Lemma step_turn_plan_updated (msg : obj) (t : string) (s : state) :
  get "type" msg = VStr "turn_plan_updated" ->
  asString (pick msg ["turn_id"; "turnId"]) = Some t ->
  exists b,
    toolCallsOf (snd (step uuid useAppServer msg s)) = [b]
    /\ toolResultsOf (snd (step uuid useAppServer msg s)) = []
    /\ get "name" b = VStr "ExitPlanMode"
    /\ get "callId" b = VStr ("turn-plan:" +:+ t)
    /\ planCallIdByTurn (fst (step uuid useAppServer msg s))
       = <[t := "turn-plan:" +:+ t]> (planCallIdByTurn s).
Proof.
  intros Hty Hturn. run_handler Hty. unfold onTurnPlanUpdated. rewrite Hturn.
  run_monad. tool_messages.
  eexists. split; [reflexivity|]. split; [reflexivity|].
  repeat split; msg_get; reflexivity.
Qed.

Lemma is_terminal_inv (T : string) :
  is_terminal T = true ->
  T = "task_complete" \/ T = "turn_aborted" \/ T = "task_failed".
Proof.
  unfold is_terminal. intros H.
  apply orb_prop in H as [H | H]; [apply orb_prop in H as [H | H]|];
    apply String.eqb_eq in H; auto.
Qed.

(** The end of a turn closes the plan call open for it. *)
Lemma step_terminal (msg : obj) (T t c : string) (s : state) :
  get "type" msg = VStr T ->
  is_terminal T = true ->
  asString (pick msg ["turn_id"; "turnId"]) = Some t ->
  planCallIdByTurn s !! t = Some c ->
  nonempty c = true ->
  exists r,
    toolCallsOf (snd (step uuid useAppServer msg s)) = []
    /\ toolResultsOf (snd (step uuid useAppServer msg s)) = [r]
    /\ get "callId" r = VStr c
    /\ get "output" r
       = VObj [ ("status", VStr T);
                ("error", text_or_null (asString (get "error" msg))) ]
    /\ get "is_error" r = VBool (String.eqb T "task_failed")
    /\ planCallIdByTurn (fst (step uuid useAppServer msg s))
       = delete t (planCallIdByTurn s).
Proof.
  intros Hty Hterm Hturn Hopen Hne.
  destruct s as [cth ctu tif th plans n]. cbn in Hopen.
  apply is_terminal_inv in Hterm as [-> | [-> | ->]];
    run_handler Hty; unfold onTerminal; rewrite Hturn;
    destruct useAppServer, th; run_monad; rewrite Hopen, Hne; run_monad;
    tool_messages; try rewrite Hty; ConverterFacts.eval_eqb; cbn [List.filter];
    eexists; (split; [reflexivity|]); (split; [reflexivity|]);
    repeat split; msg_get; reflexivity.
Qed.
End Plan.

Lemma sent_app (l1 l2 : list effect) : sent (l1 ++ l2) = (sent l1 ++ sent l2)%list.
Proof. unfold sent. apply flat_map_app. Qed.



Section PlanClaims.
Variable uuid : nat -> string.
Variable useAppServer : bool.




(** C9, as amended. Each plan update sends exactly one tool call named
    ExitPlanMode. [turn_plan_updated] names it after the turn
    ([turn-plan:] and the turn id) and records that call id for the turn,
    over any entry, so a call it opened before is reused.
    [agent_plan_delta] uses the call id of its own fields (call id, else
    item id, else a fresh id) whatever is recorded for the turn, and
    records it only when the turn has no entry. [plan_item_started] uses
    the call id of its own fields and records nothing. *)
Theorem plan_update_call_ids (msg : obj) (type : string) (s : state) :
  get "type" msg = VStr type ->
  existsb (String.eqb type) plan_update_types = true ->
  exists b,
    toolCallsOf (snd (step uuid useAppServer msg s)) = [b]
    /\ get "name" b = VStr "ExitPlanMode"
    /\ get "callId" b = VStr (plan_call_id uuid type msg s)
    /\ planCallIdByTurn (fst (step uuid useAppServer msg s))
       = plan_calls_after uuid type msg s.
Proof.
  intros Hty Hin. cbn [existsb plan_update_types] in Hin.
  destruct s as [cth ctu tif th plans n].
  unfold plan_calls_after, plan_call_id, turn_of, own_call_id.
  repeat (apply orb_prop in Hin as [Hin | Hin]); try discriminate;
    apply String.eqb_eq in Hin; subst type;
    run_handler Hty; unfold onTurnPlanUpdated, onAgentPlanDelta, extractCallId;
    ConverterFacts.eval_eqb; cbv iota.
  - destruct (asString (pick msg ["turn_id"; "turnId"])) as [t|];
      run_monad; tool_messages; eexists; (split; [reflexivity|]);
      repeat split; msg_get; reflexivity.
  - destruct (asString (pick msg ["call_id"; "callId"; "item_id"; "itemId"])) as [c|];
      (destruct (asString (pick msg ["turn_id"; "turnId"])) as [t|];
       [run_monad; destruct (plans !! t) | ]);
      run_monad; tool_messages; eexists; (split; [reflexivity|]);
      repeat split; msg_get; reflexivity.
  - destruct (asString (pick msg ["call_id"; "callId"; "item_id"; "itemId"])) as [c|];
      run_monad; tool_messages; eexists; (split; [reflexivity|]);
      repeat split; msg_get; reflexivity.
Qed.
End PlanClaims.



(** An instance: a plan delta of item plan-1 in turn t1, no plan call
    open. *)
Lemma plan_update_call_ids_witness :
  let msg :=
    [ ("type", VStr "agent_plan_delta"); ("item_id", VStr "plan-1");
      ("delta", VStr "x"); ("plan_text", VStr "x"); ("turn_id", VStr "t1") ] in
  exists b,
    toolCallsOf (snd (step example_uuid true msg initial)) = [b]
    /\ get "name" b = VStr "ExitPlanMode"
    /\ get "callId" b = VStr (plan_call_id example_uuid "agent_plan_delta" msg initial)
    /\ planCallIdByTurn (fst (step example_uuid true msg initial))
       = plan_calls_after example_uuid "agent_plan_delta" msg initial.
Proof.
  exact (plan_update_call_ids example_uuid true
           [ ("type", VStr "agent_plan_delta"); ("item_id", VStr "plan-1");
             ("delta", VStr "x"); ("plan_text", VStr "x"); ("turn_id", VStr "t1") ]
           "agent_plan_delta" initial eq_refl eq_refl).
Defined.

(** C9, the claim as stated fails. With the plan call [turn-plan:t1] open
    for turn t1, an [agent_plan_delta] of that turn sends its tool call under
    its item id, not under the open call id; and with no plan call open for
    turn t2, a [plan_item_started] of that turn records none. *)
Lemma plan_call_not_reused_counterexample :
  let update := [("type", VStr "turn_plan_updated"); ("turn_id", VStr "t1")] in
  let delta :=
    [ ("type", VStr "agent_plan_delta"); ("item_id", VStr "plan-1");
      ("delta", VStr "x"); ("plan_text", VStr "x"); ("turn_id", VStr "t1") ] in
  let started :=
    [ ("type", VStr "plan_item_started"); ("call_id", VStr "plan-2");
      ("item_id", VStr "plan-2"); ("turn_id", VStr "t2") ] in
  let s1 := fst (step example_uuid true update initial) in
  planCallIdByTurn s1 !! "t1" = Some "turn-plan:t1"
  /\ List.map (get "callId") (toolCallsOf (snd (step example_uuid true delta s1)))
     = [VStr "plan-1"]
  /\ planCallIdByTurn s1 !! "t2" = None
  /\ List.map (get "callId") (toolCallsOf (snd (step example_uuid true started s1)))
     = [VStr "plan-2"]
  /\ planCallIdByTurn (fst (step example_uuid true started s1)) !! "t2" = None.
Proof. vm_compute. repeat split; reflexivity. Qed.

Section Counts.
Variable uuid : nat -> string.
Variable useAppServer : bool.

(** A begin event sends one tool call and an end event one tool result;
    the events of an item send no other tool message. *)
Lemma item_event_tool_messages (msg : obj) (ty i : string) (s : state) :
  get "type" msg = VStr ty ->
  existsb (String.eqb ty) Converter.item_event_types = true ->
  pick msg ["call_id"; "callId"; "item_id"; "itemId"] = VStr i ->
  nonempty i = true ->
  List.length (toolCallsOf (snd (step uuid useAppServer msg s)))
  = (if existsb (String.eqb ty) begin_types then 1 else 0)
  /\ List.length (toolResultsOf (snd (step uuid useAppServer msg s)))
     = (if existsb (String.eqb ty) end_types then 1 else 0).
Proof.
  intros Hty Hin Hcall Hne.
  unfold Converter.item_event_types in Hin. cbn [existsb] in Hin.
  repeat (apply orb_prop in Hin as [Hin | Hin]); try discriminate;
    apply String.eqb_eq in Hin; subst ty;
    run_handler Hty; rewrite ?(extractCallId_item uuid i msg Hcall Hne);
    repeat match goal with
      | |- context [match asString ?v with _ => _ end] => destruct (asString v)
      | |- context [if truthy ?v then _ else _] => destruct (truthy v)
      end;
    run_monad; tool_messages; split; reflexivity.
Qed.
End Counts.


Lemma correlated_tool_messages (i : string) (log : list effect) :
  Forall (correlated i) log ->
  Forall (fun m => get "callId" m = VStr i) (toolCallsOf log ++ toolResultsOf log).
Proof.
  intros Hlog. apply Forall_app. unfold toolCallsOf, toolResultsOf.
  split; apply List.Forall_forall; intros m [Hm Hty]%List.filter_In;
    unfold sent in Hm; apply List.in_flat_map in Hm as (e & He & Hm);
    rewrite List.Forall_forall in Hlog; specialize (Hlog e He);
    destruct e; cbn in Hm; try contradiction;
    destruct Hm as [<- | []]; apply Hlog; rewrite Hty;
    [reflexivity | apply orb_true_r].
Qed.

(** The events of an item are no end of a turn and no turn plan update. *)
Lemma item_event_type_kind (ty : string) :
  existsb (String.eqb ty) Converter.item_event_types = true ->
  is_terminal ty = false /\ String.eqb ty "turn_plan_updated" = false.
Proof.
  unfold Converter.item_event_types. cbn [existsb]. intros H.
  repeat (apply orb_prop in H as [H | H]); try discriminate;
    apply String.eqb_eq in H; subst ty; split; reflexivity.
Qed.

Lemma pick_call_id (e : obj) (i : string) :
  get "item_id" e = VStr i ->
  get "call_id" e = VStr i \/ get "call_id" e = VUndefined ->
  get "callId" e = VUndefined ->
  pick e ["call_id"; "callId"; "item_id"; "itemId"] = VStr i.
Proof.
  intros Hitem Hcall HcallId. unfold pick. cbn [List.map Converter.first_defined].
  rewrite Hitem, HcallId. destruct Hcall as [-> | ->]; reflexivity.
Qed.

Section Correlated.
Variable uuid : nat -> string.
Variable useAppServer : bool.

(** C6. Let a begin event and an end event come from the converter (from
    an [item/started] and an [item/completed]) with the same item id. The
    call id the emitter derives is that item id for both, whatever the
    prefix, and no fresh id is drawn; every tool call and tool result
    either event sends carries it; an event of a begin type sends exactly
    one tool call and an event of an end type exactly one tool result. *)
Theorem begin_end_same_call_id
    (c1 c2 : Converter.state) (p1 p2 : value) (b e : obj) (i : string)
    (prefix1 prefix2 : string) (s1 s2 : state) :
  Converter.wf c1 ->
  Converter.wf c2 ->
  In b (fst (Converter.handleNotification "item/started" p1 c1)) ->
  In e (fst (Converter.handleNotification "item/completed" p2 c2)) ->
  get "item_id" b = VStr i ->
  get "item_id" e = VStr i ->
  let begun := snd (step uuid useAppServer b s1) in
  let ended := snd (step uuid useAppServer e s2) in
  extractCallId uuid b prefix1 s1 = (i, s1, [])
  /\ extractCallId uuid e prefix2 s2 = (i, s2, [])
  /\ Forall (fun m => get "callId" m = VStr i)
       (toolCallsOf begun ++ toolResultsOf begun)
  /\ Forall (fun m => get "callId" m = VStr i)
       (toolCallsOf ended ++ toolResultsOf ended)
  /\ List.length (toolCallsOf begun)
     = (if existsb (String.eqb (type_of b)) begin_types then 1 else 0)
  /\ List.length (toolResultsOf ended)
     = (if existsb (String.eqb (type_of e)) end_types then 1 else 0).
Proof.
  intros Hc1 Hc2 Hb He Hbi Hei begun ended.
  destruct (ConverterFacts.item_event_shape "item/started" p1 c1 b
              (or_introl eq_refl) Hc1 Hb)
    as (ib & tb & _ & Hnb & Hib & Hcb & Hcb' & Htb & Hkb).
  destruct (ConverterFacts.item_event_shape "item/completed" p2 c2 e
              (or_intror eq_refl) Hc2 He)
    as (ie & te & _ & Hne & Hie & Hce & Hce' & Hte & Hke).
  rewrite Hbi in Hib. injection Hib as <-.
  rewrite Hei in Hie. injection Hie as <-.
  pose proof (pick_call_id b i Hbi Hcb Hcb') as Hpb.
  pose proof (pick_call_id e i Hei Hce Hce') as Hpe.
  destruct (item_event_tool_messages uuid useAppServer b tb i s1 Htb Hkb Hpb Hnb)
    as [Hcount_b _].
  destruct (item_event_tool_messages uuid useAppServer e te i s2 Hte Hke Hpe Hne)
    as [_ Hcount_e].
  apply item_event_type_kind in Hkb as [Hb1 Hb2].
  apply item_event_type_kind in Hke as [He1 He2].
  split; [rewrite (extractCallId_item uuid i b Hpb Hnb); reflexivity|].
  split; [rewrite (extractCallId_item uuid i e Hpe Hne); reflexivity|].
  split; [|split; [|split]].
  - apply correlated_tool_messages.
    pose proof (emits_handleCodexEvent uuid useAppServer i b tb Htb Hpb Hnb Hb1 Hb2 s1) as H.
    subst begun. unfold step.
    destruct (handleCodexEvent uuid useAppServer b s1) as [[u s'] log]. exact H.
  - apply correlated_tool_messages.
    pose proof (emits_handleCodexEvent uuid useAppServer i e te Hte Hpe Hne He1 He2 s2) as H.
    subst ended. unfold step.
    destruct (handleCodexEvent uuid useAppServer e s2) as [[u s'] log]. exact H.
  - unfold type_of. rewrite Htb. exact Hcount_b.
  - unfold type_of. rewrite Hte. exact Hcount_e.
Qed.
End Correlated.

(** An instance: the begin and the end of the command cmd-1. *)
Lemma begin_end_same_call_id_witness :
  let b :=
    [ ("type", VStr "exec_command_begin"); ("call_id", VStr "cmd-1");
      ("item_id", VStr "cmd-1"); ("command", VStr "ls") ] in
  let e :=
    [ ("type", VStr "exec_command_end"); ("call_id", VStr "cmd-1");
      ("item_id", VStr "cmd-1"); ("exit_code", VNum (Finite 0)) ] in
  let begun := snd (step example_uuid true b initial) in
  let ended := snd (step example_uuid true e initial) in
  extractCallId example_uuid b "exec" initial = ("cmd-1", initial, [])
  /\ extractCallId example_uuid e "exec" initial = ("cmd-1", initial, [])
  /\ Forall (fun m => get "callId" m = VStr "cmd-1")
       (toolCallsOf begun ++ toolResultsOf begun)
  /\ Forall (fun m => get "callId" m = VStr "cmd-1")
       (toolCallsOf ended ++ toolResultsOf ended)
  /\ List.length (toolCallsOf begun)
     = (if existsb (String.eqb (type_of b)) begin_types then 1 else 0)
  /\ List.length (toolResultsOf ended)
     = (if existsb (String.eqb (type_of e)) end_types then 1 else 0).
Proof.
  exact (begin_end_same_call_id example_uuid true
           Converter.initial Converter.initial
           (snd (Converter.commandStarted "cmd-1" "ls"))
           (snd (Converter.commandCompleted "cmd-1" 0))
           [ ("type", VStr "exec_command_begin"); ("call_id", VStr "cmd-1");
             ("item_id", VStr "cmd-1"); ("command", VStr "ls") ]
           [ ("type", VStr "exec_command_end"); ("call_id", VStr "cmd-1");
             ("item_id", VStr "cmd-1"); ("exit_code", VNum (Finite 0)) ]
           "cmd-1" "exec" "exec" initial initial
           ConverterFacts.wf_initial ConverterFacts.wf_initial
           (or_introl eq_refl) (or_introl eq_refl) eq_refl eq_refl).
Defined.

End LauncherFacts.

(* ===================================================================== *)
(** ** Properties of the thread and turn start parameters *)
(* ===================================================================== *)

Module ConfigFacts.
Import Js JsFacts Config.

Lemma get_put_model (k : string) (mode : EnhancedMode) (params : obj) :
  String.eqb k "model" = false -> get k (put_model mode params) = get k params.
Proof.
  intros Hk. unfold put_model. destruct (model mode) as [m|]; [|reflexivity].
  destruct (nonempty m); [|reflexivity]. rewrite get_put, Hk. reflexivity.
Qed.

Lemma resolve_not_default (mode : EnhancedMode) (o : option CodexCliOverrides) :
  String.eqb (permissionMode mode) "default" = false ->
  resolveRuntimeConfig mode o = resolveByPermissionMode mode.
Proof.
  intros H. unfold resolveRuntimeConfig. rewrite H. cbn [negb].
  destruct (resolveByPermissionMode mode); reflexivity.
Qed.

(** X1. Only the default permission mode accepts the CLI overrides: in
    every other mode both builders return the same result whatever the
    overrides are. *)
Theorem overrides_only_in_default_mode
    (prompt threadId message : string) (mode : EnhancedMode) (mcpServers : value)
    (o1 o2 : option CodexCliOverrides) :
  String.eqb (permissionMode mode) "default" = false ->
  buildThreadStartParams prompt mode mcpServers o1
  = buildThreadStartParams prompt mode mcpServers o2
  /\ buildTurnStartParams threadId message mode o1
     = buildTurnStartParams threadId message mode o2.
Proof.
  intros H. unfold buildThreadStartParams, buildTurnStartParams.
  rewrite !(resolve_not_default mode _ H). split; reflexivity.
Qed.

(** An instance: read-only mode with overrides that ask for more. *)
Lemma overrides_only_in_default_mode_witness :
  buildThreadStartParams "prompt" (Mode "read-only" None) (VObj [])
    (Some (Overrides (Some "on-request") (Some "workspace-write")))
  = buildThreadStartParams "prompt" (Mode "read-only" None) (VObj []) None
  /\ buildTurnStartParams "thread-1" "hello" (Mode "read-only" None)
       (Some (Overrides (Some "on-request") (Some "workspace-write")))
     = buildTurnStartParams "thread-1" "hello" (Mode "read-only" None) None.
Proof.
  exact (overrides_only_in_default_mode "prompt" "thread-1" "hello"
           (Mode "read-only" None) (VObj [])
           (Some (Overrides (Some "on-request") (Some "workspace-write"))) None
           eq_refl).
Defined.

(** X2. The thread and the turn of one mode agree. When both builders
    succeed, the turn has the approval policy and the model of the thread
    and its sandbox policy is the one of the thread's sandbox. The turn
    builder fails where the thread builder succeeds only on a sandbox that
    is none of the three known ones; when the thread builder fails, the turn
    builder fails with the same message. *)
Theorem thread_and_turn_agree
    (prompt threadId message : string) (mode : EnhancedMode) (mcpServers : value)
    (o : option CodexCliOverrides) :
  match buildThreadStartParams prompt mode mcpServers o,
        buildTurnStartParams threadId message mode o with
  | Ok t, Ok u =>
      get "approvalPolicy" u = get "approvalPolicy" t
      /\ get "model" u = get "model" t
      /\ exists sb policy,
           get "sandbox" t = VStr sb
           /\ toSandboxPolicy sb = Ok policy
           /\ get "sandboxPolicy" u = VObj policy
  | Ok t, Throw m =>
      exists sb,
        get "sandbox" t = VStr sb
        /\ existsb (String.eqb sb) sandbox_modes = false
        /\ m = "Unknown sandbox mode: " +:+ sb
  | Throw m, Throw m' => m = m'
  | Throw _, Ok _ => False
  end.
Proof.
  unfold buildThreadStartParams, buildTurnStartParams.
  destruct (resolveRuntimeConfig mode o) as [[ap sb]|m]; cbn [andThen]; [|reflexivity].
  cbn [resolvedApprovalPolicy resolvedSandbox].
  unfold toSandboxPolicy, sandbox_modes. cbn [existsb].
  destruct (String.eqb sb "danger-full-access") eqn:H1;
    [|destruct (String.eqb sb "read-only") eqn:H2;
      [|destruct (String.eqb sb "workspace-write") eqn:H3]];
    cbn [andThen orb].
  1-3: split; [rewrite !get_put_model by reflexivity; reflexivity|];
       split; [unfold put_model; destruct (model mode) as [m|];
               [destruct (nonempty m)|]; rewrite ?get_put; reflexivity|];
       eexists; eexists; rewrite !get_put_model by reflexivity;
       split; [reflexivity|]; rewrite ?H1, ?H2, ?H3; split; reflexivity.
  exists sb. rewrite get_put_model by reflexivity. cbn [existsb].
  rewrite H1, H2, H3. repeat split; reflexivity.
Qed.

(** X3. The builders fail exactly on an unknown permission mode. On each of
    the four modes the thread builder returns parameters; on any other mode
    both builders throw, naming the mode. *)
Theorem unknown_permission_mode
    (prompt threadId message : string) (mode : EnhancedMode) (mcpServers : value)
    (o : option CodexCliOverrides) :
  if existsb (String.eqb (permissionMode mode)) permission_modes
  then exists p, buildThreadStartParams prompt mode mcpServers o = Ok p
  else
    buildThreadStartParams prompt mode mcpServers o
    = Throw ("Unknown permission mode: " +:+ permissionMode mode)
    /\ buildTurnStartParams threadId message mode o
       = Throw ("Unknown permission mode: " +:+ permissionMode mode).
Proof.
  unfold buildThreadStartParams, buildTurnStartParams, resolveRuntimeConfig,
    resolveByPermissionMode, permission_modes. cbn [existsb].
  destruct (String.eqb (permissionMode mode) "default");
    [cbn [orb andThen negb]; eexists; reflexivity|].
  destruct (String.eqb (permissionMode mode) "read-only");
    [cbn [orb andThen negb]; eexists; reflexivity|].
  destruct (String.eqb (permissionMode mode) "safe-yolo");
    [cbn [orb andThen negb]; eexists; reflexivity|].
  destruct (String.eqb (permissionMode mode) "yolo");
    [cbn [orb andThen negb]; eexists; reflexivity|].
  cbn [orb andThen]. split; reflexivity.
Qed.

(** X4. Full access is never given by default. When the thread parameters
    ask for the sandbox danger-full-access, the permission mode is yolo, or
    it is default and the CLI overrides ask for that sandbox. *)
Theorem full_access_is_asked_for
    (prompt : string) (mode : EnhancedMode) (mcpServers : value)
    (o : option CodexCliOverrides) (p : obj) :
  buildThreadStartParams prompt mode mcpServers o = Ok p ->
  get "sandbox" p = VStr "danger-full-access" ->
  permissionMode mode = "yolo"
  \/ (permissionMode mode = "default"
      /\ exists overrides,
           o = Some overrides /\ sandbox overrides = Some "danger-full-access").
Proof.
  unfold buildThreadStartParams, resolveRuntimeConfig, resolveByPermissionMode.
  destruct (String.eqb_spec (permissionMode mode) "default") as [Hd|_].
  - cbn [andThen negb resolvedSandbox resolvedApprovalPolicy].
    intros [= <-]. rewrite get_put_model by reflexivity. cbn.
    destruct o as [[ap [sb|]]|]; cbn; intros [= H]; right; try discriminate.
    subst sb. split; [exact Hd|]. eexists. split; reflexivity.
  - destruct (String.eqb (permissionMode mode) "read-only");
      [cbn; intros [= <-]; rewrite get_put_model by reflexivity; discriminate|].
    destruct (String.eqb (permissionMode mode) "safe-yolo");
      [cbn; intros [= <-]; rewrite get_put_model by reflexivity; discriminate|].
    destruct (String.eqb_spec (permissionMode mode) "yolo") as [Hy|_];
      [intros _ _; left; exact Hy | discriminate].
Qed.

(** An instance: default mode with an override. *)
Lemma full_access_is_asked_for_witness :
  permissionMode (Mode "default" None) = "yolo"
  \/ (permissionMode (Mode "default" None) = "default"
      /\ exists overrides,
           Some (Overrides None (Some "danger-full-access")) = Some overrides
           /\ sandbox overrides = Some "danger-full-access").
Proof.
  exact (full_access_is_asked_for "prompt" (Mode "default" None) (VObj [])
           (Some (Overrides None (Some "danger-full-access"))) _ eq_refl eq_refl).
Defined.

End ConfigFacts.

(* ===================================================================== *)
(** ** Properties of the approval request handlers *)
(* ===================================================================== *)

Module PermissionFacts.
Import Js JsFacts PermissionAdapter.

Lemma keys_put (k : string) (v : value) (o : obj) :
  List.map fst (put k v o)
  = if existsb (String.eqb k) (List.map fst o) then List.map fst o
    else (List.map fst o ++ [k])%list.
Proof.
  induction o as [|[k' v'] o IH]; [reflexivity|].
  cbn [put List.map fst existsb].
  destruct (String.eqb_spec k k') as [->|Hk]; [reflexivity|].
  cbn [List.map fst orb]. rewrite IH.
  destruct (existsb (String.eqb k) (List.map fst o)); reflexivity.
Qed.

Lemma existsb_eqb_In (k : string) (l : list string) :
  existsb (String.eqb k) l = true <-> In k l.
Proof.
  rewrite existsb_exists. split.
  - intros (x & Hx & He). apply String.eqb_eq in He. subst. exact Hx.
  - intros H. exists k. split; [exact H | apply String.eqb_refl].
Qed.

Lemma NoDup_keys_put (k : string) (v : value) (o : obj) :
  NoDup (List.map fst o) -> NoDup (List.map fst (put k v o)).
Proof.
  intros H. rewrite keys_put.
  destruct (existsb (String.eqb k) (List.map fst o)) eqn:He; [exact H|].
  apply NoDup_app. split; [exact H|]. split.
  - intros x Hx [->|[]]%list_elem_of_In. apply list_elem_of_In in Hx.
    apply existsb_eqb_In in Hx. congruence.
  - apply NoDup_singleton.
Qed.

Lemma put_fresh (k : string) (v : value) (o : obj) :
  ~ In k (List.map fst o) -> put k v o = (o ++ [(k, v)])%list.
Proof.
  induction o as [|[k' v'] o IH]; intros H; [reflexivity|].
  cbn [put]. destruct (String.eqb_spec k k') as [->|Hk].
  - exfalso. apply H. left. reflexivity.
  - cbn [app]. rewrite IH; [reflexivity|]. intros Hin. apply H. right. exact Hin.
Qed.

Lemma find_key_fresh (k : string) (o : obj) :
  ~ In k (List.map fst o) -> find_key k o = None.
Proof.
  induction o as [|[k' v'] o IH]; intros H; [reflexivity|].
  cbn [find_key]. destruct (String.eqb_spec k k') as [->|Hk].
  - exfalso. apply H. left. reflexivity.
  - apply IH. intros Hin. apply H. right. exact Hin.
Qed.

Lemma get_member (pre suf : obj) (k : string) (v : value) :
  NoDup (List.map fst (pre ++ (k, v) :: suf)) -> get k (pre ++ (k, v) :: suf) = v.
Proof.
  intros H. unfold get.
  induction pre as [|[k' v'] pre IH].
  - cbn [app find_key]. rewrite String.eqb_refl. reflexivity.
  - cbn [app find_key List.map fst] in *. apply NoDup_cons in H as [Hnot H].
    destruct (String.eqb_spec k k') as [->|Hk]; [|exact (IH H)].
    exfalso. apply Hnot. apply list_elem_of_In. rewrite map_app. apply in_or_app.
    right. left. reflexivity.
Qed.

(** Spreading an object whose keys are all different into an empty one
    gives the object back. *)
Lemma spread_copy (o : obj) : NoDup (List.map fst o) -> spread [] o = o.
Proof.
  intros H. unfold spread.
  enough (G : forall suf pre, o = (pre ++ suf)%list ->
            fold_left (fun acc kv => put (fst kv) (get (fst kv) o) acc) suf pre = o)
    by (apply (G o []); reflexivity).
  induction suf as [|[k v] suf IH]; intros pre Ho.
  - cbn. rewrite Ho, app_nil_r. reflexivity.
  - cbn [fold_left fst]. rewrite Ho in H.
    rewrite put_fresh.
    + assert (Hg : get k o = v) by (rewrite Ho; apply get_member, H).
      rewrite Hg. apply IH. rewrite <- app_assoc. exact Ho.
    + rewrite map_app in H. apply NoDup_app in H as (_ & Hd & _).
      intros Hin. apply (Hd k); [apply list_elem_of_In; exact Hin|].
      left.
Qed.

Lemma strings_only_idem (l : list value) : strings_only (strings_only l) = strings_only l.
Proof.
  unfold strings_only. induction l as [|v l IH]; [reflexivity|].
  cbn [List.filter]. destruct v; cbn [List.filter]; rewrite ?IH; reflexivity.
Qed.

Lemma string_array_strings_only (l : list value) : string_array (VArr (strings_only l)) = true.
Proof.
  cbn. induction l as [|v l IH]; [reflexivity|].
  cbn [strings_only List.filter]. destruct v; cbn [forallb]; exact IH.
Qed.

Lemma strings_only_fixed (l : list value) :
  string_array (VArr l) = true -> strings_only l = l.
Proof.
  cbn. induction l as [|v l IH]; [reflexivity|].
  cbn [forallb strings_only List.filter]. destruct v; try discriminate.
  cbn [andb]. intros H. f_equal. exact (IH H).
Qed.

Lemma forallb_put (f : value -> bool) (k : string) (v : value) (o : obj) :
  f v = true ->
  forallb (fun kv => f (snd kv)) o = true ->
  forallb (fun kv => f (snd kv)) (put k v o) = true.
Proof.
  intros Hv. induction o as [|[k' v'] o IH]; cbn [put forallb snd].
  - intros _. rewrite Hv. reflexivity.
  - intros [H1 H2]%andb_prop. destruct (String.eqb k k'); cbn [forallb snd].
    + rewrite Hv, H2. reflexivity.
    + rewrite H1, (IH H2). reflexivity.
Qed.

Lemma normalizeEntry_ok (o : obj) (entry : string * value) :
  answers_ok o -> answers_ok (normalizeEntry o entry).
Proof.
  intros Hok. unfold normalizeEntry.
  assert (G : forall l, answers_ok (assign (fst entry) (VArr (strings_only l)) o)).
  { intros l. unfold assign.
    destruct (String.eqb_spec (fst entry) "__proto__") as [_ | Hk]; [exact Hok|].
    destruct Hok as (Hd & Hv & Hp). split; [apply NoDup_keys_put, Hd|]. split.
    - apply (forallb_put string_array); [apply string_array_strings_only | exact Hv].
    - rewrite find_key_put.
      destruct (String.eqb_spec "__proto__" (fst entry)) as [E | _]; [congruence | exact Hp]. }
  destruct (snd entry) as [| | | | |l|fs]; try exact Hok; [apply G|].
  destruct (get "answers" fs); try exact Hok. apply G.
Qed.

Lemma normalize_ok (l : list (string * value)) (o : obj) :
  answers_ok o -> answers_ok (fold_left normalizeEntry l o).
Proof.
  revert o. induction l as [|e l IH]; intros o H; [exact H|].
  cbn [fold_left]. apply IH, normalizeEntry_ok, H.
Qed.

Lemma normalizeAnswers_ok (a : value) : answers_ok (normalizeAnswers a).
Proof.
  unfold normalizeAnswers. destruct (truthy a).
  - apply normalize_ok. split; [constructor | split; reflexivity].
  - split; [constructor | split; reflexivity].
Qed.

Lemma find_key_none_keys (k : string) (o : obj) :
  find_key k o = None -> Forall (fun kv => fst kv <> k) o.
Proof.
  induction o as [|[k' v'] o IH]; [constructor|].
  cbn [find_key]. destruct (String.eqb_spec k k') as [-> | Hk]; [discriminate|].
  intros H. apply List.Forall_cons; [cbn; congruence | exact (IH H)].
Qed.

Lemma normalize_copy (o : obj) :
  answers_ok o -> fold_left normalizeEntry o [] = o.
Proof.
  intros (Hd & Hv & Hp). apply find_key_none_keys in Hp.
  enough (G : forall suf pre, NoDup (List.map fst (pre ++ suf)) ->
            forallb (fun kv => string_array (snd kv)) suf = true ->
            Forall (fun kv => fst kv <> "__proto__") suf ->
            fold_left normalizeEntry suf pre = (pre ++ suf)%list)
    by (apply (G o []); assumption).
  induction suf as [|[k v] suf IH]; intros pre Hn Hs Hk.
  - cbn. rewrite app_nil_r. reflexivity.
  - cbn [forallb snd] in Hs. apply andb_prop in Hs as [Hv1 Hs].
    apply Forall_cons in Hk as [Hk1 Hk]. cbn [fst] in Hk1.
    cbn [fold_left]. unfold normalizeEntry at 2. cbn [fst snd].
    destruct v as [| | | | |l|fs]; try discriminate.
    rewrite (strings_only_fixed l Hv1).
    unfold assign. destruct (String.eqb_spec k "__proto__") as [E | _]; [congruence|].
    rewrite put_fresh.
    + rewrite IH; [rewrite <- app_assoc; reflexivity| |exact Hs|exact Hk].
      rewrite <- app_assoc. exact Hn.
    + rewrite map_app in Hn. apply NoDup_app in Hn as (_ & Hx & _).
      intros Hin. apply (Hx k); [apply list_elem_of_In; exact Hin|]. left.
Qed.

Lemma normalizeAnswers_scalar (a : value) :
  asRecord a = None -> normalizeAnswers a = [].
Proof.
  destruct a as [| |b|n|s| |]; try discriminate; intros _; unfold normalizeAnswers.
  1,2: reflexivity.
  1,2: destruct (truthy _); reflexivity.
  destruct (truthy (VStr s)); [|reflexivity]. cbn [entries].
  generalize 0%nat. induction (list_ascii_of_string s) as [|c l IH]; intros n; [reflexivity|].
  cbn [List.map indexed fold_left]. apply IH.
Qed.

(** X5. The answers returned to the server are well formed: whatever the
    handler or the hook resolved to, [normalizeAnswers] returns an object
    with no key twice, each of whose values is an array of strings, and
    normalizing a second time changes nothing. Answers that are neither an
    object nor an array give no answers: undefined, null, a number and a
    boolean have no entries, and the characters of a string are no
    arrays. *)
Theorem normalizeAnswers_normal_form (a : value) :
  NoDup (List.map fst (normalizeAnswers a))
  /\ forallb (fun kv => string_array (snd kv)) (normalizeAnswers a) = true
  /\ normalizeAnswers (VObj (normalizeAnswers a)) = normalizeAnswers a
  /\ (asRecord a = None -> normalizeAnswers a = []).
Proof.
  pose proof (normalizeAnswers_ok a) as Hok.
  split; [apply Hok|]. split; [apply Hok|]. split; [|apply normalizeAnswers_scalar].
  unfold normalizeAnswers at 1. cbn [truthy entries].
  rewrite spread_copy by apply Hok. apply normalize_copy, Hok.
Qed.

Section Replies.
Variable handleToolCall : string -> string -> value -> PermissionResult.
Variable onUserInputRequest : option (value -> value).
Variable fresh : string.

Lemma askUser_reply (toolCallId : string) (r : record) :
  exists call,
    snd (askUser handleToolCall toolCallId r) = [call]
    /\ toolName call = "request_user_input"
    /\ input call = record_value r
    /\ accepts (fst (askUser handleToolCall toolCallId r))
       = approves (decision (handleToolCall (PermissionAdapter.toolCallId call)
                               (toolName call) (input call)))
    /\ find_key "answers" (fst (askUser handleToolCall toolCallId r))
       = if approves (decision (handleToolCall (PermissionAdapter.toolCallId call)
                                  (toolName call) (input call)))
         then Some (VObj (normalizeAnswers
                            (answers (handleToolCall (PermissionAdapter.toolCallId call)
                                        (toolName call) (input call)))))
         else None.
Proof.
  unfold askUser. eexists.
  destruct (decision (handleToolCall toolCallId "request_user_input" (record_value r))) eqn:Hd;
    cbn [snd fst]; (split; [reflexivity|]);
    cbn [PermissionAdapter.toolCallId toolName input]; rewrite Hd;
    repeat split; reflexivity.
Qed.

(** X6. No request is let through without an approval. Every registered
    handler that has no hook to ask consults the permission handler exactly
    once, and its reply accepts the request exactly when the decision was
    approved or approved_for_session; the reply carries answers only in
    that case and only for the two methods that ask the user. With a hook,
    the two user-input methods accept with the hook's answers and do not
    consult the permission handler. *)
Theorem accept_needs_approval
    (method : string) (handler : value -> obj * list ToolCall) (params : value) :
  registered handleToolCall onUserInputRequest fresh method = Some handler ->
  match onUserInputRequest, existsb (String.eqb method) user_input_methods with
  | Some hook, true =>
      handler params
      = ([ ("decision", VStr "accept");
           ("answers", VObj (normalizeAnswers (hook params))) ], [])
  | _, asks =>
      exists call,
        snd (handler params) = [call]
        /\ accepts (fst (handler params))
           = approves (decision (handleToolCall (toolCallId call) (toolName call) (input call)))
        /\ (find_key "answers" (fst (handler params)) <> None ->
            asks = true /\ get "decision" (fst (handler params)) = VStr "accept")
  end.
Proof.
  unfold registered, user_input_methods. cbn [existsb].
  destruct (String.eqb_spec method "item/commandExecution/requestApproval") as [->|_].
  { intros [= <-]. cbn [orb String.eqb Ascii.eqb Bool.eqb andb].
    assert (G : exists call,
      snd (commandApproval handleToolCall fresh params) = [call]
      /\ accepts (fst (commandApproval handleToolCall fresh params))
         = approves (decision (handleToolCall (toolCallId call) (toolName call) (input call)))
      /\ (find_key "answers" (fst (commandApproval handleToolCall fresh params)) <> None ->
          false = true /\ get "decision" (fst (commandApproval handleToolCall fresh params))
                          = VStr "accept")).
    { unfold commandApproval. cbv zeta. eexists. cbn [snd fst].
      split; [reflexivity|]. cbn [toolCallId toolName input].
      destruct (decision _); (split; [reflexivity|]); intros H; exfalso; apply H; reflexivity. }
    destruct onUserInputRequest; exact G. }
  destruct (String.eqb_spec method "item/fileChange/requestApproval") as [->|_].
  { intros [= <-]. cbn [orb String.eqb Ascii.eqb Bool.eqb andb].
    assert (G : exists call,
      snd (fileChangeApproval handleToolCall fresh params) = [call]
      /\ accepts (fst (fileChangeApproval handleToolCall fresh params))
         = approves (decision (handleToolCall (toolCallId call) (toolName call) (input call)))
      /\ (find_key "answers" (fst (fileChangeApproval handleToolCall fresh params)) <> None ->
          false = true /\ get "decision" (fst (fileChangeApproval handleToolCall fresh params))
                          = VStr "accept")).
    { unfold fileChangeApproval. cbv zeta. eexists. cbn [snd fst].
      split; [reflexivity|]. cbn [toolCallId toolName input].
      destruct (decision _); (split; [reflexivity|]); intros H; exfalso; apply H; reflexivity. }
    destruct onUserInputRequest; exact G. }
  assert (A : forall id r, exists call,
      snd (askUser handleToolCall id r) = [call]
      /\ accepts (fst (askUser handleToolCall id r))
         = approves (decision (handleToolCall (toolCallId call) (toolName call) (input call)))
      /\ (find_key "answers" (fst (askUser handleToolCall id r)) <> None ->
          true = true /\ get "decision" (fst (askUser handleToolCall id r)) = VStr "accept")).
  { intros id r. destruct (askUser_reply id r) as (call & Hc & _ & _ & Ha & Hf).
    exists call. split; [exact Hc|]. split; [exact Ha|].
    clear Hc Ha Hf. intros Hans. split; [reflexivity|].
    unfold askUser in *.
    destruct (decision (handleToolCall id "request_user_input" (record_value r)));
      cbn [fst snd] in *; first [reflexivity | exfalso; apply Hans; reflexivity]. }
  destruct (String.eqb_spec method "item/tool/requestUserInput") as [->|_].
  { intros [= <-]. cbn [orb]. unfold itemToolRequestUserInput.
    destruct onUserInputRequest; [reflexivity | apply A]. }
  destruct (String.eqb_spec method "tool/requestUserInput") as [->|_]; [|discriminate].
  intros [= <-]. cbn [orb]. unfold toolRequestUserInput.
  destruct onUserInputRequest; [reflexivity | apply A].
Qed.

End Replies.

(** An instance: a question the user answers, asked with no hook. *)
Lemma accept_needs_approval_witness :
  let handleToolCall := fun (_ _ : string) (_ : value) =>
    Result approved (VObj [("q1", VObj [("answers", VArr [VStr "A"])])]) in
  let params := VObj [("id", VStr "req-2")] in
  exists call,
    snd (toolRequestUserInput handleToolCall None "uuid" params) = [call]
    /\ accepts (fst (toolRequestUserInput handleToolCall None "uuid" params))
       = approves (decision (handleToolCall (toolCallId call) (toolName call) (input call)))
    /\ (find_key "answers" (fst (toolRequestUserInput handleToolCall None "uuid" params))
        <> None ->
        true = true
        /\ get "decision" (fst (toolRequestUserInput handleToolCall None "uuid" params))
           = VStr "accept").
Proof.
  intros handleToolCall params.
  exact (accept_needs_approval handleToolCall None "uuid" "tool/requestUserInput"
           (toolRequestUserInput handleToolCall None "uuid") params eq_refl).
Defined.

End PermissionFacts.

(* ===================================================================== *)
(** ** Further properties of the converter *)
(* ===================================================================== *)

Module ConverterMore.
Import Js Converter JsFacts ConverterFacts ConverterNotions.

(** Decide the tests of a method against the literals of the code, one
    after the other. *)
Ltac by_method method :=
  repeat match goal with
    | |- context [String.eqb method ?l] =>
        destruct (String.eqb_spec method l) as [-> | ?];
        [eval_eqb; cbv iota | cbn [orb]]
    end.

(** X7. A notification of a method the converter has no branch for yields
    no event and leaves the converter as it was. *)
Theorem unknown_method_ignored (method : string) (params : value) (s : state) :
  existsb (String.eqb method) known_methods = false ->
  handleNotification method params s = ([], s).
Proof.
  intros H. cbn [existsb known_methods] in H.
  repeat (apply orb_false_elim in H; destruct H as [? H]).
  unfold handleNotification.
  repeat match goal with
    | E : String.eqb method _ = false |- _ => rewrite E; clear E
    end.
  reflexivity.
Qed.

Lemma unknown_method_ignored_witness :
  handleNotification "thread/archived" (VObj [("threadId", VStr "t1")]) initial
  = ([], initial).
Proof.
  exact (unknown_method_ignored "thread/archived" (VObj [("threadId", VStr "t1")])
           initial eq_refl).
Defined.

(** X8. Only the deltas and the start and the completion of an item write
    to the converter's maps: every other notification leaves the converter
    as it was. *)
Theorem reports_leave_converter (method : string) (params : value) (s : state) :
  existsb (String.eqb method) state_methods = false ->
  snd (handleNotification method params s) = s.
Proof.
  intros H. cbn [existsb state_methods] in H.
  repeat (apply orb_false_elim in H; destruct H as [? H]).
  unfold handleNotification.
  repeat match goal with
    | E : String.eqb method _ = false |- _ => rewrite E; clear E
    end.
  cbn [orb].
  repeat match goal with
    | |- snd (if ?c then _ else _) = _ => destruct c
    | |- snd (match ?x with _ => _ end) = _ => destruct x
    end; reflexivity.
Qed.

Lemma reports_leave_converter_witness :
  let s := snd (handleNotification (fst (messageDelta "m1" "Hi")) (snd (messageDelta "m1" "Hi"))
                  initial) in
  snd (handleNotification "turn/completed" (VObj [("status", VStr "failed")]) s) = s.
Proof.
  exact (reports_leave_converter "turn/completed" (VObj [("status", VStr "failed")]) _ eq_refl).
Defined.

Lemma on_item_events method p item i status threadId turnId T s r :
  on_item method p item i status threadId turnId T s = Some r ->
  (started method && completed method = false) ->
  (length (fst r) <= 1)%nat.
Proof.
  unfold on_item.
  repeat match goal with
    | |- (if ?c then _ else _) = Some _ -> _ => destruct c
    end;
    intros [= <-];
    unfold on_agentMessage, on_reasoning, on_plan, on_commandExecution, on_fileChange,
      on_mcpToolCall, on_collabToolCall, on_webSearch, on_imageView, on_reviewMode,
      on_contextCompaction;
    destruct (started method), (completed method); try discriminate; intros _;
    cbn [fst app length];
    repeat match goal with
      | |- context [match ?x with _ => _ end] => destruct x
      end; cbn [length]; lia.
Qed.

(** X9. A notification yields one event at most, and none at all when it
    is an agent message delta or a command output delta, which only fill a
    buffer. *)
Theorem one_event_at_most (method : string) (params : value) (s : state) :
  if existsb (String.eqb method) silent_methods
  then fst (handleNotification method params s) = []
  else (length (fst (handleNotification method params s)) <= 1)%nat.
Proof.
  unfold silent_methods. cbn [existsb].
  destruct (String.eqb_spec method "item/started") as [-> | Hs].
  { cbn [String.eqb Ascii.eqb Bool.eqb orb andb]. rewrite handle_item by (left; reflexivity).
    destruct (itemType_of params) as [T|]; [|cbn; lia].
    destruct (itemId_of params) as [i|]; [|cbn; lia].
    destruct (nonempty T); [|cbn; lia].
    destruct (on_item _ _ _ _ _ _ _ _ _) as [r|] eqn:Hr; [|cbn; lia].
    cbn [or_else]. eapply on_item_events; [exact Hr | reflexivity]. }
  destruct (String.eqb_spec method "item/completed") as [-> | Hc].
  { cbn [String.eqb Ascii.eqb Bool.eqb orb andb]. rewrite handle_item by (right; reflexivity).
    destruct (itemType_of params) as [T|]; [|cbn; lia].
    destruct (itemId_of params) as [i|]; [|cbn; lia].
    destruct (nonempty T); [|cbn; lia].
    destruct (on_item _ _ _ _ _ _ _ _ _) as [r|] eqn:Hr; [|cbn; lia].
    cbn [or_else]. eapply on_item_events; [exact Hr | reflexivity]. }
  unfold handleNotification.
  apply String.eqb_neq in Hs, Hc. rewrite Hs, Hc. cbn [orb].
  by_method method;
    repeat match goal with
      | |- context [match ?x with _ => _ end] => destruct x
      end; cbn [fst length]; first [reflexivity | lia].
Qed.

Lemma handle_typed (method : string) (params : value) (s : state) (e : obj) :
  wf s ->
  In e (fst (handleNotification method params s)) ->
  exists ty,
    get "type" e = VStr ty
    /\ existsb (String.eqb ty) (types_of method) = true.
Proof.
  intros Hwf.
  destruct (String.eqb_spec method "item/started") as [-> | Hs].
  { intros Hin. destruct (item_event_shape _ _ _ _ (or_introl eq_refl) Hwf Hin)
      as (i & ty & _ & _ & _ & _ & _ & H1 & H2).
    exists ty. split; [exact H1 | exact H2]. }
  destruct (String.eqb_spec method "item/completed") as [-> | Hc].
  { intros Hin. destruct (item_event_shape _ _ _ _ (or_intror eq_refl) Hwf Hin)
      as (i & ty & _ & _ & _ & _ & _ & H1 & H2).
    exists ty. split; [exact H1 | exact H2]. }
  unfold handleNotification, types_of.
  apply String.eqb_neq in Hs, Hc. rewrite Hs, Hc. cbn [orb].
  by_method method;
    repeat match goal with
      | |- context [match ?x with _ => _ end] => destruct x
      end; cbn [fst In]; try tauto;
    intros [<- | []]; eexists; (split; [obj_get; reflexivity | reflexivity]).
Qed.

(** X10. Every event has a type, one of those of its method. The metadata
    saved at the start of a command or of a file change is spread into the
    end event after the type; it never holds a type of its own. *)
Theorem events_are_typed (method : string) (params : value) (s : state) (e : obj) :
  wf s ->
  In e (fst (handleNotification method params s)) ->
  exists ty,
    get "type" e = VStr ty
    /\ existsb (String.eqb ty) (types_of method) = true.
Proof. apply handle_typed. Qed.

Lemma events_are_typed_witness :
  exists ty,
    get "type" [("type", VStr "thread_started"); ("thread_id", VStr "t1")] = VStr ty
    /\ existsb (String.eqb ty) (types_of "thread/started") = true.
Proof.
  exact (events_are_typed "thread/started" (VObj [("threadId", VStr "t1")]) initial
           [("type", VStr "thread_started"); ("thread_id", VStr "t1")]
           wf_initial (or_introl eq_refl)).
Defined.

Lemma same_at_refl (j : string) (s : state) : same_at j s s.
Proof. repeat split. Qed.

Lemma same_at_trans (j : string) (s1 s2 s3 : state) :
  same_at j s1 s2 -> same_at j s2 s3 -> same_at j s1 s3.
Proof.
  unfold same_at. intros (A1 & A2 & A3 & A4 & A5 & A6 & A7) (B1 & B2 & B3 & B4 & B5 & B6 & B7).
  repeat split; congruence.
Qed.

(** Read a map of a converter built by the [with_] functions at a key other
    than the one written. *)
Ltac other_key :=
  unfold same_at, with_agentMessageBuffers, with_reasoningBuffers, with_planBuffers,
    with_commandOutputBuffers, with_fileChangeOutputBuffers, with_commandMeta,
    with_fileChangeMeta, append_delta;
  cbn [agentMessageBuffers reasoningBuffers planBuffers commandOutputBuffers
       fileChangeOutputBuffers commandMeta fileChangeMeta];
  rewrite ?lookup_delete_ne by congruence;
  rewrite ?lookup_insert_ne by congruence;
  repeat split; reflexivity.

Lemma on_item_frame method p item i status threadId turnId T s r (j : string) :
  on_item method p item i status threadId turnId T s = Some r ->
  i <> j ->
  same_at j s (snd r).
Proof.
  unfold on_item. intros Hr Hij. revert Hr.
  repeat match goal with
    | |- (if ?c then _ else _) = Some _ -> _ => destruct c
    end;
    intros [= <-];
    unfold on_agentMessage, on_reasoning, on_plan, on_commandExecution, on_fileChange,
      on_mcpToolCall, on_collabToolCall, on_webSearch, on_imageView, on_reviewMode,
      on_contextCompaction;
    destruct (started method), (completed method); cbn [snd];
    try destruct (item_text item); other_key.
Qed.

Lemma itemId_of_direct (params : value) (i : string) :
  extractItemId (params_of params) = Some i -> itemId_of params = Some i.
Proof. unfold itemId_of. intros ->. reflexivity. Qed.

Lemma handleNotification_frame (method : string) (params : value) (s : state) (j : string) :
  target method params <> Some j ->
  same_at j s (snd (handleNotification method params s)).
Proof.
  unfold target.
  destruct (String.eqb_spec method "item/started") as [-> | Hs].
  { cbn [String.eqb Ascii.eqb Bool.eqb orb andb]. intros Hj.
    rewrite handle_item by (left; reflexivity).
    destruct (itemType_of params) as [T|]; [|apply same_at_refl].
    destruct (itemId_of params) as [i|]; [|apply same_at_refl].
    destruct (nonempty T); [|apply same_at_refl].
    destruct (on_item _ _ _ _ _ _ _ _ _) as [r|] eqn:Hr; [|apply same_at_refl].
    cbn [or_else]. eapply on_item_frame; [exact Hr | congruence]. }
  destruct (String.eqb_spec method "item/completed") as [-> | Hc].
  { cbn [String.eqb Ascii.eqb Bool.eqb orb andb]. intros Hj.
    rewrite handle_item by (right; reflexivity).
    destruct (itemType_of params) as [T|]; [|apply same_at_refl].
    destruct (itemId_of params) as [i|]; [|apply same_at_refl].
    destruct (nonempty T); [|apply same_at_refl].
    destruct (on_item _ _ _ _ _ _ _ _ _) as [r|] eqn:Hr; [|apply same_at_refl].
    cbn [or_else]. eapply on_item_frame; [exact Hr | congruence]. }
  unfold handleNotification.
  apply String.eqb_neq in Hs, Hc. rewrite Hs, Hc. cbn [orb].
  fold (params_of params).
  by_method method; intros Hj;
    repeat match goal with
      | |- same_at _ _ (snd (match ?x with _ => _ end)) => destruct x eqn:?
      | |- same_at _ _ (snd (if ?c then _ else _)) => destruct c eqn:?
      end; cbn [snd]; try apply same_at_refl;
    try match goal with
      | E : extractItemId (params_of params) = Some _ |- _ =>
          pose proof (itemId_of_direct _ _ E)
      end;
    cbn [or_else] in *; other_key.
Qed.

(** X11. A notification touches the maps at one key only, the id of the
    item it is about: what the seven maps hold for any other key stays as
    it was. *)
Theorem other_items_untouched (method : string) (params : value) (s : state) (j : string) :
  target method params <> Some j ->
  same_at j s (snd (handleNotification method params s)).
Proof. apply handleNotification_frame. Qed.

Lemma other_items_untouched_witness :
  same_at "cmd-2" initial
    (snd (handleNotification (fst (commandStarted "cmd-1" "ls"))
            (snd (commandStarted "cmd-1" "ls")) initial)).
Proof.
  apply (other_items_untouched (fst (commandStarted "cmd-1" "ls"))
           (snd (commandStarted "cmd-1" "ls")) initial "cmd-2").
  vm_compute. discriminate.
Defined.

Lemma run_frame (notes : list (string * value)) (s : state) (j : string) :
  Forall (fun n => target (fst n) (snd n) <> Some j) notes ->
  same_at j s (snd (run notes s)).
Proof.
  revert s. induction notes as [|[method params] rest IH]; intros s H.
  - apply same_at_refl.
  - apply Forall_cons in H as [H1 H2]. cbn [run].
    pose proof (handleNotification_frame method params s j H1) as F1.
    destruct (handleNotification method params s) as [events s1].
    specialize (IH s1 H2). destruct (run rest s1) as [more s2].
    cbn [snd] in *. eapply same_at_trans; eassumption.
Qed.

(** X12. The completion of an item releases what the converter held for
    it: the buffer of an agent message, of a reasoning or of a plan, the
    metadata and the output buffer of a command or of a file change. *)
Theorem completion_releases (params : value) (s : state) (T i : string) :
  itemType_of params = Some T ->
  itemId_of params = Some i ->
  held T i (snd (handleNotification "item/completed" params s)) = false.
Proof.
  intros HT Hi. rewrite handle_item by (right; reflexivity). rewrite HT, Hi.
  unfold held, on_item.
  repeat match goal with
    | |- context [if String.eqb T ?l then _ else _] =>
        destruct (String.eqb_spec T l) as [-> | _]; [eval_eqb; cbv iota; cbn [nonempty]|]
    end;
    try reflexivity;
    unfold on_agentMessage, on_reasoning, on_plan, on_commandExecution, on_fileChange,
      started, completed; eval_eqb; cbv iota; cbn [or_else snd];
    unfold has, with_agentMessageBuffers, with_reasoningBuffers, with_planBuffers,
      with_commandOutputBuffers, with_fileChangeOutputBuffers, with_commandMeta,
      with_fileChangeMeta;
    cbn [agentMessageBuffers reasoningBuffers planBuffers commandOutputBuffers
         fileChangeOutputBuffers commandMeta fileChangeMeta];
    rewrite ?lookup_delete_eq; reflexivity.
Qed.

Lemma completion_releases_witness :
  held "commandexecution" "cmd-1"
    (snd (handleNotification "item/completed" (snd (commandCompleted "cmd-1" 0))
            (snd (run [commandStarted "cmd-1" "ls"; outputDelta "cmd-1" "ok"] initial))))
  = false.
Proof.
  exact (completion_releases (snd (commandCompleted "cmd-1" 0)) _ "commandexecution" "cmd-1"
           eq_refl eq_refl).
Defined.

(** X13. A plan delta reports the plan text so far, and the completion of
    the plan returns it. The event of an [item/plan/delta] for an item
    carries the delta and, as [plan_text], what the buffer held followed by
    the delta; an [item/completed] of that plan that brings no text of its
    own carries this same text, and empties the buffer. *)
Theorem plan_delta_then_completion (dp cp : value) (i d : string) (s : state) :
  extractItemId (params_of dp) = Some i ->
  delta_text (params_of dp) = Some d ->
  itemType_of cp = Some "plan" ->
  itemId_of cp = Some i ->
  item_text (item_of cp) = None ->
  let r1 := handleNotification "item/plan/delta" dp s in
  let r2 := handleNotification "item/completed" cp (snd r1) in
  exists e1 e2,
    fst r1 = [e1]
    /\ fst r2 = [e2]
    /\ get "type" e1 = VStr "agent_plan_delta"
    /\ get "delta" e1 = VStr d
    /\ get "plan_text" e1 = VStr (or_else (planBuffers s !! i) EmptyString +:+ d)
    /\ get "type" e2 = VStr "plan_item_completed"
    /\ get "text" e2 = get "plan_text" e1
    /\ planBuffers (snd r2) !! i = None.
Proof.
  intros Hi Hd HT Hci Htext r1 r2. subst r1 r2.
  assert (Hne : nonempty d = true).
  { unfold delta_text in Hd. apply asString_nonempty in Hd as [_ H]. exact H. }
  rewrite !(handle_item "item/completed") by (right; reflexivity). rewrite HT, Hci.
  unfold handleNotification. eval_eqb. cbv iota.
  fold (params_of dp). rewrite Hi, Hd.
  cbn [nonempty fst snd]. unfold on_item. eval_eqb. cbv iota.
  unfold on_plan, started, completed. eval_eqb. cbv iota. rewrite Htext.
  unfold with_planBuffers. cbn [planBuffers or_opt or_else fst snd app].
  rewrite lookup_insert_eq, lookup_delete_eq.
  eexists. eexists. split; [reflexivity|]. split; [reflexivity|].
  unfold item_event.
  repeat split; obj_get; try reflexivity.
  rewrite nonempty_append, Hne, orb_true_r. cbn [find_key]. eval_eqb. reflexivity.
Qed.

Lemma plan_delta_then_completion_witness :
  let dp := VObj [("itemId", VStr "plan-1"); ("delta", VStr "1. read")] in
  let cp := VObj [("item", VObj [("id", VStr "plan-1"); ("type", VStr "plan")])] in
  let r1 := handleNotification "item/plan/delta" dp initial in
  let r2 := handleNotification "item/completed" cp (snd r1) in
  exists e1 e2,
    fst r1 = [e1]
    /\ fst r2 = [e2]
    /\ get "type" e1 = VStr "agent_plan_delta"
    /\ get "delta" e1 = VStr "1. read"
    /\ get "plan_text" e1
       = VStr (or_else (planBuffers initial !! "plan-1") EmptyString +:+ "1. read")
    /\ get "type" e2 = VStr "plan_item_completed"
    /\ get "text" e2 = get "plan_text" e1
    /\ planBuffers (snd r2) !! "plan-1" = None.
Proof.
  intros dp cp.
  exact (plan_delta_then_completion dp cp "plan-1" "1. read" initial
           eq_refl eq_refl eq_refl eq_refl eq_refl).
Defined.

Lemma lower_char_idem (c : ascii) : lower_char (lower_char c) = lower_char c.
Proof. destruct c as [[] [] [] [] [] [] [] []]; vm_compute; reflexivity. Qed.

Lemma toLowerCase_filtered (keep : ascii -> bool) (s : string) :
  toLowerCase (filter_chars keep (toLowerCase s)) = filter_chars keep (toLowerCase s).
Proof.
  induction s as [|c s IH]; [reflexivity|].
  cbn [toLowerCase filter_chars]. destruct (keep (lower_char c)); [|exact IH].
  cbn [toLowerCase]. rewrite lower_char_idem, IH. reflexivity.
Qed.

Lemma filter_chars_idem (keep : ascii -> bool) (s : string) :
  filter_chars keep (filter_chars keep s) = filter_chars keep s.
Proof.
  induction s as [|c s IH]; [reflexivity|].
  cbn [filter_chars]. destruct (keep c) eqn:Hc; [|exact IH].
  cbn [filter_chars]. rewrite Hc, IH. reflexivity.
Qed.

(** X14. An item type is matched in a normal form: what [normalizeItemType]
    returns has no capital letter, no white space, no underscore and no
    hyphen left, and is normalized to itself. *)
Theorem normalizeItemType_normal_form (v : value) (t : string) :
  normalizeItemType v = Some t ->
  toLowerCase t = t
  /\ filter_chars strip_class t = t
  /\ (nonempty t = true -> normalizeItemType (VStr t) = Some t).
Proof.
  unfold normalizeItemType. destruct (asString v) as [raw|]; [|discriminate].
  intros [= <-].
  pose proof (toLowerCase_filtered strip_class raw) as H1.
  pose proof (filter_chars_idem strip_class (toLowerCase raw)) as H2.
  split; [exact H1|]. split; [exact H2|].
  intros Hne. cbn [asString]. rewrite Hne, H1, H2. reflexivity.
Qed.

Lemma normalizeItemType_normal_form_witness :
  toLowerCase "commandexecution" = "commandexecution"
  /\ filter_chars strip_class "commandexecution" = "commandexecution"
  /\ (nonempty "commandexecution" = true ->
      normalizeItemType (VStr "commandexecution") = Some "commandexecution").
Proof.
  exact (normalizeItemType_normal_form (VStr "Command_Execution") "commandexecution" eq_refl).
Defined.







(** X16. What the start of a command or of a file change saved comes back
    at its completion. Whatever notifications about other items come in
    between, the end event carries the command, the working directory, the
    approval flag and the changes of the begin event. *)
Theorem saved_metadata_returns
    (ps pc : value) (notes : list (string * value)) (T i k : string) (s : state) :
  existsb (String.eqb T) ["commandexecution"; "filechange"] = true ->
  itemType_of ps = Some T ->
  itemId_of ps = Some i ->
  itemType_of pc = Some T ->
  itemId_of pc = Some i ->
  Forall (fun n => target (fst n) (snd n) <> Some i) notes ->
  existsb (String.eqb k) saved_keys = true ->
  let r1 := handleNotification "item/started" ps s in
  let r2 := run notes (snd r1) in
  let r3 := handleNotification "item/completed" pc (snd r2) in
  exists b e, fst r1 = [b] /\ fst r3 = [e] /\ get k e = get k b.
Proof.
  intros HT Hps Hpi Hcs Hci Hnotes Hk r1 r2 r3. subst r1 r2 r3.
  rewrite (handle_item "item/started") by (left; reflexivity).
  rewrite (handle_item "item/completed") by (right; reflexivity).
  rewrite Hps, Hpi, Hcs, Hci.
  cbn [existsb] in HT, Hk. unfold saved_keys in Hk. cbn [existsb] in Hk.
  destruct (String.eqb_spec T "commandexecution") as [-> | _];
    [|destruct (String.eqb_spec T "filechange") as [-> | _]; [|discriminate HT]];
    cbn [nonempty]; unfold on_item; eval_eqb; cbv iota;
    unfold on_commandExecution, on_fileChange, started, completed; eval_eqb; cbv iota;
    cbn [or_else fst snd app];
    match goal with
    | |- context [run notes ?s1] =>
        pose proof (run_frame notes s1 i Hnotes) as (_ & _ & _ & _ & _ & H6 & H7);
        rewrite ?H6, ?H7
    end;
    unfold with_commandMeta, with_fileChangeMeta; cbn [commandMeta fileChangeMeta];
    rewrite lookup_insert_eq; cbn [or_else];
    eexists; eexists; (split; [reflexivity|]); (split; [reflexivity|]);
    unfold item_event;
    repeat match type of Hk with
      | (String.eqb k ?l || _) = true =>
          destruct (String.eqb_spec k l) as [-> | _]; [clear Hk | cbn [orb] in Hk]
      end; try discriminate Hk;
    obj_get; reflexivity.
Qed.

Lemma saved_metadata_returns_witness :
  let ps := snd (commandStarted "cmd-1" "ls") in
  let pc := snd (commandCompleted "cmd-1" 0) in
  let notes := [commandStarted "cmd-2" "pwd"; outputDelta "cmd-2" "/"] in
  let r1 := handleNotification "item/started" ps initial in
  let r2 := run notes (snd r1) in
  let r3 := handleNotification "item/completed" pc (snd r2) in
  exists b e, fst r1 = [b] /\ fst r3 = [e] /\ get "command" e = get "command" b.
Proof.
  intros ps pc notes.
  apply (saved_metadata_returns ps pc notes "commandexecution" "cmd-1" "command" initial);
    try reflexivity.
  repeat constructor; vm_compute; discriminate.
Defined.

End ConverterMore.

(* ===================================================================== *)
(** ** Further properties of the launcher's event handler *)
(* ===================================================================== *)

Module LauncherMore.
Import Js JsFacts Launcher LauncherFacts LauncherNotions.
Local Open Scope launcher_scope.

(** Rules for a relation that holds of no step at all and of two
    computations run one after the other. *)
Section Spec.
Variable Q : state -> state -> list effect -> Prop.
Hypothesis Q_unit : forall s, Q s s [].
Hypothesis Q_comp :
  forall s1 s2 s3 l1 l2, Q s1 s2 l1 -> Q s2 s3 l2 -> Q s1 s3 (l1 ++ l2).

Lemma spec_ret {A : Type} (a : A) : spec Q (ret a).
Proof. intros s. apply Q_unit. Qed.

Lemma spec_read {A : Type} (f : state -> A) : spec Q (read f).
Proof. intros s. apply Q_unit. Qed.

Lemma spec_bind {A B : Type} (m : M A) (k : A -> M B) :
  spec Q m -> (forall a, spec Q (k a)) -> spec Q (bind m k).
Proof.
  intros Hm Hk s. unfold bind. specialize (Hm s).
  destruct (m s) as [[a s1] log1]. specialize (Hk a s1).
  destruct (k a s1) as [[b s2] log2]. cbn [fst snd] in *.
  eapply Q_comp; eassumption.
Qed.

Lemma spec_when (c : bool) (m : M unit) :
  (c = true -> spec Q m) -> spec Q (when c m).
Proof. destruct c; intros H; [apply H; reflexivity | apply spec_ret]. Qed.

Lemma spec_steps (uuid : nat -> string) (useAppServer : bool) :
  (forall msg, spec Q (handleCodexEvent uuid useAppServer msg)) ->
  forall msgs s,
    Q s (fst (steps uuid useAppServer msgs s)) (snd (steps uuid useAppServer msgs s)).
Proof.
  intros H msgs. induction msgs as [|msg rest IH]; intros s; [apply Q_unit|].
  cbn [steps]. unfold step. specialize (H msg s).
  destruct (handleCodexEvent uuid useAppServer msg s) as [[u s1] log1].
  specialize (IH s1). destruct (steps uuid useAppServer rest s1) as [s2 log2].
  cbn [fst snd] in *. eapply Q_comp; eassumption.
Qed.
End Spec.

(** Take a computation apart along its binds, tests and matches; [leaf]
    settles the calls the relation is proved of directly. *)
Ltac spec_walk unit comp leaf :=
  repeat first
    [ leaf
    | match goal with
      | H : false = true |- _ => discriminate H
      | |- spec _ (bind _ _) => apply (spec_bind _ comp); [|intros ?]
      | |- spec _ (when _ _) => apply (spec_when _ unit); intros ?
      | |- spec _ (ret _) => apply (spec_ret _ unit)
      | |- spec _ (read _) => apply (spec_read _ unit)
      | |- spec _ (if ?c then _ else _) => destruct c eqn:?
      | |- spec _ (match ?x with _ => _ end) => destruct x eqn:?
      end ].

Ltac unfold_handler :=
  unfold handleCodexEvent, toolCalls, toolBegin, toolEnd, onTerminal, onTurnPlanUpdated,
    onAgentPlanDelta, display, extractCallId.

Section Fresh.
Variable uuid : nat -> string.
Variable useAppServer : bool.

Lemma fresh_unit (s : state) : fresh_ids uuid s s [].
Proof.
  split; [lia|]. exists []. split; [apply sublist_nil_l | reflexivity].
Qed.

Lemma fresh_comp (s1 s2 s3 : state) (l1 l2 : list effect) :
  fresh_ids uuid s1 s2 l1 -> fresh_ids uuid s2 s3 l2 -> fresh_ids uuid s1 s3 (l1 ++ l2).
Proof.
  intros (H1 & d1 & Hs1 & Hm1) (H2 & d2 & Hs2 & Hm2). split; [clear - H1 H2; lia|].
  exists (d1 ++ d2)%list. split.
  - unfold drawn in *.
    replace (uuids s3 - uuids s1)%nat
      with ((uuids s2 - uuids s1) + (uuids s3 - uuids s2))%nat by lia.
    rewrite seq_app. replace (uuids s1 + (uuids s2 - uuids s1))%nat with (uuids s2) by lia.
    apply sublist_app; assumption.
  - unfold message_ids in *. rewrite sent_app, !map_app, Hm1, Hm2. reflexivity.
Qed.

Lemma fresh_silent {A : Type} (m : M A) :
  (forall s, uuids (snd (fst (m s))) = uuids s /\ sent (snd (m s)) = []) ->
  spec (fresh_ids uuid) m.
Proof.
  intros H s. destruct (H s) as [Hu Hs]. split; [lia|].
  exists []. split; [apply sublist_nil_l|]. unfold message_ids. rewrite Hs. reflexivity.
Qed.

Lemma fresh_randomUUID : spec (fresh_ids uuid) (randomUUID uuid).
Proof.
  intros s. unfold randomUUID. cbn [fst snd]. split; [cbn; lia|].
  exists []. split; [apply sublist_nil_l | reflexivity].
Qed.

Lemma fresh_send (f : string -> obj) :
  (forall id, get "id" (f id) = VStr id) ->
  spec (fresh_ids uuid)
    (bind (randomUUID uuid) (fun id => perform (SendCodexMessage (f id)))).
Proof.
  intros Hid s. unfold bind, randomUUID, perform. cbn [fst snd app].
  split; [cbn; lia|]. exists [uuids s]. split.
  - unfold drawn. cbn [uuids set_uuids].
    replace (S (uuids s) - uuids s)%nat with 1%nat by lia. reflexivity.
  - unfold message_ids. cbn. rewrite Hid. reflexivity.
Qed.

Ltac fresh_leaf :=
  idtac;
  match goal with
  | |- spec _ (bind (randomUUID _) (fun id => perform (SendCodexMessage (@?f id)))) =>
      apply (fresh_send f); intros ?; msg_get; reflexivity
  | |- spec _ (emitToolCall _ _ _ _ _) => unfold emitToolCall
  | |- spec _ (emitToolResult _ _ _ _ _) => unfold emitToolResult
  | |- spec _ (passThrough _ _) => unfold passThrough
  | |- spec _ (onThinkingChange _) => unfold onThinkingChange
  | |- spec _ (randomUUID _) => apply fresh_randomUUID
  | |- spec _ (update _) => apply fresh_silent; intros ?; split; reflexivity
  | |- spec _ (perform ?e) =>
      lazymatch e with
      | SendCodexMessage _ => fail
      | _ => apply fresh_silent; intros ?; split; reflexivity
      end
  end.

Lemma fresh_handleCodexEvent (msg : obj) :
  spec (fresh_ids uuid) (handleCodexEvent uuid useAppServer msg).
Proof.
  unfold_handler.
  spec_walk fresh_unit fresh_comp fresh_leaf.
Qed.

(** X17. No two messages share an id. The ids of the messages the
    handler sends for a list of events are identifiers it drew meanwhile
    with [randomUUID], one draw for each message and no draw twice. *)
Theorem message_ids_fresh (msgs : list obj) (s : state) :
  let r := steps uuid useAppServer msgs s in
  exists draws,
    message_ids (snd r) = List.map (fun n => VStr (uuid n)) draws
    /\ NoDup draws
    /\ Forall (fun n => uuids s <= n < uuids (fst r)) draws.
Proof.
  intros r. subst r.
  destruct (spec_steps _ fresh_unit fresh_comp uuid useAppServer fresh_handleCodexEvent msgs s)
    as (Hle & draws & Hsub & Hids).
  exists draws. split; [exact Hids|]. split.
  - eapply sublist_NoDup; [|exact Hsub]. apply NoDup_seq.
  - apply List.Forall_forall. intros n Hn.
    assert (Hin : In n (drawn s (fst (steps uuid useAppServer msgs s)))).
    { apply list_elem_of_In. eapply elem_of_sublist; [|exact Hsub].
      apply list_elem_of_In. exact Hn. }
    unfold drawn in Hin. apply in_seq in Hin. lia.
Qed.

End Fresh.

Lemma find_key_remove (k k' : string) (o : obj) :
  find_key k (remove k' o) = if String.eqb k k' then None else find_key k o.
Proof.
  induction o as [|[k0 v0] o IH]; cbn [remove find_key].
  - destruct (String.eqb k k'); reflexivity.
  - destruct (String.eqb_spec k' k0) as [-> | Hk'].
    + rewrite IH. destruct (String.eqb k k0); reflexivity.
    + cbn [find_key]. rewrite IH.
      destruct (String.eqb_spec k k0) as [-> | Hk]; [|reflexivity].
      destruct (String.eqb_spec k0 k') as [<- | _]; [congruence | reflexivity].
Qed.

(** X18. The payload of a tool call is the event without its envelope:
    [stripEnvelopeFields] removes [type], [call_id] and [callId] and keeps
    every other property with its value. *)
Theorem stripEnvelopeFields_keeps (source : obj) (k : string) :
  find_key k (stripEnvelopeFields source)
  = if existsb (String.eqb k) envelope_keys then None else find_key k source.
Proof.
  unfold stripEnvelopeFields, envelope_keys. cbn [existsb].
  rewrite !find_key_remove, find_key_spread. cbn [find_key].
  destruct (String.eqb k "callId"), (String.eqb k "call_id"), (String.eqb k "type");
    cbn [orb]; try reflexivity.
  destruct (find_key k source); reflexivity.
Qed.

Section Trace.
Variable uuid : nat -> string.
Variable useAppServer : bool.
Variable msg : obj.

Lemma traced_literal (head : obj) (id : string) :
  (forall k, existsb (String.eqb k) trace_keys = true -> find_key k head = None) ->
  traced msg (SendCodexMessage (literal [head; toTraceFields msg; [("id", VStr id)]])).
Proof.
  intros Hhead _ k Hk. rewrite get_literal. cbn [find_part find_key].
  rewrite (Hhead k Hk).
  assert (Hid : String.eqb k "id" = false).
  { unfold trace_keys in Hk. cbn [existsb] in Hk.
    repeat (apply orb_prop in Hk as [Hk | Hk]); try discriminate;
      apply String.eqb_eq in Hk; subst k; reflexivity. }
  rewrite Hid. unfold get. destruct (find_key k (toTraceFields msg)); reflexivity.
Qed.

Ltac trace_head :=
  intros k Hk; unfold trace_keys in Hk; cbn [existsb] in Hk;
  repeat (apply orb_prop in Hk as [Hk | Hk]); try discriminate;
  apply String.eqb_eq in Hk; subst k; reflexivity.

Lemma traced_emitToolCall name callId input :
  emits (traced msg) (emitToolCall uuid name callId input msg).
Proof.
  unfold emitToolCall. apply emits_bind; [apply emits_randomUUID|]. intros id.
  apply emits_perform. apply traced_literal. trace_head.
Qed.

Lemma traced_emitToolResult callId output isError :
  emits (traced msg) (emitToolResult uuid callId output msg isError).
Proof.
  unfold emitToolResult. apply emits_bind; [apply emits_randomUUID|]. intros id.
  apply emits_perform. apply traced_literal. trace_head.
Qed.

Lemma traced_passThrough (ty : string) :
  get "type" msg = VStr ty ->
  existsb (String.eqb ty) ["tool-call"; "tool-call-result"; "message"] = false ->
  emits (traced msg) (passThrough uuid msg).
Proof.
  intros Hty Hno. unfold passThrough.
  apply emits_bind; [apply emits_randomUUID|]. intros id.
  apply emits_perform. unfold traced. rewrite !has_type_passThrough.
  unfold has_type. rewrite Hty. cbn [existsb] in Hno.
  repeat (apply orb_false_elim in Hno; destruct Hno as [? Hno]).
  repeat match goal with E : String.eqb ty _ = false |- _ => rewrite E; clear E end.
  discriminate.
Qed.

(** X19. Every tool call, tool result and message the handler sends for an
    event carries the trace of that event: under [thread_id], [turn_id],
    [item_id] and [status] it has what [toTraceFields] reads from the
    event, and nothing when the event has no such field. *)
Theorem sent_messages_traced (s : state) :
  Forall (traced msg) (snd (step uuid useAppServer msg s)).
Proof.
  enough (H : emits (traced msg) (handleCodexEvent uuid useAppServer msg)).
  { specialize (H s). unfold step.
    destruct (handleCodexEvent uuid useAppServer msg s) as [[u s'] log]. exact H. }
  unfold handleCodexEvent.
  destruct (asString (get "type" msg)) as [ty|] eqn:Hm; [|apply emits_ret].
  apply ConverterFacts.asString_nonempty in Hm as [Hty _].
  unfold toolCalls, toolBegin, toolEnd, onTerminal, onTurnPlanUpdated, onAgentPlanDelta,
    display, extractCallId.
  repeat match goal with
    | H : false = true |- _ => discriminate H
    | |- emits _ (emitToolCall _ _ _ _ _) => apply traced_emitToolCall
    | |- emits _ (emitToolResult _ _ _ _ _) => apply traced_emitToolResult
    | H : String.eqb ty ?l = true |- emits _ (passThrough _ _) =>
        apply String.eqb_eq in H; apply (traced_passThrough ty Hty); rewrite H; reflexivity
    | |- emits _ (bind (randomUUID _) (fun id => perform (SendCodexMessage _))) =>
        apply emits_bind; [apply emits_randomUUID|]; intros ?;
        apply emits_perform; apply traced_literal; trace_head
    | |- emits _ (bind _ _) => apply emits_bind; [|intros ?]
    | |- emits _ (when _ _) => apply emits_when; intros ?
    | |- emits _ (ret _) => apply emits_ret
    | |- emits _ (read _) => apply emits_read
    | |- emits _ (update _) => apply emits_update
    | |- emits _ (randomUUID _) => apply emits_randomUUID
    | |- emits _ (onThinkingChange _) => unfold onThinkingChange
    | |- emits _ (if ?c then _ else _) => destruct c eqn:?
    | |- emits _ (match ?x with _ => _ end) => destruct x eqn:?
    | |- emits _ (perform _) => apply emits_perform; exact I
    end.
Qed.

End Trace.

Section Thinking.
Variable uuid : nat -> string.
Variable useAppServer : bool.

Lemma thinking_trace_app (b : bool) (l1 l2 : list effect) :
  thinking_trace b (l1 ++ l2)
  = match thinking_trace b l1 with
    | Some b' => thinking_trace b' l2
    | None => None
    end.
Proof.
  revert b. induction l1 as [|e l1 IH]; intros b; [reflexivity|].
  destruct e as [| | |t| | | | | | |]; cbn [app thinking_trace]; try apply IH.
  destruct (Bool.eqb t b); [reflexivity | apply IH].
Qed.

Lemma tracked_unit (s : state) : tracked s s [].
Proof. reflexivity. Qed.

Lemma tracked_comp (s1 s2 s3 : state) (l1 l2 : list effect) :
  tracked s1 s2 l1 -> tracked s2 s3 l2 -> tracked s1 s3 (l1 ++ l2).
Proof.
  unfold tracked. intros H1 H2. rewrite thinking_trace_app, H1. exact H2.
Qed.

Lemma tracked_start :
  spec tracked
    (bind (read thinking) (fun isThinking => when (negb isThinking) (onThinkingChange true))).
Proof. intros [cth ctu tif [] plans n]; reflexivity. Qed.

Lemma tracked_stop :
  spec tracked
    (bind (read thinking) (fun isThinking => when isThinking (onThinkingChange false))).
Proof. intros [cth ctu tif [] plans n]; reflexivity. Qed.

Ltac tracked_leaf :=
  idtac;
  match goal with
  | |- spec _ (bind (read thinking) (fun isThinking => when (negb isThinking) _)) =>
      exact tracked_start
  | |- spec _ (bind (read thinking) (fun isThinking => when isThinking _)) =>
      exact tracked_stop
  | |- spec _ (emitToolCall _ _ _ _ _) => unfold emitToolCall
  | |- spec _ (emitToolResult _ _ _ _ _) => unfold emitToolResult
  | |- spec _ (passThrough _ _) => unfold passThrough
  | |- spec _ (randomUUID _) => intros [? ? ? ? ? ?]; reflexivity
  | |- spec _ (update _) => intros [? ? ? ? ? ?]; reflexivity
  | |- spec _ (perform _) => intros [? ? ? ? ? ?]; reflexivity
  end.

Lemma tracked_handleCodexEvent (msg : obj) :
  spec tracked (handleCodexEvent uuid useAppServer msg).
Proof.
  unfold_handler.
  spec_walk tracked_unit tracked_comp tracked_leaf.
Qed.

(** X20. The thinking callback is called on changes only. Through any list
    of events, each call of [session.onThinkingChange] passes the opposite of
    the value the flag [session.thinking] has at that moment, and the flag
    at the end is the value of the last call. *)
Theorem thinking_changes_only (msgs : list obj) (s : state) :
  thinking_trace (thinking s) (snd (steps uuid useAppServer msgs s))
  = Some (thinking (fst (steps uuid useAppServer msgs s))).
Proof.
  exact (spec_steps _ tracked_unit tracked_comp uuid useAppServer
           tracked_handleCodexEvent msgs s).
Qed.

End Thinking.

Section Control.
Variable uuid : nat -> string.
Variable useAppServer : bool.

Lemma same_control_unit (s : state) : same_control s s.
Proof. repeat split. Qed.

Lemma same_control_comp (s1 s2 s3 : state) (l1 l2 : list effect) :
  same_control s1 s2 -> same_control s2 s3 -> same_control s1 s3.
Proof.
  unfold same_control. intros (A1 & A2 & A3 & A4 & A5) (B1 & B2 & B3 & B4 & B5).
  repeat split; congruence.
Qed.

Ltac control_leaf :=
  idtac;
  match goal with
  | |- spec _ (emitToolCall _ _ _ _ _) => unfold emitToolCall
  | |- spec _ (emitToolResult _ _ _ _ _) => unfold emitToolResult
  | |- spec _ (passThrough _ _) => unfold passThrough
  | |- spec _ (randomUUID _) => intros [? ? ? ? ? ?]; repeat split
  | |- spec _ (perform _) => intros [? ? ? ? ? ?]; repeat split
  end.

Lemma step_keeps_control (msg : obj) (s : state) :
  existsb (String.eqb (type_of msg)) control_types = false ->
  same_control s (fst (step uuid useAppServer msg s)).
Proof.
  intros H.
  enough (G : spec (fun s s' _ => same_control s s') (handleCodexEvent uuid useAppServer msg)).
  { specialize (G s). unfold step.
    destruct (handleCodexEvent uuid useAppServer msg s) as [[u s'] log]. exact G. }
  unfold handleCodexEvent.
  destruct (asString (get "type" msg)) as [ty|] eqn:Hm;
    [|apply spec_ret; apply same_control_unit].
  apply ConverterFacts.asString_nonempty in Hm as [Hty _].
  unfold type_of in H. rewrite Hty in H. unfold control_types in H. cbn [existsb] in H.
  repeat (apply orb_false_elim in H; destruct H as [? H]).
  unfold toolCalls, toolBegin, toolEnd, display, extractCallId, is_terminal, when.
  repeat match goal with E : String.eqb ty _ = false |- _ => rewrite E; clear E end.
  cbn [orb]. cbv iota.
  spec_walk same_control_unit
    (fun s1 s2 s3 (l1 l2 : list effect) => same_control_comp s1 s2 s3 l1 l2)
    control_leaf.
Qed.

(** X21. Only seven event types write to the launcher's variables. An
    event of any other type, or with no type, leaves the current thread and
    turn, the in-flight flag, the thinking flag and the open plan calls as
    they were; at most it draws identifiers. *)
Theorem other_events_keep_control (msg : obj) (s : state) :
  existsb (String.eqb (type_of msg)) control_types = false ->
  same_control s (fst (step uuid useAppServer msg s)).
Proof. apply step_keeps_control. Qed.

(** X22. A plan streamed by deltas is answered at the completion of the
    plan and again at the end of the turn. The first [agent_plan_delta] of
    a turn records its call id for the turn; [plan_item_completed] sends a
    result under that call id and leaves the record; the terminal event of
    the turn then sends a second result under the same call id. *)
Theorem plan_delta_call_answered_twice (d c te : obj) (i t T : string) (s : state) :
  get "type" d = VStr "agent_plan_delta" ->
  own_call_id d = Some i ->
  turn_of d = Some t ->
  planCallIdByTurn s !! t = None ->
  get "type" c = VStr "plan_item_completed" ->
  own_call_id c = Some i ->
  get "type" te = VStr T ->
  is_terminal T = true ->
  turn_of te = Some t ->
  let r1 := step uuid useAppServer d s in
  let r2 := step uuid useAppServer c (fst r1) in
  let r3 := step uuid useAppServer te (fst r2) in
  exists call first second,
    toolCallsOf (snd r1) = [call]
    /\ toolResultsOf (snd r2) = [first]
    /\ toolResultsOf (snd r3) = [second]
    /\ get "callId" call = VStr i
    /\ get "callId" first = VStr i
    /\ get "callId" second = VStr i.
Proof.
  intros Hd Hdi Hdt Hopen Hc Hci Hte Hterm Htt r1 r2 r3. subst r1 r2 r3.
  unfold own_call_id, turn_of in *.
  pose proof (ConverterFacts.asString_nonempty _ _ Hdi) as [_ Hne].
  assert (S1 : exists call,
             toolCallsOf (snd (step uuid useAppServer d s)) = [call]
             /\ get "callId" call = VStr i
             /\ planCallIdByTurn (fst (step uuid useAppServer d s)) !! t = Some i).
  { destruct s as [cth ctu tif th plans n]. cbn [planCallIdByTurn] in Hopen.
    run_handler Hd. unfold onAgentPlanDelta, extractCallId. rewrite Hdi, Hdt.
    run_monad. rewrite Hopen. run_monad. tool_messages.
    eexists. split; [reflexivity|]. split; [msg_get; reflexivity|].
    apply lookup_insert_eq. }
  destruct S1 as (call & Hcall & Hcid & Hrec).
  assert (S2 : forall s1, exists first,
             toolResultsOf (snd (step uuid useAppServer c s1)) = [first]
             /\ get "callId" first = VStr i).
  { intros [cth ctu tif th plans n].
    run_handler Hc. unfold extractCallId. rewrite Hci.
    run_monad. tool_messages.
    eexists. split; [reflexivity|]. msg_get. reflexivity. }
  destruct (S2 (fst (step uuid useAppServer d s))) as (first & Hfirst & Hfid).
  assert (Hkeep : planCallIdByTurn (fst (step uuid useAppServer c
                                           (fst (step uuid useAppServer d s))))
                  = planCallIdByTurn (fst (step uuid useAppServer d s))).
  { apply step_keeps_control. unfold type_of. rewrite Hc. reflexivity. }
  assert (Hopen2 : planCallIdByTurn (fst (step uuid useAppServer c
                                            (fst (step uuid useAppServer d s)))) !! t
                   = Some i) by (rewrite Hkeep; exact Hrec).
  destruct (step_terminal uuid useAppServer te T t i _ Hte Hterm Htt Hopen2 Hne)
    as (second & _ & Hsecond & Hsid & _).
  exists call, first, second. repeat split; assumption.
Qed.

End Control.

Lemma other_events_keep_control_witness :
  same_control initial
    (fst (step example_uuid true
            [("type", VStr "exec_command_begin"); ("call_id", VStr "cmd-1")] initial)).
Proof.
  exact (other_events_keep_control example_uuid true
           [("type", VStr "exec_command_begin"); ("call_id", VStr "cmd-1")] initial eq_refl).
Defined.

Section TurnEnd.
Variable uuid : nat -> string.
Variable useAppServer : bool.

(** An effect that is none of the three signals of the end of a turn. *)
Lemma quiet_occurrences (log : list effect) :
  Forall quiet log ->
  occurrences is_ready log = 0%nat
  /\ occurrences is_diff_reset log = 0%nat
  /\ occurrences is_converter_reset log = 0%nat.
Proof.
  unfold occurrences. induction 1 as [|e log He _ IH]; [repeat split|].
  destruct IH as (I1 & I2 & I3).
  destruct e; cbn [List.filter is_ready is_diff_reset is_converter_reset];
    try (repeat split; assumption); destruct He.
Qed.

Lemma step_quiet (msg : obj) (s : state) :
  is_terminal (type_of msg) = false ->
  Forall quiet (snd (step uuid useAppServer msg s)).
Proof.
  intros H.
  enough (G : emits quiet (handleCodexEvent uuid useAppServer msg)).
  { specialize (G s). unfold step.
    destruct (handleCodexEvent uuid useAppServer msg s) as [[u s'] log]. exact G. }
  unfold handleCodexEvent.
  destruct (asString (get "type" msg)) as [ty|] eqn:Hm; [|apply emits_ret].
  apply ConverterFacts.asString_nonempty in Hm as [Hty _].
  unfold type_of in H. rewrite Hty in H. rewrite H.
  unfold is_terminal in H.
  apply orb_false_elim in H as [H H3]. apply orb_false_elim in H as [H1 H2].
  unfold toolCalls, toolBegin, toolEnd, display, onTurnPlanUpdated,
    onAgentPlanDelta, emitToolCall, emitToolResult, passThrough, onThinkingChange, when.
  unfold extractCallId.
  rewrite H1, H2, H3.
  cbv iota.
  repeat match goal with
    | H : false = true |- _ => discriminate H
    | |- emits _ (bind _ _) => apply emits_bind; [|intros ?]
    | |- emits _ (ret _) => apply emits_ret
    | |- emits _ (read _) => apply emits_read
    | |- emits _ (update _) => apply emits_update
    | |- emits _ (randomUUID _) => apply emits_randomUUID
    | |- emits _ (if ?c then _ else _) => destruct c eqn:?
    | |- emits _ (match ?x with _ => _ end) => destruct x eqn:?
    | |- emits _ (perform _) => apply emits_perform; exact I
    end.
Qed.

(** X23. The handler signals the end of a turn on the three terminal
    events only: an event of any other type sends no ready signal and
    resets neither the diff processor nor the converter. *)
Theorem signals_only_at_turn_end (msg : obj) (s : state) :
  is_terminal (type_of msg) = false ->
  occurrences is_ready (snd (step uuid useAppServer msg s)) = 0%nat
  /\ occurrences is_diff_reset (snd (step uuid useAppServer msg s)) = 0%nat
  /\ occurrences is_converter_reset (snd (step uuid useAppServer msg s)) = 0%nat.
Proof. intros H. apply quiet_occurrences, step_quiet, H. Qed.

Lemma step_settles (msg : obj) (s : state) :
  is_terminal (type_of msg) = true ->
  let r := step uuid useAppServer msg s in
  currentTurnId (fst r) = None
  /\ thinking (fst r) = false
  /\ turnInFlight (fst r) = (if useAppServer then false else turnInFlight s)
  /\ currentThreadId (fst r) = currentThreadId s
  /\ occurrences is_ready (snd r) = 1%nat
  /\ occurrences is_diff_reset (snd r) = 1%nat
  /\ occurrences is_converter_reset (snd r) = (if useAppServer then 1 else 0)%nat.
Proof.
  intros H r. subst r. unfold type_of in H.
  destruct (get "type" msg) as [| | | |T| |] eqn:Hty; try discriminate H.
  destruct s as [cth ctu tif th plans n].
  apply is_terminal_inv in H as [-> | [-> | ->]];
    run_handler Hty; unfold onTerminal;
    destruct (asString (pick msg ["turn_id"; "turnId"])) as [t|];
    destruct useAppServer, th; run_monad;
    try (destruct (plans !! t) as [c|]; [destruct (nonempty c)|]); run_monad;
    try destruct (asString (get "error" msg));
    run_monad; repeat split.
Qed.

(** X24. A terminal event settles the turn. Whatever the state, after
    [task_complete], [turn_aborted] or [task_failed] there is no current
    turn and the session is not thinking; the handler has sent one ready
    signal and reset the diff processor once; in app-server mode no turn is
    in flight any more and the converter was reset once, in MCP mode the
    in-flight flag is not written and there is no converter to reset. *)
Theorem turn_end_settles (msg : obj) (s : state) :
  is_terminal (type_of msg) = true ->
  let r := step uuid useAppServer msg s in
  currentTurnId (fst r) = None
  /\ thinking (fst r) = false
  /\ turnInFlight (fst r) = (if useAppServer then false else turnInFlight s)
  /\ currentThreadId (fst r) = currentThreadId s
  /\ occurrences is_ready (snd r) = 1%nat
  /\ occurrences is_diff_reset (snd r) = 1%nat
  /\ occurrences is_converter_reset (snd r) = (if useAppServer then 1 else 0)%nat.
Proof. apply step_settles. Qed.

End TurnEnd.

Lemma signals_only_at_turn_end_witness :
  let msg := [("type", VStr "task_started"); ("turn_id", VStr "t1")] in
  occurrences is_ready (snd (step example_uuid true msg initial)) = 0%nat
  /\ occurrences is_diff_reset (snd (step example_uuid true msg initial)) = 0%nat
  /\ occurrences is_converter_reset (snd (step example_uuid true msg initial)) = 0%nat.
Proof.
  intros msg. exact (signals_only_at_turn_end example_uuid true msg initial eq_refl).
Defined.

Lemma turn_end_settles_witness :
  let msg := [("type", VStr "turn_aborted"); ("turn_id", VStr "t1")] in
  let s := fst (step example_uuid true [("type", VStr "task_started"); ("turn_id", VStr "t1")]
                  initial) in
  let r := step example_uuid true msg s in
  currentTurnId (fst r) = None
  /\ thinking (fst r) = false
  /\ turnInFlight (fst r) = false
  /\ currentThreadId (fst r) = currentThreadId s
  /\ occurrences is_ready (snd r) = 1%nat
  /\ occurrences is_diff_reset (snd r) = 1%nat
  /\ occurrences is_converter_reset (snd r) = 1%nat.
Proof.
  intros msg s. exact (turn_end_settles example_uuid true msg s eq_refl).
Defined.

Lemma length_append (a b : string) :
  String.length (a +:+ b) = (String.length a + String.length b)%nat.
Proof.
  induction a as [|c a IH]; [reflexivity|].
  change (String c a +:+ b) with (String c (a +:+ b)).
  cbn [String.length]. rewrite IH. reflexivity.
Qed.

Lemma length_prefix (n : nat) (s : string) : (String.length (prefix n s) <= n)%nat.
Proof.
  unfold prefix. revert s. induction n as [|n IH]; intros s.
  - destruct s; cbn; lia.
  - destruct s as [|c s]; cbn [substring String.length]; [lia|].
    specialize (IH s). lia.
Qed.

Lemma plan_delta_call_answered_twice_witness :
  let d := [("type", VStr "agent_plan_delta"); ("item_id", VStr "plan-1");
            ("turn_id", VStr "t1"); ("delta", VStr "1. read")] in
  let c := [("type", VStr "plan_item_completed"); ("call_id", VStr "plan-1");
            ("item_id", VStr "plan-1"); ("turn_id", VStr "t1")] in
  let te := [("type", VStr "task_complete"); ("turn_id", VStr "t1")] in
  let r1 := step example_uuid true d initial in
  let r2 := step example_uuid true c (fst r1) in
  let r3 := step example_uuid true te (fst r2) in
  exists call first second,
    toolCallsOf (snd r1) = [call]
    /\ toolResultsOf (snd r2) = [first]
    /\ toolResultsOf (snd r3) = [second]
    /\ get "callId" call = VStr "plan-1"
    /\ get "callId" first = VStr "plan-1"
    /\ get "callId" second = VStr "plan-1".
Proof.
  intros d c te.
  exact (plan_delta_call_answered_twice example_uuid true d c te "plan-1" "t1" "task_complete"
           initial eq_refl eq_refl eq_refl eq_refl eq_refl eq_refl eq_refl eq_refl eq_refl).
Defined.

Section Previews.
Variable uuid : nat -> string.
Variable useAppServer : bool.

(** X25. The previews shown are cut. What the handler hands to the message
    buffer for a reasoning, for the end of a command and for the end of a
    patch is never longer than 211 characters, however long the text, the
    output or the error of the event is. *)
Theorem previews_are_cut (msg : obj) (s : state) :
  existsb (String.eqb (type_of msg)) ["agent_reasoning"; "exec_command_end"; "patch_apply_end"]
  = true ->
  Forall (fun text => (String.length text <= 211)%nat)
    (shown (snd (step uuid useAppServer msg s))).
Proof.
  intros H. unfold type_of in H.
  destruct (get "type" msg) as [| | | |T| |] eqn:Hty; try discriminate H.
  cbn [existsb] in H. destruct s as [cth ctu tif th plans n].
  repeat match type of H with
    | (String.eqb T ?l || _) = true =>
        destruct (String.eqb_spec T l) as [-> | _]; [clear H | cbn [orb] in H]
    end; try discriminate H;
    run_handler Hty; unfold extractCallId;
    try destruct (asString (get "text" msg)) as [text|];
    try destruct (asString (pick msg ["call_id"; "callId"; "item_id"; "itemId"]));
    try destruct (truthy (get "success" msg));
    run_monad; unfold shown; cbn [snd flat_map app];
    (first [apply List.Forall_nil | apply List.Forall_cons; [|apply List.Forall_nil]]);
    rewrite ?length_append;
    repeat match goal with
      | |- context [String.length (prefix ?k ?t)] =>
          pose proof (length_prefix k t); generalize dependent (String.length (prefix k t));
          intros
      end;
    try match goal with
      | |- context [if ?c then _ else _] => destruct c
      end;
    cbn [String.length]; lia.
Qed.

End Previews.

Lemma previews_are_cut_witness :
  let msg := [("type", VStr "exec_command_end"); ("call_id", VStr "cmd-1");
              ("output", VStr "ok")] in
  Forall (fun text => (String.length text <= 211)%nat)
    (shown (snd (step example_uuid true msg initial))).
Proof.
  intros msg. exact (previews_are_cut example_uuid true msg initial eq_refl).
Defined.

Lemma rev_onto_rev_onto (s a b : string) :
  string_rev_onto (string_rev_onto s a) b = string_rev_onto a (s +:+ b).
Proof.
  revert a b. induction s as [|c s IH]; intros a b; [reflexivity|].
  cbn [string_rev_onto]. rewrite IH. reflexivity.
Qed.

Lemma string_rev_involutive (s : string) : string_rev (string_rev s) = s.
Proof.
  unfold string_rev. rewrite rev_onto_rev_onto. cbn [string_rev_onto].
  apply append_nil_r.
Qed.

Lemma rev_onto_append (s acc : string) :
  string_rev_onto s acc = string_rev_onto s EmptyString +:+ acc.
Proof.
  revert acc. induction s as [|c s IH]; intros acc; [reflexivity|].
  cbn [string_rev_onto]. rewrite IH, (IH (String c EmptyString)), append_assoc.
  reflexivity.
Qed.

Lemma rev_onto_snoc (y : string) (c : ascii) (acc : string) :
  string_rev_onto (y +:+ String c EmptyString) acc = String c (string_rev_onto y acc).
Proof.
  revert acc. induction y as [|d y IH]; intros acc; [reflexivity|].
  change (String d y +:+ String c EmptyString) with (String d (y +:+ String c EmptyString)).
  cbn [string_rev_onto]. apply IH.
Qed.

Lemma trimStart_starts (s : string) : starts_with_space (trimStart s) = false.
Proof.
  induction s as [|c s IH]; [reflexivity|].
  cbn [trimStart]. destruct (is_space c) eqn:Hc; [exact IH|].
  cbn [starts_with_space]. exact Hc.
Qed.

Lemma trimStart_fixed (s : string) : starts_with_space s = false -> trimStart s = s.
Proof.
  destruct s as [|c s]; [reflexivity|].
  cbn [starts_with_space trimStart]. intros ->. reflexivity.
Qed.

Lemma trimStart_snoc (x : string) (c : ascii) :
  is_space c = false ->
  exists y, trimStart (x +:+ String c EmptyString) = y +:+ String c EmptyString.
Proof.
  intros Hc. induction x as [|d x IH].
  - exists EmptyString.
    change (EmptyString +:+ String c EmptyString) with (String c EmptyString).
    cbn [trimStart]. rewrite Hc. reflexivity.
  - change (String d x +:+ String c EmptyString) with (String d (x +:+ String c EmptyString)).
    cbn [trimStart]. destruct (is_space d); [exact IH|].
    exists (String d x). reflexivity.
Qed.

Lemma trim_starts (s : string) : starts_with_space (trim s) = false.
Proof.
  unfold trim. pose proof (trimStart_starts s) as Ht.
  destruct (trimStart s) as [|c t]; [reflexivity|]. cbn [starts_with_space] in Ht.
  unfold string_rev at 2. cbn [string_rev_onto]. rewrite rev_onto_append.
  destruct (trimStart_snoc (string_rev_onto t EmptyString) c Ht) as (y & ->).
  unfold string_rev. rewrite rev_onto_snoc. cbn [starts_with_space]. exact Ht.
Qed.

Lemma trim_ends (s : string) : ends_with_space (trim s) = false.
Proof.
  unfold ends_with_space, trim. rewrite string_rev_involutive. apply trimStart_starts.
Qed.

Lemma trim_idem (s : string) : trim (trim s) = trim s.
Proof.
  unfold trim at 1. rewrite (trimStart_fixed _ (trim_starts s)).
  unfold trim at 1. rewrite string_rev_involutive.
  rewrite (trimStart_fixed _ (trimStart_starts _)). reflexivity.
Qed.

(** X26. The command shown for a command that starts is in a normal form:
    [normalizeCommand] returns a string that is not empty; for a command
    given as a string it is the string without the white space around it,
    which neither begins nor ends with white space and is normalized to
    itself; for a command given as a list it is the strings of the list
    joined by a space. *)
Theorem normalizeCommand_normal_form (v : value) (c : string) :
  normalizeCommand v = Some c ->
  nonempty c = true
  /\ match v with
     | VStr s =>
         c = trim s
         /\ starts_with_space c = false
         /\ ends_with_space c = false
         /\ normalizeCommand (VStr c) = Some c
     | VArr l => c = join " " (Converter.string_parts l)
     | _ => False
     end.
Proof.
  destruct v as [| | | |s|l|]; try discriminate; cbn [normalizeCommand].
  - destruct (nonempty (trim s)) eqn:Hne; [|discriminate]. intros [= <-].
    split; [exact Hne|]. split; [reflexivity|].
    split; [apply trim_starts|]. split; [apply trim_ends|].
    rewrite trim_idem, Hne. reflexivity.
  - destruct (nonempty (join " " (Converter.string_parts l))) eqn:Hne; [|discriminate].
    intros [= <-]. split; [exact Hne | reflexivity].
Qed.

Lemma normalizeCommand_normal_form_witness :
  nonempty "ls -la" = true
  /\ ("ls -la" = trim "  ls -la "
      /\ starts_with_space "ls -la" = false
      /\ ends_with_space "ls -la" = false
      /\ normalizeCommand (VStr "ls -la") = Some "ls -la").
Proof.
  exact (normalizeCommand_normal_form (VStr "  ls -la ") "ls -la" eq_refl).
Defined.

(** X27. The preview of an output is its text as the converter reads it:
    [formatOutputPreview] gives what [asText] gives, and the empty string
    where [asText] gives nothing. *)
Theorem preview_is_text (v : value) :
  formatOutputPreview v = or_else (Converter.asText v) EmptyString.
Proof. destruct v; reflexivity. Qed.

End LauncherMore.

(* ===================================================================== *)
(** ** Properties of the notification handler *)
(* ===================================================================== *)

Module SessionFacts.
Import Js JsFacts Launcher LauncherFacts LauncherNotions LauncherMore Session ConverterNotions.

Lemma applyReset_quiet (log : list effect) (c : Converter.state) :
  Forall quiet log -> applyReset log c = c.
Proof.
  unfold applyReset. induction 1 as [|e log He _ IH]; [reflexivity|].
  cbn [existsb]. destruct e; try exact IH; destruct He.
Qed.

Lemma applyReset_once (log : list effect) (c : Converter.state) :
  occurrences is_converter_reset log = 1%nat -> applyReset log c = Converter.reset c.
Proof.
  unfold applyReset, occurrences. induction log as [|e log IH]; [discriminate|].
  cbn [existsb List.filter]. destruct e; cbn [is_converter_reset orb]; try exact IH.
  reflexivity.
Qed.

Lemma types_not_terminal (method ty : string) :
  String.eqb method "turn/completed" = false ->
  String.eqb method "error" = false ->
  existsb (String.eqb ty) (types_of method) = true ->
  is_terminal ty = false.
Proof.
  intros H1 H2. unfold types_of. rewrite H1, H2.
  ConverterMore.by_method method; unfold Converter.item_event_types; cbn [existsb];
    intros H; repeat (apply orb_prop in H as [H | H]); try discriminate H;
    apply String.eqb_eq in H; subst ty; reflexivity.
Qed.

Lemma terminal_event (method : string) (params : value) (c : Converter.state) :
  ends_turn method params = true ->
  exists e,
    Converter.handleNotification method params c = ([e], c)
    /\ is_terminal (type_of e) = true.
Proof.
  unfold ends_turn.
  destruct (String.eqb_spec method "turn/completed") as [-> | _]; cbn [orb].
  - intros _. unfold Converter.handleNotification. ConverterFacts.eval_eqb. cbv iota.
    repeat match goal with
      | |- context [if ?c then _ else _] => destruct c
      end;
      eexists; (split; [reflexivity|]); unfold type_of; ConverterFacts.obj_get; reflexivity.
  - destruct (String.eqb_spec method "error") as [-> | _]; [|discriminate].
    cbn [andb]. intros H. unfold Converter.handleNotification. ConverterFacts.eval_eqb.
    cbv iota. fold (Converter.params_of params).
    destruct (or_else _ false); [discriminate H|].
    eexists. split; [reflexivity|]. unfold type_of. ConverterFacts.obj_get. reflexivity.
Qed.

Lemma first_string_nonempty (candidates : list value) (t : string) :
  Converter.first_string candidates = Some t -> nonempty t = true.
Proof.
  induction candidates as [|v rest IH]; [discriminate|].
  cbn [Converter.first_string]. destruct (Converter.asString v) as [x|] eqn:Hx; [|exact IH].
  intros [= <-]. apply ConverterFacts.asString_nonempty in Hx as [_ Hx]. exact Hx.
Qed.

(** The turn an event of the converter is filed under is the one
    [extractTurnId] finds. *)
Lemma turn_of_event (target : obj) (p : record) (t : string) :
  Converter.extractTurnId p None = Some t ->
  asString (pick (Converter.addStableFields target p None None) ["turn_id"; "turnId"])
  = Some t.
Proof.
  intros Ht. pose proof (first_string_nonempty _ _ Ht) as Hne.
  unfold pick. cbn [List.map Converter.first_defined].
  unfold Converter.addStableFields. rewrite !ConverterFacts.get_put_text.
  ConverterFacts.eval_eqb. rewrite Ht, Hne. cbn. rewrite Hne. reflexivity.
Qed.

Section Notifications.
Variable uuid : nat -> string.

(** X28. A notification that ends a turn resets the converter. After
    [turn/completed], and after an [error] the server will not retry, the
    converter is as new whatever it had buffered, there is no current turn,
    no turn in flight, the session is not thinking, and one ready signal
    was sent. *)
Theorem turn_end_resets_converter
    (method : string) (params : value) (c : Converter.state) (s : state) :
  ends_turn method params = true ->
  let r := onNotification uuid method params c s in
  fst (fst r) = Converter.initial
  /\ currentTurnId (snd (fst r)) = None
  /\ turnInFlight (snd (fst r)) = false
  /\ thinking (snd (fst r)) = false
  /\ occurrences is_ready (snd r) = 1%nat.
Proof.
  intros H r. subst r. unfold onNotification.
  destruct (terminal_event method params c H) as (e & -> & He).
  cbn [deliver].
  pose proof (step_settles uuid true e s He) as (H1 & H2 & H3 & _ & H5 & _ & H7).
  destruct (step uuid true e s) as [s1 log1]. cbn [fst snd] in *.
  rewrite app_nil_r. rewrite (applyReset_once log1 c H7).
  repeat split; assumption.
Qed.

Lemma deliver_quiet (events : list obj) (c : Converter.state) (s : state) :
  Forall (fun e => is_terminal (type_of e) = false) events ->
  fst (fst (deliver uuid events c s)) = c
  /\ Forall quiet (snd (deliver uuid events c s)).
Proof.
  revert c s. induction events as [|e rest IH]; intros c s H.
  - split; [reflexivity | constructor].
  - apply Forall_cons in H as [He Hrest]. cbn [deliver].
    pose proof (step_quiet uuid true e s He) as Hq.
    destruct (step uuid true e s) as [s1 log1]. cbn [snd] in Hq.
    rewrite (applyReset_quiet log1 c Hq).
    specialize (IH c s1 Hrest). destruct (deliver uuid rest c s1) as [[c2 s2] log2].
    cbn [fst snd] in *. destruct IH as [-> IH2]. split; [reflexivity|].
    apply Forall_app. split; assumption.
Qed.

(** X29. Within a turn the converter keeps its buffers. A notification that
    does not end a turn leaves the converter as [handleNotification] left
    it: handling its events sends no ready signal and resets neither the
    diff processor nor the converter. *)
Theorem converter_kept_within_turn
    (method : string) (params : value) (c : Converter.state) (s : state) :
  Converter.wf c ->
  ends_turn method params = false ->
  let r := onNotification uuid method params c s in
  fst (fst r) = snd (Converter.handleNotification method params c)
  /\ Forall quiet (snd r).
Proof.
  intros Hwf H r. subst r. unfold onNotification.
  assert (Hev : Forall (fun e => is_terminal (type_of e) = false)
                  (fst (Converter.handleNotification method params c))).
  { unfold ends_turn in H. apply orb_false_elim in H as [H1 H2].
    destruct (String.eqb_spec method "error") as [-> | Herr].
    - cbn [andb] in H2. apply negb_false_iff in H2.
      unfold Converter.handleNotification. ConverterFacts.eval_eqb. cbv iota.
      fold (Converter.params_of params). rewrite H2. constructor.
    - apply List.Forall_forall. intros e Hin.
      destruct (ConverterMore.handle_typed method params c e Hwf Hin) as (ty & Hty & Hin').
      unfold type_of. rewrite Hty.
      apply (types_not_terminal method ty H1); [|exact Hin'].
      apply String.eqb_neq. exact Herr. }
  destruct (Converter.handleNotification method params c) as [events c1].
  cbn [fst snd] in *. apply deliver_quiet. exact Hev.
Qed.

(** X30. A plan shown during a turn is closed when the turn completes.
    When [turn/plan/updated] and [turn/completed] name the same turn, the
    first sends one ExitPlanMode tool call and the second one tool result,
    both under the call id [turn-plan:] followed by the turn id; afterwards
    no plan call is recorded for the turn and the converter is as new. *)
Theorem plan_call_closed_by_turn_completed
    (p1 p2 : value) (t : string) (c : Converter.state) (s : state) :
  Converter.extractTurnId (Converter.params_of p1) None = Some t ->
  Converter.extractTurnId (Converter.params_of p2) None = Some t ->
  let r1 := onNotification uuid "turn/plan/updated" p1 c s in
  let r2 := onNotification uuid "turn/completed" p2 (fst (fst r1)) (snd (fst r1)) in
  exists call result,
    toolCallsOf (snd r1) = [call]
    /\ toolResultsOf (snd r1) = []
    /\ toolCallsOf (snd r2) = []
    /\ toolResultsOf (snd r2) = [result]
    /\ get "name" call = VStr "ExitPlanMode"
    /\ get "callId" call = VStr ("turn-plan:" +:+ t)
    /\ get "callId" result = VStr ("turn-plan:" +:+ t)
    /\ planCallIdByTurn (snd (fst r2)) !! t = None
    /\ fst (fst r2) = Converter.initial.
Proof.
  intros Ht1 Ht2 r1 r2. subst r1 r2. unfold onNotification.
  (* the plan update *)
  assert (E1 : exists e1,
             Converter.handleNotification "turn/plan/updated" p1 c = ([e1], c)
             /\ get "type" e1 = VStr "turn_plan_updated"
             /\ asString (pick e1 ["turn_id"; "turnId"]) = Some t).
  { unfold Converter.handleNotification. ConverterFacts.eval_eqb. cbv iota.
    fold (Converter.params_of p1). eexists. split; [reflexivity|]. split.
    - ConverterFacts.obj_get. destruct (prop (Converter.params_of p1) "plan"); reflexivity.
    - apply turn_of_event. exact Ht1. }
  destruct E1 as (e1 & -> & Hty1 & Hturn1). cbn [deliver].
  destruct (step_turn_plan_updated uuid true e1 t s Hty1 Hturn1)
    as (call & Hc1 & Hr1 & Hname & Hid & Hplans).
  assert (Hq : Forall quiet (snd (step uuid true e1 s))).
  { apply step_quiet. unfold type_of. rewrite Hty1. reflexivity. }
  destruct (step uuid true e1 s) as [s1 log1]. cbn [fst snd] in *.
  rewrite app_nil_r. rewrite (applyReset_quiet log1 c Hq).
  (* the completion *)
  destruct (terminal_event "turn/completed" p2 c eq_refl) as (e2 & He2 & Hterm).
  assert (Hturn2 : asString (pick e2 ["turn_id"; "turnId"]) = Some t).
  { revert He2. unfold Converter.handleNotification. ConverterFacts.eval_eqb. cbv iota.
    fold (Converter.params_of p2).
    repeat match goal with
      | |- context [if ?c then _ else _] => destruct c
      end;
      intros [= <-]; apply turn_of_event; exact Ht2. }
  rewrite He2. cbn [deliver].
  unfold type_of in Hterm.
  destruct (get "type" e2) as [| | | |T| |] eqn:Hty2; try discriminate Hterm.
  assert (Hopen : planCallIdByTurn s1 !! t = Some ("turn-plan:" +:+ t)).
  { rewrite Hplans. apply lookup_insert_eq. }
  assert (Hne : nonempty ("turn-plan:" +:+ t) = true).
  { rewrite nonempty_append. reflexivity. }
  destruct (step_terminal uuid true e2 T t _ s1 Hty2 Hterm Hturn2 Hopen Hne)
    as (result & Hc2 & Hr2 & Hid2 & _ & _ & Hplans2).
  assert (Hreset : occurrences is_converter_reset (snd (step uuid true e2 s1)) = 1%nat).
  { apply (step_settles uuid true e2 s1). unfold type_of. rewrite Hty2. exact Hterm. }
  destruct (step uuid true e2 s1) as [s2 log2]. cbn [fst snd] in *.
  rewrite app_nil_r. rewrite (applyReset_once log2 c Hreset).
  exists call, result. repeat split; try assumption.
  rewrite Hplans2. apply lookup_delete_eq.
Qed.

End Notifications.

Lemma turn_end_resets_converter_witness :
  let c := snd (Converter.run [Converter.messageDelta "m1" "Hel"] Converter.initial) in
  let r := onNotification example_uuid "turn/completed"
             (VObj [("turn", VObj [("id", VStr "t1"); ("status", VStr "interrupted")])])
             c initial in
  fst (fst r) = Converter.initial
  /\ currentTurnId (snd (fst r)) = None
  /\ turnInFlight (snd (fst r)) = false
  /\ thinking (snd (fst r)) = false
  /\ occurrences is_ready (snd r) = 1%nat.
Proof.
  intros c.
  exact (turn_end_resets_converter example_uuid "turn/completed" _ c initial eq_refl).
Defined.

Lemma converter_kept_within_turn_witness :
  let note := Converter.messageDelta "m1" "Hel" in
  let r := onNotification example_uuid (fst note) (snd note) Converter.initial initial in
  fst (fst r) = snd (Converter.handleNotification (fst note) (snd note) Converter.initial)
  /\ Forall quiet (snd r).
Proof.
  intros note.
  exact (converter_kept_within_turn example_uuid (fst note) (snd note) Converter.initial
           initial ConverterFacts.wf_initial eq_refl).
Defined.

Lemma plan_call_closed_by_turn_completed_witness :
  let p1 := VObj [("turnId", VStr "t1"); ("plan", VArr [])] in
  let p2 := VObj [("turn", VObj [("id", VStr "t1"); ("status", VStr "completed")])] in
  let r1 := onNotification example_uuid "turn/plan/updated" p1 Converter.initial initial in
  let r2 := onNotification example_uuid "turn/completed" p2 (fst (fst r1)) (snd (fst r1)) in
  exists call result,
    toolCallsOf (snd r1) = [call]
    /\ toolResultsOf (snd r1) = []
    /\ toolCallsOf (snd r2) = []
    /\ toolResultsOf (snd r2) = [result]
    /\ get "name" call = VStr "ExitPlanMode"
    /\ get "callId" call = VStr ("turn-plan:" +:+ "t1")
    /\ get "callId" result = VStr ("turn-plan:" +:+ "t1")
    /\ planCallIdByTurn (snd (fst r2)) !! "t1" = None
    /\ fst (fst r2) = Converter.initial.
Proof.
  intros p1 p2.
  exact (plan_call_closed_by_turn_completed example_uuid p1 p2 "t1" Converter.initial initial
           eq_refl eq_refl).
Defined.

End SessionFacts.
